(** * Staff task-reporting portal: session tokens, daily reports, tasks, staff

    A shallow embedding of the request handlers of the portal and of the
    session codec they share, followed by the properties the specification
    states about them.

    Conventions of the embedding.
    - Instants ([Date] objects, [Date.now()]) are integers, milliseconds
      since the epoch.  A [Date] built from text may be an Invalid Date;
      such values are [option Z] with [None] for Invalid Date.
    - Every clock read of the source ([new Date()], [Date.now()]) is an
      explicit argument of the embedded function.
    - The local-time methods of [Date] ([setHours], [getHours],
      [setDate]) follow the time zone of the host, which is an argument of
      the functions that use them: a zone gives the offset from UTC in
      force at each instant, so it may change through the year.
    - A handler is a function from the request and the data store to a
      response and the data store afterwards.  An exception raised inside
      the handler's [try] block is [None] in the error monad [M]; the
      [catch] clause turns it into the handler's status-500 response.
    - The tables of the data store are lists of rows in insertion order. *)

From Stdlib Require Import ZArith List String Ascii Bool Lia.
From Stdlib Require Import Permutation Sorted.
Import ListNotations.
Open Scope Z_scope.

(** ** JavaScript values shared by the handlers *)

Module Js.

(** [!s] for a value of type [string | undefined | null]: the empty string
    and the absent value are the falsy ones. *)
Definition truthy (s : option string) : bool :=
  match s with
  | Some s => negb (s =? "")%string
  | None => false
  end.

End Js.

(** ** The session codec (lib/auth) *)

Module Auth.

Record SessionPayload := {
  userId : Z;
  username : string;
  role : string;
  expiresAt : Z
}.

(** The claims set of a token.  [session] holds the four claims of
    [SessionPayload] ([expiresAt] travels as ISO-8601 text with millisecond
    precision, which denotes the same instant); [iat], [nbf] and [exp] are
    the registered claims, in seconds. *)
Record JWTPayload := {
  session : SessionPayload;
  iat : option Z;
  nbf : option Z;
  exp : option Z
}.

(** A cookie value seen through the compact serialization: either three
    segments that decode to a protected header (its [alg]), a claims set and
    a signature, or any other text. *)
Inductive Token :=
| Text (s : string)
| Compact (alg : string) (payload : JWTPayload) (signature : Z).

(** The ways [jwtVerify] rejects a token. *)
Inductive JoseError :=
| JWSInvalid
| JOSEAlgNotAllowed
| JWSSignatureVerificationFailed
| JWTClaimValidationFailed
| JWTExpired.

(** [epoch(date)]: whole seconds. *)
Definition epoch (ms : Z) : Z := ms / 1000.

(** [secs("1d")]. *)
Definition secs_1d : Z := 86400.

Section Codec.

(** [process.env.JWT_SECRET]. *)
Variable JWT_SECRET : option string.

(** The MAC of HS256 over the signing input (protected header and claims
    set) under a key. *)
Variable HS256 : string -> string -> JWTPayload -> Z.

Definition secretKey : string :=
  if Js.truthy JWT_SECRET
  then match JWT_SECRET with Some s => s | None => EmptyString end
  else "your-secret-key-change-in-production"%string.

Definition key : string := secretKey.

(** [new SignJWT({...payload}).setProtectedHeader({alg: "HS256"})
      .setIssuedAt().setExpirationTime("1d").sign(key)].
    [issuedNow] and [expiryNow] are the clock reads of [setIssuedAt] and of
    [setExpirationTime]. *)
Definition encrypt (issuedNow expiryNow : Z) (payload : SessionPayload) : Token :=
  let claims := {| session := payload;
                   iat := Some (epoch issuedNow);
                   nbf := None;
                   exp := Some (epoch expiryNow + secs_1d) |} in
  Compact "HS256" claims (HS256 key "HS256" claims).

(** [jwtVerify(session, key, {algorithms: ["HS256"]})] at clock read [now]:
    structure, permitted algorithm, signature, then the time claims. *)
Definition jwtVerify (now : Z) (jwt : Token) (algorithms : list string)
  : JoseError + JWTPayload :=
  match jwt with
  | Text _ => inl JWSInvalid
  | Compact alg payload signature =>
      if negb (existsb (String.eqb alg) algorithms) then inl JOSEAlgNotAllowed
      else if negb (signature =? HS256 key alg payload)
      then inl JWSSignatureVerificationFailed
      else if match nbf payload with
              | Some n => n >? epoch now
              | None => false
              end
      then inl JWTClaimValidationFailed
      else if match exp payload with
              | Some e => e <=? epoch now
              | None => false
              end
      then inl JWTExpired
      else inr payload
  end.

(** [!session] on a cookie value. *)
Definition falsy (session : Token) : bool :=
  match session with
  | Text s => (s =? "")%string
  | Compact _ _ _ => false
  end.

(** [decrypt(session: string | undefined = "")]. *)
Definition decrypt (now : Z) (session : option Token) : option JWTPayload :=
  let session := match session with Some s => s | None => Text "" end in
  if falsy session then None
  else match jwtVerify now session ["HS256"%string] with
       | inr payload => Some payload
       | inl _ => None
       end.

(** [createSession]: the token that is stored in the cookie. [now] is the
    read of [Date.now()]. *)
Definition createSession (now issuedNow expiryNow : Z)
  (userId : Z) (username role : string) : Token :=
  let expiresAt := now + 24 * 60 * 60 * 1000 in
  encrypt issuedNow expiryNow
    {| userId := userId; username := username; role := role;
       expiresAt := expiresAt |}.

End Codec.

End Auth.

(** ** The time zone of the host *)

Module Zone.

(** The two readings ECMAScript takes from the host's time zone, in
    milliseconds east of UTC: the offset in force at an instant
    ([LocalTZA(t, true)]), and the offset by which a local time is read
    ([LocalTZA(t, false)]: at a change of offset a local time that the
    clock skips or shows twice is read with the offset in force before the
    change). *)
Record t := {
  offsetAt : Z -> Z;
  offsetOf : Z -> Z
}.

(** A zone whose offset never changes. *)
Definition fixed (offset : Z) : t :=
  {| offsetAt := fun _ => offset; offsetOf := fun _ => offset |}.

End Zone.

(** ** [Date] arithmetic in the host's local time *)

Module JsDate.

(** A [Date] object: [None] is Invalid Date. *)
Definition Date := option Z.

Definition msPerHour : Z := 3600000.
Definition msPerDay : Z := 86400000.

(** [Day(t)], the number of the day of a time value. *)
Definition Day (t : Z) : Z := t / msPerDay.

Section LocalTime.

Variable zone : Zone.t.

(** [LocalTime(t)]: the local time value of an instant. *)
Definition LocalTime (t : Z) : Z := t + Zone.offsetAt zone t.

(** [UTC(t)]: the instant of a local time value. *)
Definition UTC (t : Z) : Z := t - Zone.offsetOf zone t.

(** [d.getHours()]; [None] is NaN. *)
Definition getHours (d : Date) : option Z :=
  option_map (fun t => (LocalTime t mod msPerDay) / msPerHour) d.

(** [d.setHours(h, m, s, ms)]: the given time on the local day of [d]. *)
Definition setHours (d : Date) (h m s ms : Z) : Date :=
  option_map
    (fun t =>
       UTC (Day (LocalTime t) * msPerDay
            + (h * msPerHour + m * 60000 + s * 1000 + ms)))
    d.

(** [d.setHours(h)]: minutes, seconds and milliseconds are kept. *)
Definition setHours1 (d : Date) (h : option Z) : Date :=
  match d, h with
  | Some t, Some h =>
      Some (UTC (Day (LocalTime t) * msPerDay
                 + (h * msPerHour + LocalTime t mod msPerHour)))
  | _, _ => None
  end.

(** [d.setDate(d.getDate() + 1)]: the same local time on the next day. *)
Definition nextDate (d : Date) : Date :=
  option_map (fun t => UTC (LocalTime t + msPerDay)) d.

End LocalTime.

(** [a > b]; a comparison with Invalid Date is false. *)
Definition gt (a b : Date) : bool :=
  match a, b with
  | Some x, Some y => x >? y
  | _, _ => false
  end.

End JsDate.

(** ** The data store *)

Module User.
Record t := {
  id : Z;
  username : string;
  password : string;
  role : string;
  position : option string;
  createdAt : Z
}.
End User.

Module Task.
Record t := {
  id : Z;
  date : Z;
  taskName : string;
  plan : string;
  result : string;
  userId : Z;
  createdAt : Z
}.
End Task.

Module DailyReport.
Record t := {
  id : Z;
  date : Z;
  userId : Z;
  submitted : bool;
  submittedAt : option Z;
  createdAt : Z
}.
End DailyReport.

(** The three tables, and the AUTOINCREMENT sequence of the report table
    (the largest id handed out so far). *)
Record Db := {
  users : list User.t;
  tasks : list Task.t;
  reports : list DailyReport.t;
  reportSeq : Z
}.

(** ** Exceptions inside a handler's [try] block *)

Definition M (A : Type) : Type := option A.
Definition ret {A} (a : A) : M A := Some a.
Definition throw {A} : M A := None.
Definition bind {A B} (m : M A) (k : A -> M B) : M B :=
  match m with
  | Some a => k a
  | None => None
  end.

Notation "x <- m ;; k" := (bind m (fun x => k))
  (at level 61, m at next level, right associativity).
Notation "' p <- m ;; k" := (bind m (fun x => let p := x in k))
  (at level 61, p pattern, m at next level, right associativity).

(** ** The query interface *)

Module Prisma.

(** A filter [{ gte: a, lte: b }] on a DateTime column.  An Invalid Date in
    a query argument is rejected before the query runs. *)
Definition gte_lte (a b : JsDate.Date) : M (Z -> bool) :=
  match a, b with
  | Some a, Some b => ret (fun d => (a <=? d) && (d <=? b))
  | _, _ => throw
  end.

(** A filter [{ gte: a, lt: b }]. *)
Definition gte_lt (a b : JsDate.Date) : M (Z -> bool) :=
  match a, b with
  | Some a, Some b => ret (fun d => (a <=? d) && (d <? b))
  | _, _ => throw
  end.

Section Table.
Context {Row : Type}.
Variable id : Row -> Z.

Definition count (where_ : Row -> bool) (rows : list Row) : Z :=
  Z.of_nat (List.length (filter where_ rows)).

Definition findFirst (where_ : Row -> bool) (rows : list Row) : option Row :=
  find where_ rows.

Definition findUnique (i : Z) (rows : list Row) : option Row :=
  find (fun r => id r =? i) rows.

(** [update({ where: { id }, data })]: the updated row and the table; raises
    when no row has the id. *)
Definition update (i : Z) (data : Row -> Row) (rows : list Row)
  : M (Row * list Row) :=
  match findUnique i rows with
  | Some r =>
      ret (data r, map (fun r => if id r =? i then data r else r) rows)
  | None => throw
  end.

(** [delete({ where: { id } })]; raises when no row has the id. *)
Definition delete (i : Z) (rows : list Row) : M (list Row) :=
  match findUnique i rows with
  | Some _ => ret (filter (fun r => negb (id r =? i)) rows)
  | None => throw
  end.

(** [orderBy: { col: "asc" }]; rows with equal keys keep the order of the
    table. *)
Fixpoint insertAsc (col : Row -> Z) (r : Row) (rows : list Row) : list Row :=
  match rows with
  | [] => [r]
  | r' :: rest =>
      if col r <=? col r' then r :: rows else r' :: insertAsc col r rest
  end.

Definition orderByAsc (col : Row -> Z) (rows : list Row) : list Row :=
  fold_right (insertAsc col) [] rows.

End Table.

(** [dailyReport.create]: the next id of the sequence; raises on a breach
    of the unique index [DailyReport_date_userId_key] on (date, userId). *)
Definition createReport (date userId : Z) (submitted : bool)
  (submittedAt : option Z) (createdAt : Z) (db : Db)
  : M (DailyReport.t * Db) :=
  if existsb (fun r => (DailyReport.date r =? date)
                       && (DailyReport.userId r =? userId)) (reports db)
  then throw
  else
    let r := {| DailyReport.id := reportSeq db + 1;
                DailyReport.date := date;
                DailyReport.userId := userId;
                DailyReport.submitted := submitted;
                DailyReport.submittedAt := submittedAt;
                DailyReport.createdAt := createdAt |} in
    ret (r, {| users := users db; tasks := tasks db;
               reports := reports db ++ [r];
               reportSeq := reportSeq db + 1 |}).

End Prisma.

(** ** Responses *)

(** The fields selected from a user row by [include: { user: { select } }]. *)
Record UserRef := {
  ref_id : Z;
  ref_username : string;
  ref_position : option string
}.

(** The fields selected from a staff row after an update. *)
Record StaffView := {
  view_id : Z;
  view_username : string;
  view_role : string;
  view_position : option string;
  view_createdAt : Z
}.

Inductive Body :=
| error (msg : string)
| message (msg : string)
| success
| report_of (r : DailyReport.t)
| task_of (t : Task.t)
| tasks_of (l : list (Task.t * UserRef))
| staff_of (u : StaffView).

Record Response := { body : Body; status : Z }.

(** [NextResponse.json(body, { status })]. *)
Definition json (b : Body) (s : Z) : Response := {| body := b; status := s |}.

(** [try { ... } catch { return 500 }] around a handler body: a raised
    exception leaves the store as it was. *)
Definition try_catch (body : M (Response * Db)) (msg : string) (db : Db)
  : Response * Db :=
  match body with
  | Some r => r
  | None => (json (error msg) 500, db)
  end.

Definition with_reports (db : Db) (rows : list DailyReport.t) : Db :=
  {| users := users db; tasks := tasks db; reports := rows;
     reportSeq := reportSeq db |}.

Definition with_tasks (db : Db) (rows : list Task.t) : Db :=
  {| users := users db; tasks := rows; reports := reports db;
     reportSeq := reportSeq db |}.

Definition with_users (db : Db) (rows : list User.t) : Db :=
  {| users := rows; tasks := tasks db; reports := reports db;
     reportSeq := reportSeq db |}.

(** The text of a value already tested truthy. *)
Definition text (s : option string) : string :=
  match s with Some s => s | None => EmptyString end.

(** The values of an [Int] argument of a query: 64-bit signed integers. *)
Definition fitsInt (n : Z) : bool :=
  (- 9223372036854775808 <=? n) && (n <=? 9223372036854775807).

(** A number handed to a query as an id: NaN ([None]) and a number that is
    no [Int] are rejected before the query runs. *)
Definition number (n : option Z) : M Z :=
  match n with
  | Some n => if fitsInt n then ret n else throw
  | None => throw
  end.

(** ** app/api/reports/route.ts *)

Module ReportsRoute.
Section Handlers.

Variable zone : Zone.t.

(** [new Date(dateStr)] on text. *)
Variable newDate : string -> JsDate.Date.

Definition getDateRange (dateStr : string) : JsDate.Date * JsDate.Date :=
  let start := JsDate.setHours zone (newDate dateStr) 0 0 0 0 in
  let end_ := JsDate.setHours zone (newDate dateStr) 23 59 59 999 in
  (start, end_).

(** The submission deadline of POST, lines 110-114. *)
Definition deadlineOf (date : string) : JsDate.Date :=
  let selectedDate := JsDate.setHours zone (newDate date) 23 59 59 999 in
  let deadline := selectedDate in
  JsDate.setHours1 zone deadline
    (option_map (fun h => h + 24) (JsDate.getHours zone deadline)).

(** The [where] clause shared by the three queries on (date, userId). *)
Definition ownedIn {Row} (userId : Row -> Z) (date : Row -> Z)
  (session : Auth.SessionPayload) (inRange : Z -> bool) (r : Row) : bool :=
  (userId r =? Auth.userId session) && inRange (date r).

(** The [data] of the update of an existing report:
    [{ submitted: true, submittedAt: new Date() }]. *)
Definition resubmitted (submitNow : Z) (r : DailyReport.t) : DailyReport.t :=
  {| DailyReport.id := DailyReport.id r;
     DailyReport.date := DailyReport.date r;
     DailyReport.userId := DailyReport.userId r;
     DailyReport.submitted := true;
     DailyReport.submittedAt := Some submitNow;
     DailyReport.createdAt := DailyReport.createdAt r |}.

(** POST: submit a daily report.  [date] is the [date] member of the JSON
    body, absent or text; [now] is the clock read of line 112 and
    [submitNow] the one that stamps the row. *)
Definition POST (session : option Auth.SessionPayload) (date : option string)
  (now submitNow : Z) (db : Db) : Response * Db :=
  try_catch
    (match session with
     | None => ret (json (error "Unauthorized") 401, db)
     | Some session =>
       if negb (Js.truthy date)
       then ret (json (error "Date is required") 400, db)
       else
         let date := text date in
         let '(start, end_) := getDateRange date in
         let deadline := deadlineOf date in
         if JsDate.gt (Some now) deadline
         then ret (json (error "Submission deadline passed. Reports can only be submitted within 24 hours after the report date.") 400, db)
         else
           inRange <- Prisma.gte_lte start end_ ;;
           let tasksCount :=
             Prisma.count (ownedIn Task.userId Task.date session inRange)
               (tasks db) in
           if tasksCount =? 0
           then ret (json (error "No tasks to submit for this date") 400, db)
           else
             let reportDate := JsDate.setHours zone (newDate date) 12 0 0 0 in
             let existingReport :=
               Prisma.findFirst
                 (ownedIn DailyReport.userId DailyReport.date session inRange)
                 (reports db) in
             match existingReport with
             | Some existingReport =>
                 ' (r, rows) <-
                   Prisma.update DailyReport.id (DailyReport.id existingReport)
                     (resubmitted submitNow) (reports db) ;;
                 ret (json (report_of r) 201, with_reports db rows)
             | None =>
                 reportDate <- reportDate ;;
                 ' (r, db') <-
                   Prisma.createReport reportDate (Auth.userId session) true
                     (Some submitNow) submitNow db ;;
                 ret (json (report_of r) 201, db')
             end
     end)
    "Failed to submit report" db.

(** DELETE: withdraw a submitted report.  [date] is the [date] search
    parameter. *)
Definition DELETE (session : option Auth.SessionPayload) (date : option string)
  (db : Db) : Response * Db :=
  try_catch
    (match session with
     | None => ret (json (error "Unauthorized") 401, db)
     | Some session =>
       if negb (Js.truthy date)
       then ret (json (error "Date is required") 400, db)
       else
         let date := text date in
         let '(start, end_) := getDateRange date in
         inRange <- Prisma.gte_lte start end_ ;;
         let report :=
           Prisma.findFirst
             (ownedIn DailyReport.userId DailyReport.date session inRange)
             (reports db) in
         match report with
         | None => ret (json (error "Report not found") 404, db)
         | Some report =>
             rows <- Prisma.delete DailyReport.id (DailyReport.id report)
                       (reports db) ;;
             ret (json (message "Report deleted successfully") 200,
                  with_reports db rows)
         end
     end)
    "Failed to delete report" db.

End Handlers.
End ReportsRoute.

(** ** app/api/tasks/route.ts *)

Module TasksRoute.
Section Handlers.

Variable zone : Zone.t.
Variable newDate : string -> JsDate.Date.

(** [parseInt(text)]; [None] is NaN. *)
Variable parseInt : string -> option Z.

(** The [where] clause built by GET: each member is absent or set. *)
Record WhereClause := {
  where_userId : option (option Z);
  where_date : option (JsDate.Date * JsDate.Date)
}.

Fixpoint includeUser (users : list User.t) (rows : list Task.t)
  : M (list (Task.t * UserRef)) :=
  match rows with
  | [] => ret []
  | t :: rest =>
      u <- Prisma.findUnique User.id (Task.userId t) users ;;
      rest' <- includeUser users rest ;;
      ret ((t, {| ref_id := User.id u;
                  ref_username := User.username u;
                  ref_position := User.position u |}) :: rest')
  end.

(** [task.findMany({ where, orderBy: { createdAt: "asc" }, include })]. *)
Definition findMany (whereClause : WhereClause) (db : Db)
  : M (list (Task.t * UserRef)) :=
  byUser <- match where_userId whereClause with
            | None => ret (fun _ : Z => true)
            | Some n => u <- number n ;; ret (fun i => i =? u)
            end ;;
  byDate <- match where_date whereClause with
            | None => ret (fun _ : Z => true)
            | Some (gte, lt) => Prisma.gte_lt gte lt
            end ;;
  includeUser (users db)
    (Prisma.orderByAsc Task.createdAt
       (filter (fun t => byUser (Task.userId t) && byDate (Task.date t))
          (tasks db))).

(** GET: [dateStr] and [userId] are the search parameters. *)
Definition GET (session : option Auth.SessionPayload)
  (dateStr userId : option string) (db : Db) : Response * Db :=
  try_catch
    (match session with
     | None => ret (json (error "Unauthorized") 401, db)
     | Some session =>
       let where_userId :=
         if (Auth.role session =? "admin")%string && Js.truthy userId
         then Some (parseInt (text userId))
         else if (Auth.role session =? "staff")%string
              then Some (Some (Auth.userId session))
              else None in
       let where_date :=
         if Js.truthy dateStr
         then
           let date := newDate (text dateStr) in
           let nextDay := JsDate.nextDate zone date in
           Some (date, nextDay)
         else None in
       tasks <- findMany {| where_userId := where_userId;
                            where_date := where_date |} db ;;
       ret (json (tasks_of tasks) 200, db)
     end)
    "Internal server error" db.

End Handlers.
End TasksRoute.

(** ** app/api/tasks/[id]/route.ts *)

Module TaskIdRoute.

(** A member of the JSON body of PUT: absent, text, or a value of another
    JSON type. *)
Inductive Field :=
| undefined
| str (s : string)
| other.

(** [field !== undefined ? field : prior]. *)
Definition orPrior (field : Field) (prior : string) : Field :=
  match field with
  | undefined => str prior
  | _ => field
  end.

(** A value written to a text column; only text is accepted. *)
Definition asText (field : Field) : M string :=
  match field with
  | str s => ret s
  | _ => throw
  end.

(** The [data] of the update: [{ taskName, plan, result }]. *)
Definition written (taskName plan result : string) (t : Task.t) : Task.t :=
  {| Task.id := Task.id t;
     Task.date := Task.date t;
     Task.taskName := taskName;
     Task.plan := plan;
     Task.result := result;
     Task.userId := Task.userId t;
     Task.createdAt := Task.createdAt t |}.

Section Handlers.

Variable parseInt : string -> option Z.

(** PUT: update a task.  [id] is the path parameter; [body] is what
    [request.json()] gives: the members [taskName], [plan] and [result] of
    the JSON body, or an exception when the body is no JSON object. *)
Definition PUT (session : option Auth.SessionPayload) (id : string)
  (body : M (Field * Field * Field)) (db : Db) : Response * Db :=
  try_catch
    (match session with
     | None => ret (json (error "Unauthorized") 401, db)
     | Some session =>
       let taskId := parseInt id in
       ' (taskName, plan, result) <- body ;;
       taskId <- number taskId ;;
       let existingTask := Prisma.findUnique Task.id taskId (tasks db) in
       match existingTask with
       | None => ret (json (error "Task not found") 404, db)
       | Some existingTask =>
         if negb (Auth.role session =? "admin")%string
            && negb (Task.userId existingTask =? Auth.userId session)
         then ret (json (error "Unauthorized") 401, db)
         else
           taskName' <- asText (orPrior taskName (Task.taskName existingTask)) ;;
           plan' <- asText (orPrior plan (Task.plan existingTask)) ;;
           result' <- asText (orPrior result (Task.result existingTask)) ;;
           ' (updatedTask, rows) <-
             Prisma.update Task.id taskId (written taskName' plan' result')
               (tasks db) ;;
           ret (json (task_of updatedTask) 200, with_tasks db rows)
       end
     end)
    "Internal server error" db.

(** DELETE: delete a task. *)
Definition DELETE (session : option Auth.SessionPayload) (id : string)
  (db : Db) : Response * Db :=
  try_catch
    (match session with
     | None => ret (json (error "Unauthorized") 401, db)
     | Some session =>
       let taskId := parseInt id in
       taskId <- number taskId ;;
       let existingTask := Prisma.findUnique Task.id taskId (tasks db) in
       match existingTask with
       | None => ret (json (error "Task not found") 404, db)
       | Some existingTask =>
         if negb (Auth.role session =? "admin")%string
            && negb (Task.userId existingTask =? Auth.userId session)
         then ret (json (error "Unauthorized") 401, db)
         else
           rows <- Prisma.delete Task.id taskId (tasks db) ;;
           ret (json success 200, with_tasks db rows)
       end
     end)
    "Internal server error" db.

End Handlers.
End TaskIdRoute.

(** ** app/api/staff/[id]/route.ts *)

Module StaffIdRoute.
Section Handlers.

Variable parseInt : string -> option Z.

(** [bcrypt.hash(password, 10)], salt included. *)
Variable bcrypt_hash : string -> string.

(** [!session || session.role !== "admin"]. *)
Definition notAdmin (session : option Auth.SessionPayload) : bool :=
  match session with
  | None => true
  | Some session => negb (Auth.role session =? "admin")%string
  end.

(** [!existingUser || existingUser.role !== "staff"]. *)
Definition notStaff (existingUser : option User.t) : bool :=
  match existingUser with
  | None => true
  | Some u => negb (User.role u =? "staff")%string
  end.

(** [user.update] with the members of [updateData]; raises on a breach of
    the unique index on [username]. *)
Definition updateUser (staffId : Z) (username : string)
  (password : option string) (position : string) (rows : list User.t)
  : M (User.t * list User.t) :=
  if existsb (fun u => (User.username u =? username)%string
                       && negb (User.id u =? staffId)) rows
  then throw
  else
    Prisma.update User.id staffId
      (fun u =>
         {| User.id := User.id u;
            User.username := username;
            User.password := match password with
                             | Some p => p
                             | None => User.password u
                             end;
            User.role := User.role u;
            User.position := Some position;
            User.createdAt := User.createdAt u |})
      rows.

(** PUT: update a staff user.  [id] is the path parameter; [username],
    [password] and [position] are the members of the JSON body. *)
Definition PUT (session : option Auth.SessionPayload) (id : string)
  (username password position : option string) (db : Db) : Response * Db :=
  try_catch
    (if notAdmin session
     then ret (json (error "Unauthorized") 401, db)
     else
       let staffId := parseInt id in
       if negb (Js.truthy username) || negb (Js.truthy position)
       then ret (json (error "Username and position are required") 400, db)
       else
         let username := text username in
         let position := text position in
         staffId <- number staffId ;;
         let existingUser := Prisma.findUnique User.id staffId (users db) in
         if notStaff existingUser
         then ret (json (error "Staff user not found") 404, db)
         else
           let usernameExists :=
             Prisma.findFirst
               (fun u => (User.username u =? username)%string
                         && negb (User.id u =? staffId))
               (users db) in
           match usernameExists with
           | Some _ => ret (json (error "Username already exists") 400, db)
           | None =>
             let updateData_password :=
               if Js.truthy password
               then Some (bcrypt_hash (text password))
               else None in
             ' (updatedStaff, rows) <-
               updateUser staffId username updateData_password position
                 (users db) ;;
             ret (json (staff_of
                          {| view_id := User.id updatedStaff;
                             view_username := User.username updatedStaff;
                             view_role := User.role updatedStaff;
                             view_position := User.position updatedStaff;
                             view_createdAt := User.createdAt updatedStaff |})
                        200,
                  with_users db rows)
           end)
    "Internal server error" db.

(** DELETE: delete a staff user. *)
Definition DELETE (session : option Auth.SessionPayload) (id : string)
  (db : Db) : Response * Db :=
  try_catch
    (if notAdmin session
     then ret (json (error "Unauthorized") 401, db)
     else
       let staffId := parseInt id in
       staffId <- number staffId ;;
       let existingUser := Prisma.findUnique User.id staffId (users db) in
       if notStaff existingUser
       then ret (json (error "Staff user not found") 404, db)
       else
         rows <- Prisma.delete User.id staffId (users db) ;;
         ret (json success 200, with_users db rows))
    "Internal server error" db.

End Handlers.
End StaffIdRoute.

(** ** Vocabulary of the properties *)

Module Spec.

(** The outcomes named by the specification, as the handlers answer them. *)
Definition Unauthorized : Response := json (error "Unauthorized") 401.
Definition DeadlinePassed : Response :=
  json (error "Submission deadline passed. Reports can only be submitted within 24 hours after the report date.") 400.
Definition NoTasksToSubmit : Response :=
  json (error "No tasks to submit for this date") 400.
Definition ReportNotFound : Response := json (error "Report not found") 404.
Definition TaskNotFound : Response := json (error "Task not found") 404.
Definition StaffNotFound : Response := json (error "Staff user not found") 404.

Section LocalTime.
Variable zone : Zone.t.

(** Number of the local calendar day that contains an instant. *)
Definition dayOf (t : Z) : Z := JsDate.Day (JsDate.LocalTime zone t).

(** The instant at which the local clock shows [r] milliseconds past
    midnight on the calendar day [day]. *)
Definition wall (day r : Z) : Z :=
  JsDate.UTC zone (day * JsDate.msPerDay + r).

(** Noon of a local calendar day. *)
Definition noon (day : Z) : Z := wall day (12 * JsDate.msPerHour).

(** The last millisecond of the local calendar day that contains [t]. *)
Definition endOfDay (t : Z) : Z := wall (dayOf t) 86399999.

(** The deadline that the submit handler enforces for a report date: the
    last millisecond of the local calendar day after the day of the date.
    Where the offset of the zone is the same at both ends this is
    [endOfDay(date) + 24h]. *)
Definition deadline (t : Z) : Z := wall (dayOf t + 1) 86399999.

(** The instant at which the local clock shows, on the next calendar
    day, the time it shows at [t]. *)
Definition nextDay (t : Z) : Z :=
  JsDate.UTC zone (JsDate.LocalTime zone t + JsDate.msPerDay).

(** A zone whose calendar days are whole: on every day the clock shows
    noon and 23:59:59.999 (neither is skipped by a change of offset), and
    the instants of a day are those from its 00:00:00.000 to its
    23:59:59.999.  Zones of a fixed offset are regular, and so are zones
    that change their offset in the small hours. *)
Record Regular : Prop := {
  noon_shown : forall day,
    JsDate.LocalTime zone (wall day (12 * JsDate.msPerHour))
    = day * JsDate.msPerDay + 12 * JsDate.msPerHour;
  end_shown : forall day,
    JsDate.LocalTime zone (wall day 86399999)
    = day * JsDate.msPerDay + 86399999;
  day_within : forall t, wall (dayOf t) 0 <= t <= wall (dayOf t) 86399999;
  day_only : forall day t,
    wall day 0 <= t <= wall day 86399999 -> dayOf t = day
}.

(** The rows of a (day, user) pair. *)
Definition onDay {Row} (userId date : Row -> Z) (u day : Z) (r : Row) : bool :=
  (userId r =? u) && (dayOf (date r) =? day).

Definition reportsOf (u day : Z) (db : Db) : list DailyReport.t :=
  filter (onDay DailyReport.userId DailyReport.date u day) (reports db).

Definition tasksOf (u day : Z) (db : Db) : list Task.t :=
  filter (onDay Task.userId Task.date u day) (tasks db).

(** The state of the report table that the handlers maintain: primary keys
    are distinct and were handed out by the sequence, and a (day, user)
    pair has at most one row. *)
Record ReportsOk (db : Db) : Prop := {
  ids_distinct : NoDup (map DailyReport.id (reports db));
  ids_issued : Forall (fun r => DailyReport.id r <= reportSeq db) (reports db);
  one_per_day : forall u day, (List.length (reportsOf u day db) <= 1)%nat
}.

End LocalTime.

(** The causes for which [decrypt] finds no session in a cookie value. *)
Inductive Rejected (secret : option string)
  (HS256 : string -> string -> Auth.JWTPayload -> Z) (now : Z)
  : option Auth.Token -> Prop :=
| missing_cookie : Rejected secret HS256 now None
| empty_cookie : Rejected secret HS256 now (Some (Auth.Text ""))
| malformed : forall s, Rejected secret HS256 now (Some (Auth.Text s))
| algorithm_not_allowed : forall alg p sig,
    alg <> "HS256"%string ->
    Rejected secret HS256 now (Some (Auth.Compact alg p sig))
| signature_mismatch : forall alg p sig,
    sig <> HS256 (Auth.key secret) alg p ->
    Rejected secret HS256 now (Some (Auth.Compact alg p sig))
| not_yet_valid : forall alg p sig n,
    Auth.nbf p = Some n -> Auth.epoch now < n ->
    Rejected secret HS256 now (Some (Auth.Compact alg p sig))
| expired : forall alg p sig e,
    Auth.exp p = Some e -> e <= Auth.epoch now ->
    Rejected secret HS256 now (Some (Auth.Compact alg p sig)).

(** The report table after the update of a resubmission. *)
Definition resubmit_rows (i submitNow : Z) (rows : list DailyReport.t)
  : list DailyReport.t :=
  map (fun r => if DailyReport.id r =? i
                then ReportsRoute.resubmitted submitNow r else r) rows.

(** A supplied member of an update is text. *)
Definition textual (f : TaskIdRoute.Field) : bool :=
  match f with
  | TaskIdRoute.other => false
  | _ => true
  end.

(** The value a column holds after a partial update. *)
Definition updated (f : TaskIdRoute.Field) (prior : string) : string :=
  match f with
  | TaskIdRoute.str s => s
  | _ => prior
  end.

End Spec.

(** ** Concrete built-ins and a small store, for running the handlers *)

Module Fixture.

Definition code (c : Ascii.ascii) : Z := Z.of_nat (Ascii.nat_of_ascii c).

Definition digit (c : Ascii.ascii) : option Z :=
  let n := code c in
  if (48 <=? n) && (n <=? 57) then Some (n - 48) else None.

Definition hexDigit (c : Ascii.ascii) : option Z :=
  let n := code c in
  if (48 <=? n) && (n <=? 57) then Some (n - 48)
  else if (65 <=? n) && (n <=? 70) then Some (n - 55)
  else if (97 <=? n) && (n <=? 102) then Some (n - 87)
  else None.

(** The integer spelled by the leading digits of a radix; NaN without
    one. *)
Fixpoint digits (digit : Ascii.ascii -> option Z) (radix : Z)
  (acc : option Z) (s : string) : option Z :=
  match s with
  | EmptyString => acc
  | String c rest =>
      match digit c with
      | Some d =>
          digits digit radix
            (Some (radix * match acc with Some a => a | None => 0 end + d))
            rest
      | None => acc
      end
  end.

(** Tab, line feed, vertical tab, form feed, carriage return, space. *)
Definition isSpace (c : Ascii.ascii) : bool :=
  let n := code c in ((9 <=? n) && (n <=? 13)) || (n =? 32).

Fixpoint trimStart (s : string) : string :=
  match s with
  | EmptyString => EmptyString
  | String c rest => if isSpace c then trimStart rest else s
  end.

(** [parseInt(text)] for text in ASCII: leading white space, a sign, the
    prefix 0x, then the leading digits.  The result is the exact integer,
    which is what JavaScript gives up to 2^53. *)
Definition parseInt (s : string) : option Z :=
  let s := trimStart s in
  let signed :=
    match s with
    | String c rest =>
        if Ascii.eqb c "-"%char then (-1, rest)
        else if Ascii.eqb c "+"%char then (1, rest) else (1, s)
    | EmptyString => (1, s)
    end in
  let sign := fst signed in
  let s := snd signed in
  let hex :=
    match s with
    | String c (String x rest) =>
        if Ascii.eqb c "0"%char && (Ascii.eqb x "x"%char || Ascii.eqb x "X"%char)
        then Some rest else None
    | _ => None
    end in
  option_map (Z.mul sign)
    match hex with
    | Some rest => digits hexDigit 16 None rest
    | None => digits digit 10 None s
    end.

(** Days from 1970-01-01 to a civil date. *)
Definition daysFromCivil (y m d : Z) : Z :=
  let y := if m <=? 2 then y - 1 else y in
  let era := y / 400 in
  let yoe := y - era * 400 in
  let doy := (153 * (if m >? 2 then m - 3 else m + 9) + 2) / 5 + d - 1 in
  let doe := yoe * 365 + yoe / 4 - yoe / 100 + doy in
  era * 146097 + doe - 719468.

Fixpoint allDigits (s : string) : bool :=
  match s with
  | EmptyString => true
  | String c rest =>
      match digit c with Some _ => allDigits rest | None => false end
  end.

(** [new Date("YYYY-MM-DD")]: midnight UTC of that date, for a month from
    01 to 12 and a day from 01 to 31 (a day past the end of the month runs
    into the next month).  JavaScript reads text of other forms as well;
    here such text is an Invalid Date, and the function is used on dates of
    this form only. *)
Definition newDate (s : string) : JsDate.Date :=
  let year := String.substring 0 4 s in
  let month := String.substring 5 2 s in
  let day := String.substring 8 2 s in
  if (String.length s =? 10)%nat
     && (String.substring 4 1 s =? "-")%string
     && (String.substring 7 1 s =? "-")%string
     && allDigits year && allDigits month && allDigits day
  then
    match digits digit 10 None year, digits digit 10 None month,
          digits digit 10 None day with
    | Some y, Some m, Some d =>
        if (1 <=? m) && (m <=? 12) && (1 <=? d) && (d <=? 31)
        then Some ((daysFromCivil y m 1 + d - 1) * JsDate.msPerDay)
        else None
    | _, _, _ => None
    end
  else None.

(** A stand-in for the MAC: a checksum of the key and the claims. *)
Definition checksum (key alg : string) (p : Auth.JWTPayload) : Z :=
  Z.of_nat (String.length key) + 7 * Z.of_nat (String.length alg)
  + 31 * Auth.userId (Auth.session p)
  + 131 * Z.of_nat (String.length (Auth.role (Auth.session p)))
  + match Auth.exp p with Some e => e | None => 0 end.

Definition bcrypt_hash (password : string) : string :=
  ("$2a$10$" ++ password)%string.

(** UTC+7, all year. *)
Definition zone : Zone.t := Zone.fixed (7 * JsDate.msPerHour).

(** The eastern United States in 2024: UTC-5, and UTC-4 from
    2024-03-10T07:00:00Z (02:00 becomes 03:00) to 2024-11-03T06:00:00Z
    (02:00 becomes 01:00). *)
Definition eastern : Zone.t :=
  {| Zone.offsetAt := fun t =>
       if t <? 1710054000000 then - 5 * JsDate.msPerHour
       else if t <? 1730613600000 then - 4 * JsDate.msPerHour
            else - 5 * JsDate.msPerHour;
     Zone.offsetOf := fun t =>
       if t <? 1710039600000 then - 5 * JsDate.msPerHour
       else if t <? 1730599200000 then - 4 * JsDate.msPerHour
            else - 5 * JsDate.msPerHour |}.

Definition admin : Auth.SessionPayload :=
  {| Auth.userId := 1; Auth.username := "admin"; Auth.role := "admin";
     Auth.expiresAt := 1717300000000 |}.
Definition alice : Auth.SessionPayload :=
  {| Auth.userId := 2; Auth.username := "alice"; Auth.role := "staff";
     Auth.expiresAt := 1717300000000 |}.
Definition bob : Auth.SessionPayload :=
  {| Auth.userId := 3; Auth.username := "bob"; Auth.role := "staff";
     Auth.expiresAt := 1717300000000 |}.


Definition user (i : Z) (name role : string) (position : option string)
  : User.t :=
  {| User.id := i; User.username := name; User.password := bcrypt_hash name;
     User.role := role; User.position := position;
     User.createdAt := 1717000000000 |}.

(** 2024-06-01T00:00:00Z. *)
Definition june1 : Z := 1717200000000.

Definition writeCopy : Task.t :=
  {| Task.id := 1; Task.date := june1; Task.taskName := "Write copy";
     Task.plan := "5"; Task.result := ""; Task.userId := 2;
     Task.createdAt := june1 + 1000 |}.
Definition buyMedia : Task.t :=
  {| Task.id := 2; Task.date := june1; Task.taskName := "Buy media";
     Task.plan := ""; Task.result := ""; Task.userId := 3;
     Task.createdAt := june1 + 2000 |}.

Definition db0 : Db :=
  {| users := [user 1 "admin" "admin" None;
               user 2 "alice" "staff" (Some "media_buyer"%string);
               user 3 "bob" "staff" (Some "graphic_design"%string)];
     tasks := [writeCopy; buyMedia];
     reports := [];
     reportSeq := 0 |}.

(** The store with a third task: Alice's, dated 2024-11-03T00:00:00Z, which
    is the evening of 2 November in the eastern zone. *)
Definition planCampaign : Task.t :=
  {| Task.id := 3; Task.date := 1730592000000; Task.taskName := "Plan campaign";
     Task.plan := ""; Task.result := ""; Task.userId := 2;
     Task.createdAt := 1730592000000 |}.

Definition db_nov : Db :=
  {| users := users db0;
     tasks := tasks db0 ++ [planCampaign];
     reports := [];
     reportSeq := 0 |}.

End Fixture.

(** * The rest of the handlers *)


(** ** Answers with a typed payload *)

(** [NextResponse.json({ error: msg }, { status })] or
    [NextResponse.json(payload, { status })]. *)
Inductive Reply (A : Type) :=
| fail (msg : string) (status : Z)
| ok (payload : A) (status : Z).

Arguments fail {A} msg status.
Arguments ok {A} payload status.

(** [try { ... } catch { return 500 }] around a handler body that writes
    nothing. *)
Definition try_read {A} (body : M (Reply A)) (msg : string) : Reply A :=
  match body with
  | Some r => r
  | None => fail msg 500
  end.

(** The same around a handler body that may write. *)
Definition try_write {A} (body : M (Reply A * Db)) (msg : string) (db : Db)
  : Reply A * Db :=
  match body with
  | Some r => r
  | None => (fail msg 500, db)
  end.

Fixpoint mapM {A B} (f : A -> M B) (l : list A) : M (list B) :=
  match l with
  | [] => ret []
  | a :: rest =>
      b <- f a ;;
      rest' <- mapM f rest ;;
      ret (b :: rest')
  end.

(** ** Ordering of query results *)

Module OrderBy.
Section Rows.
Context {Row : Type}.

(** [first r' r]: the row [r'] has to come before the row [r]. *)
Variable first : Row -> Row -> bool.

Fixpoint insert (r : Row) (rows : list Row) : list Row :=
  match rows with
  | [] => [r]
  | r' :: rest => if first r' r then r' :: insert r rest else r :: rows
  end.

(** Rows that the order does not tell apart stay in table order (the store
    leaves their order open). *)
Definition sort (rows : list Row) : list Row := fold_right insert [] rows.

End Rows.

(** [orderBy: { col: "desc" }] on a column without NULL. *)
Definition desc {Row} (col : Row -> Z) (rows : list Row) : list Row :=
  sort (fun r' r => col r <? col r') rows.

(** NULL sorts below every value. *)
Definition below (a b : option Z) : bool :=
  match a, b with
  | None, Some _ => true
  | Some x, Some y => x <? y
  | _, None => false
  end.

(** [orderBy: { col: "desc" }] on a nullable column. *)
Definition descNullable {Row} (col : Row -> option Z) (rows : list Row)
  : list Row :=
  sort (fun r' r => below (col r) (col r')) rows.

End OrderBy.

(** ** app/api/reports/route.ts, GET *)

Module ReportsList.

(** A report of the admin's list: the row, the selected fields of its user,
    and the tasks fetched for it. *)
Record Entry := {
  entry_report : DailyReport.t;
  entry_user : UserRef;
  entry_tasks : list Task.t
}.

Inductive Listing :=
| for_admin (reportsWithTasks : list Entry)
| for_staff (reports : list DailyReport.t).

Section Handlers.

Variable zone : Zone.t.
Variable newDate : string -> JsDate.Date.

(** [include: { user: { select: { id, username, position } } }]. *)
Definition includeUser (users : list User.t) (r : DailyReport.t)
  : M (DailyReport.t * UserRef) :=
  u <- Prisma.findUnique User.id (DailyReport.userId r) users ;;
  ret (r, {| ref_id := User.id u;
             ref_username := User.username u;
             ref_position := User.position u |}).

(** The tasks fetched for one report of the admin's list, lines 48-67. *)
Definition withTasks (db : Db) (report : DailyReport.t * UserRef) : M Entry :=
  let reportDate := DailyReport.date (fst report) in
  let start := JsDate.setHours zone (Some reportDate) 0 0 0 0 in
  let end_ := JsDate.setHours zone (Some reportDate) 23 59 59 999 in
  inRange <- Prisma.gte_lte start end_ ;;
  let tasks :=
    filter (fun t => (Task.userId t =? DailyReport.userId (fst report))
                     && inRange (Task.date t))
      (tasks db) in
  ret {| entry_report := fst report;
         entry_user := snd report;
         entry_tasks := tasks |}.

(** The [date] filter of GET: the day of the parameter when there is one. *)
Definition dateFilter (date : option string) : M (Z -> bool) :=
  if Js.truthy date
  then
    Prisma.gte_lte
      (fst (ReportsRoute.getDateRange zone newDate (text date)))
      (snd (ReportsRoute.getDateRange zone newDate (text date)))
  else ret (fun _ : Z => true).

(** GET: [date] is the [date] search parameter. *)
Definition GET (session : option Auth.SessionPayload) (date : option string)
  (db : Db) : Reply Listing :=
  try_read
    (match session with
     | None => ret (fail "Unauthorized" 401)
     | Some session =>
       if (Auth.role session =? "admin")%string
       then
         byDate <- dateFilter date ;;
         reports <- mapM (includeUser (users db))
                      (OrderBy.descNullable DailyReport.submittedAt
                         (filter (fun r => byDate (DailyReport.date r))
                            (reports db))) ;;
         reportsWithTasks <- mapM (withTasks db) reports ;;
         ret (ok (for_admin reportsWithTasks) 200)
       else
         byDate <- dateFilter date ;;
         let reports :=
           OrderBy.desc DailyReport.date
             (filter (fun r => (DailyReport.userId r =? Auth.userId session)
                               && byDate (DailyReport.date r))
                (reports db)) in
         ret (ok (for_staff reports) 200)
     end)
    "Failed to fetch reports".

End Handlers.
End ReportsList.

(** ** app/api/tasks/route.ts, POST *)

Module TaskCreate.
Section Handlers.

Variable newDate : string -> JsDate.Date.

(** [member || ""]. *)
Definition orEmpty (member : option string) : string :=
  if Js.truthy member then text member else EmptyString.

(** POST: create a task.  [date], [taskName], [plan] and [result] are the
    members of the JSON body, absent or text; [now] is the clock read of
    [new Date()]; [id] is the key the task table assigns to the new row (a
    key that no row carries) and [createdNow] the instant it stamps.  The
    table's definition is not among the sources: whether it refuses a task
    of a user that is gone is left open, and the properties of a created
    task are stated for a session whose user has a row. *)
Definition POST (session : option Auth.SessionPayload)
  (date taskName plan result : option string) (now id createdNow : Z)
  (db : Db) : Reply Task.t * Db :=
  try_write
    (match session with
     | None => ret (fail "Unauthorized" 401, db)
     | Some session =>
       if negb (Js.truthy taskName)
       then ret (fail "Task name is required" 400, db)
       else
         date' <- (if Js.truthy date then newDate (text date) else Some now) ;;
         let task := {| Task.id := id;
                        Task.date := date';
                        Task.taskName := text taskName;
                        Task.plan := orEmpty plan;
                        Task.result := orEmpty result;
                        Task.userId := Auth.userId session;
                        Task.createdAt := createdNow |} in
         ret (ok task 201, with_tasks db (tasks db ++ [task]))
     end)
    "Internal server error" db.

End Handlers.
End TaskCreate.

(** ** app/api/staff/route.ts *)

Module StaffRoute.

(** [select: { id, username, role, position, createdAt }]. *)
Definition view (u : User.t) : StaffView :=
  {| view_id := User.id u;
     view_username := User.username u;
     view_role := User.role u;
     view_position := User.position u;
     view_createdAt := User.createdAt u |}.

(** GET: list all staff users. *)
Definition GET (session : option Auth.SessionPayload) (db : Db)
  : Reply (list StaffView) :=
  try_read
    (if StaffIdRoute.notAdmin session
     then ret (fail "Unauthorized" 401)
     else
       let staffUsers :=
         map view (filter (fun u => (User.role u =? "staff")%string) (users db)) in
       ret (ok staffUsers 200))
    "Internal server error".

Section Handlers.

(** [bcrypt.hash(password, 10)], salt included. *)
Variable bcrypt_hash : string -> string.

(** [user.create]: raises on a breach of the unique index on [username]. *)
Definition createUser (u : User.t) (rows : list User.t) : M (list User.t) :=
  if existsb (fun x => (User.username x =? User.username u)%string) rows
  then throw
  else ret (rows ++ [u]).

(** POST: create a staff user.  [username], [password] and [position] are
    the members of the JSON body, absent or text; [id] is the key the user
    table assigns to the new row (a key that no row carries) and
    [createdNow] the instant it stamps. *)
Definition POST (session : option Auth.SessionPayload)
  (username password position : option string) (id createdNow : Z) (db : Db)
  : Reply StaffView * Db :=
  try_write
    (if StaffIdRoute.notAdmin session
     then ret (fail "Unauthorized" 401, db)
     else
       if negb (Js.truthy username) || negb (Js.truthy password)
          || negb (Js.truthy position)
       then ret (fail "Username, password, and position are required" 400, db)
       else
         let existingUser :=
           Prisma.findFirst
             (fun u => (User.username u =? text username)%string) (users db) in
         match existingUser with
         | Some _ => ret (fail "Username already exists" 400, db)
         | None =>
           let hashedPassword := bcrypt_hash (text password) in
           let newStaff := {| User.id := id;
                              User.username := text username;
                              User.password := hashedPassword;
                              User.role := "staff";
                              User.position := Some (text position);
                              User.createdAt := createdNow |} in
           rows <- createUser newStaff (users db) ;;
           ret (ok (view newStaff) 201, with_users db rows)
         end)
    "Internal server error" db.

End Handlers.
End StaffRoute.

(** ** lib/auth: the session cookie *)

Module Session.

(** A cookie as [cookieStore.set] takes it. *)
Record Cookie := {
  value : Auth.Token;
  httpOnly : bool;
  secure : bool;
  expires : Z;
  sameSite : string;
  path : string
}.

(** The cookie store of [cookies()]: the cookies by name. *)
Definition Jar := list (string * Cookie).

Definition get (name : string) (jar : Jar) : option Cookie :=
  option_map snd (find (fun c => (fst c =? name)%string) jar).

Definition delete (name : string) (jar : Jar) : Jar :=
  filter (fun c => negb (fst c =? name)%string) jar.

(** [set] replaces a cookie of the same name. *)
Definition set (name : string) (c : Cookie) (jar : Jar) : Jar :=
  (name, c) :: delete name jar.

Section Codec.

Variable JWT_SECRET : option string.
Variable HS256 : string -> string -> Auth.JWTPayload -> Z.

(** [process.env.NODE_ENV]. *)
Variable NODE_ENV : option string.

(** [createSession]: [now] is the read of [Date.now()], [issuedNow] and
    [expiryNow] are the clock reads inside [encrypt]. *)
Definition createSession (now issuedNow expiryNow : Z)
  (userId : Z) (username role : string) (jar : Jar) : Jar :=
  let expiresAt := now + 24 * 60 * 60 * 1000 in
  let session :=
    Auth.encrypt JWT_SECRET HS256 issuedNow expiryNow
      {| Auth.userId := userId; Auth.username := username; Auth.role := role;
         Auth.expiresAt := expiresAt |} in
  set "session"
    {| value := session;
       httpOnly := true;
       secure := match NODE_ENV with
                 | Some env => (env =? "production")%string
                 | None => false
                 end;
       expires := expiresAt;
       sameSite := "lax";
       path := "/" |}
    jar.

(** [getSession]: [now] is the clock read inside [jwtVerify]. *)
Definition getSession (now : Z) (jar : Jar) : option Auth.JWTPayload :=
  let session := option_map value (get "session" jar) in
  Auth.decrypt JWT_SECRET HS256 now session.

Definition deleteSession (jar : Jar) : Jar := delete "session" jar.

End Codec.
End Session.

(** ** app/dashboard/page *)

Module DashboardPage.

(** What the page does: a redirect, or [DashboardClient] with its props. *)
Inductive Page :=
| redirect (url : string)
| DashboardClient (username role : string) (position : option string)
    (displayNumber : Z).

Section Page.

Variable JWT_SECRET : option string.
Variable HS256 : string -> string -> Auth.JWTPayload -> Z.

(** [DashboardPage]: [now] is the clock read inside [getSession]. *)
Definition DashboardPage (now : Z) (jar : Session.Jar) (db : Db) : Page :=
  match Session.getSession JWT_SECRET HS256 now jar with
  | None => redirect "/login"
  | Some payload =>
      let session := Auth.session payload in
      let user := Prisma.findUnique User.id (Auth.userId session) (users db) in
      let displayNumber :=
        if (Auth.role session =? "admin")%string then 1 else 2 in
      DashboardClient (Auth.username session) (Auth.role session)
        (match user with
         | Some user =>
             if Js.truthy (User.position user) then User.position user else None
         | None => None
         end)
        displayNumber
  end.

End Page.
End DashboardPage.

(** ** prisma/seed *)

Module Seed.

(** What the user table assigns to a new row: its key (a key that no row
    carries) and the instant it stamps. *)
Record Assigned := { key : Z; stamp : Z }.

(** [user.upsert({ where: { username }, update: {}, create })]. *)
Definition upsert (username : string) (create : User.t) (rows : list User.t)
  : M (User.t * list User.t) :=
  match Prisma.findFirst (fun u => (User.username u =? username)%string) rows with
  | Some u => ret (u, rows)
  | None =>
      rows' <- StaffRoute.createUser create rows ;;
      ret (create, rows')
  end.

Section Script.

Variable bcrypt_hash : string -> string.

Definition account (a : Assigned) (username password role : string)
  (position : option string) : User.t :=
  {| User.id := key a;
     User.username := username;
     User.password := bcrypt_hash password;
     User.role := role;
     User.position := position;
     User.createdAt := stamp a |}.

(** [main]: the user table afterwards; [None] when a query raised and the
    script exits with code 1. *)
Definition main (a1 a2 a3 a4 : Assigned) (rows : list User.t)
  : M (list User.t) :=
  ' (admin, rows) <-
    upsert "admin" (account a1 "admin" "admin123" "admin" None) rows ;;
  ' (pm, rows) <-
    upsert "john_pm"
      (account a2 "john_pm" "pm123" "staff" (Some "project_manager"%string))
      rows ;;
  ' (mediaBuyer, rows) <-
    upsert "sarah_mb"
      (account a3 "sarah_mb" "mb123" "staff" (Some "media_buyer"%string))
      rows ;;
  ' (graphicDesigner, rows) <-
    upsert "mike_gd"
      (account a4 "mike_gd" "gd123" "staff" (Some "graphic_design"%string))
      rows ;;
  ret rows.

End Script.
End Seed.

(** ** Dates as JSON text *)

Module JsIso.

Definition digit (n : Z) : Ascii.ascii :=
  nth (Z.to_nat (n mod 10))
    ["0"; "1"; "2"; "3"; "4"; "5"; "6"; "7"; "8"; "9"]%char "0"%char.

Definition pad2 (n : Z) : string :=
  String (digit (n / 10)) (String (digit n) EmptyString).

Definition pad3 (n : Z) : string := String (digit (n / 100)) (pad2 n).

Definition pad4 (n : Z) : string := String (digit (n / 1000)) (pad3 n).

Definition pad6 (n : Z) : string :=
  String (digit (n / 100000)) (String (digit (n / 10000)) (pad4 n)).

(** The civil date (year, month, day) of a day counted from 1970-01-01. *)
Definition civil (days : Z) : Z * Z * Z :=
  let z := days + 719468 in
  let era := z / 146097 in
  let doe := z - era * 146097 in
  let yoe := (doe - doe / 1460 + doe / 36524 - doe / 146096) / 365 in
  let doy := doe - (365 * yoe + yoe / 4 - yoe / 100) in
  let mp := (5 * doy + 2) / 153 in
  let d := doy - (153 * mp + 2) / 5 + 1 in
  let m := if mp <? 10 then mp + 3 else mp - 9 in
  let y := yoe + era * 400 in
  (if m <=? 2 then y + 1 else y, m, d).

(** Four digits for the years 0 to 9999, a sign and six digits otherwise. *)
Definition year (y : Z) : string :=
  if (0 <=? y) && (y <=? 9999) then pad4 y
  else if y <? 0 then String "-" (pad6 (- y))
       else String "+" (pad6 y).

(** The date part of [toISOString]: YYYY-MM-DD. *)
Definition datePart (days : Z) : string :=
  let '(y, m, d) := civil days in
  (year y ++ String "-" (pad2 m ++ String "-" (pad2 d)))%string.

(** The time part of [toISOString]: HH:mm:ss.sssZ. *)
Definition timePart (r : Z) : string :=
  (pad2 (r / 3600000)
   ++ String ":" (pad2 (r / 60000 mod 60)
   ++ String ":" (pad2 (r / 1000 mod 60)
   ++ String "." (pad3 (r mod 1000) ++ "Z"))))%string.

(** [new Date(ms).toISOString()], which is also the JSON text of a date. *)
Definition toISOString (ms : Z) : string :=
  (datePart (ms / 86400000) ++ String "T" (timePart (ms mod 86400000)))%string.

(** [s.split("T")[0]]. *)
Fixpoint beforeT (s : string) : string :=
  match s with
  | EmptyString => EmptyString
  | String c rest =>
      if Ascii.eqb c "T" then EmptyString else String c (beforeT rest)
  end.

End JsIso.

(** ** app/dashboard/TaskTable.tsx: the submission state of the page *)

Module TaskTable.

(** A report as the page reads it from the JSON of the answer. *)
Record DailyReport := {
  id : Z;
  date : string;
  submitted : bool;
  submittedAt : option string
}.

(** The JSON of a report row. *)
Definition fromJson (r : DailyReport.t) : DailyReport :=
  {| id := DailyReport.id r;
     date := JsIso.toISOString (DailyReport.date r);
     submitted := DailyReport.submitted r;
     submittedAt := option_map JsIso.toISOString (DailyReport.submittedAt r) |}.

(** The reports of an answer of GET /api/reports. *)
Definition reportsOf (listing : ReportsList.Listing) : list DailyReport :=
  match listing with
  | ReportsList.for_admin entries =>
      map (fun e => fromJson (ReportsList.entry_report e)) entries
  | ReportsList.for_staff reports => map fromJson reports
  end.

(** [checkReportStatus]: the value given to [setIsSubmitted], or [None] when
    the state is left as it is. *)
Definition checkReportStatus (selectedDate : string)
  (response : Reply ReportsList.Listing) : option bool :=
  match response with
  | ok listing status =>
      if (200 <=? status) && (status <=? 299)
      then
        let reports := reportsOf listing in
        let submitted :=
          existsb (fun r => (date r =? selectedDate)%string && submitted r)
            reports in
        Some submitted
      else None
  | fail _ _ => None
  end.

(** The initial [selectedDate]: [today.toISOString().split("T")[0]]. *)
Definition today (now : Z) : string := JsIso.beforeT (JsIso.toISOString now).

Section Browser.

(** The time zone of the browser. *)
Variable zone : Zone.t.
Variable newDate : string -> JsDate.Date.

(** [isDeadlinePassed]: [now] is the clock read of [new Date()]. *)
Definition isDeadlinePassed (selectedDate : string) (now : Z) : bool :=
  let selectedDateTime := JsDate.setHours zone (newDate selectedDate) 23 59 59 999 in
  let deadline := selectedDateTime in
  let deadline :=
    JsDate.setHours1 zone deadline
      (option_map (fun h => h + 24) (JsDate.getHours zone deadline)) in
  JsDate.gt (Some now) deadline.

End Browser.
End TaskTable.

(** ** app/dashboard/DashboardClient.tsx: the grouping key of a report *)

Module DashboardClient.

(** [new Date(report.date).toISOString().split("T")[0]], on the instant
    that the JSON text of [report.date] denotes. *)
Definition dateKey (date : Z) : string :=
  JsIso.beforeT (JsIso.toISOString date).

End DashboardClient.

(** ** Vocabulary for the user table *)

Module StaffSpec.

(** The state of the user table that the staff handlers maintain: distinct
    primary keys and distinct usernames. *)
Record UsersOk (rows : list User.t) : Prop := {
  ids_distinct : NoDup (map User.id rows);
  names_distinct : NoDup (map User.username rows)
}.

(** The accounts whose role is not staff. *)
Definition others (rows : list User.t) : list User.t :=
  filter (fun u => negb (User.role u =? "staff")%string) rows.

(** A row after the update of a staff user. *)
Definition renamed (username : string) (password : option string)
  (position : string) (u : User.t) : User.t :=
  {| User.id := User.id u;
     User.username := username;
     User.password := match password with
                      | Some p => p
                      | None => User.password u
                      end;
     User.role := User.role u;
     User.position := Some position;
     User.createdAt := User.createdAt u |}.

End StaffSpec.

(** ** Vocabulary for the seed script *)

Module SeedSpec.

(** The usernames the script provides. *)
Definition names : list string :=
  ["admin"; "john_pm"; "sarah_mb"; "mike_gd"]%string.

(** The table with an account of a name: as it is when a user has the name,
    with the given row appended otherwise. *)
Definition ensure (name : string) (create : User.t) (rows : list User.t)
  : list User.t :=
  if existsb (fun u => (User.username u =? name)%string) rows
  then rows
  else rows ++ [create].

End SeedSpec.

(** ** The requests that write to the store *)

Module Portal.

Inductive Call :=
| SubmitReport (session : option Auth.SessionPayload) (date : option string)
    (now submitNow : Z)
| WithdrawReport (session : option Auth.SessionPayload) (date : option string)
| CreateTask (session : option Auth.SessionPayload)
    (date taskName plan result : option string) (now id createdNow : Z)
| UpdateTask (session : option Auth.SessionPayload) (id : string)
    (members : M (TaskIdRoute.Field * TaskIdRoute.Field * TaskIdRoute.Field))
| DeleteTask (session : option Auth.SessionPayload) (id : string)
| CreateStaff (session : option Auth.SessionPayload)
    (username password position : option string) (id createdNow : Z)
| UpdateStaff (session : option Auth.SessionPayload) (id : string)
    (username password position : option string)
| DeleteStaff (session : option Auth.SessionPayload) (id : string).

Section Handlers.

Variable zone : Zone.t.
Variable newDate : string -> JsDate.Date.
Variable parseInt : string -> option Z.
Variable bcrypt_hash : string -> string.

(** The store after one request. *)
Definition step (db : Db) (c : Call) : Db :=
  match c with
  | SubmitReport session date now submitNow =>
      snd (ReportsRoute.POST zone newDate session date now submitNow db)
  | WithdrawReport session date =>
      snd (ReportsRoute.DELETE zone newDate session date db)
  | CreateTask session date taskName plan result now id createdNow =>
      snd (TaskCreate.POST newDate session date taskName plan result now id
             createdNow db)
  | UpdateTask session id members =>
      snd (TaskIdRoute.PUT parseInt session id members db)
  | DeleteTask session id =>
      snd (TaskIdRoute.DELETE parseInt session id db)
  | CreateStaff session username password position id createdNow =>
      snd (StaffRoute.POST bcrypt_hash session username password position id
             createdNow db)
  | UpdateStaff session id username password position =>
      snd (StaffIdRoute.PUT parseInt bcrypt_hash session id username password
             position db)
  | DeleteStaff session id =>
      snd (StaffIdRoute.DELETE parseInt session id db)
  end.

(** The store after a sequence of requests, served one after the other. *)
Definition run (calls : list Call) (db : Db) : Db := fold_left step calls db.

(** A report row as the submit handler files it: submitted, stamped, and
    dated at noon of its local day. *)
Definition Filed (r : DailyReport.t) : Prop :=
  DailyReport.submitted r = true
  /\ DailyReport.submittedAt r <> None
  /\ DailyReport.date r
     = Spec.noon zone (Spec.dayOf zone (DailyReport.date r)).

End Handlers.
End Portal.

(** ** Stores and answers for running the handlers above *)

Module Sample.

(** Alice has submitted her report of 2024-06-01. *)
Definition db1 : Db :=
  snd (ReportsRoute.POST Fixture.zone Fixture.newDate (Some Fixture.alice)
         (Some "2024-06-01"%string) (Fixture.june1 + 1000)
         (Fixture.june1 + 1001) Fixture.db0).

(** Bob has submitted his, too. *)
Definition db2 : Db :=
  snd (ReportsRoute.POST Fixture.zone Fixture.newDate (Some Fixture.bob)
         (Some "2024-06-01"%string) (Fixture.june1 + 2000)
         (Fixture.june1 + 2001) db1).

Definition aliceReport : DailyReport.t :=
  {| DailyReport.id := 1;
     DailyReport.date := Fixture.june1 + 5 * 3600000;
     DailyReport.userId := 2;
     DailyReport.submitted := true;
     DailyReport.submittedAt := Some (Fixture.june1 + 1001);
     DailyReport.createdAt := Fixture.june1 + 1001 |}.

(** The admin's list of all reports. *)
Definition entries : list ReportsList.Entry :=
  match ReportsList.GET Fixture.zone Fixture.newDate (Some Fixture.admin) None db2 with
  | ok (ReportsList.for_admin l) _ => l
  | _ => []
  end.

(** Alice adds a task for 2024-06-02, submits the reports of both days,
    resubmits the first and withdraws the second; Bob tries to delete
    Alice's task. *)
Definition calls : list Portal.Call :=
  [ Portal.CreateTask (Some Fixture.alice) (Some "2024-06-02"%string)
      (Some "Plan campaign"%string) None None (Fixture.june1 + 500) 3
      (Fixture.june1 + 500);
    Portal.SubmitReport (Some Fixture.alice) (Some "2024-06-01"%string)
      (Fixture.june1 + 1000) (Fixture.june1 + 1001);
    Portal.SubmitReport (Some Fixture.alice) (Some "2024-06-02"%string)
      (Fixture.june1 + 2000) (Fixture.june1 + 2001);
    Portal.DeleteTask (Some Fixture.bob) "1";
    Portal.SubmitReport (Some Fixture.alice) (Some "2024-06-01"%string)
      (Fixture.june1 + 3000) (Fixture.june1 + 3001);
    Portal.WithdrawReport (Some Fixture.alice) (Some "2024-06-02"%string) ].

End Sample.

(** * Properties *)

(** The properties of the report and task handlers that speak of a local
    day are stated for a host whose zone is regular ([Spec.Regular]): its
    calendar days are whole.  Zones of a fixed offset are regular
    ([DateFacts.Regular_fixed]), and so is the eastern zone of the fixture,
    which changes its offset twice a year ([DateFacts.Regular_eastern]).
    Ids are integers; a handler accepts as an id what the query interface
    accepts as an [Int] ([fitsInt]), which every id of a stored row is. *)

(** ** The session codec *)

Module AuthFacts.
Section Codec.

Variable JWT_SECRET : option string.
Variable HS256 : string -> string -> Auth.JWTPayload -> Z.

Local Abbreviation encrypt := (Auth.encrypt JWT_SECRET HS256).
Local Abbreviation decrypt := (Auth.decrypt JWT_SECRET HS256).
Local Abbreviation jwtVerify := (Auth.jwtVerify JWT_SECRET HS256).

(** What [jwtVerify] answers on a token that [encrypt] issued. *)
Lemma jwtVerify_encrypt (issuedNow expiryNow now : Z) (s : Auth.SessionPayload) :
  jwtVerify now (encrypt issuedNow expiryNow s) ["HS256"%string]
  = if Auth.epoch expiryNow + Auth.secs_1d <=? Auth.epoch now
    then inl Auth.JWTExpired
    else inr {| Auth.session := s;
                Auth.iat := Some (Auth.epoch issuedNow);
                Auth.nbf := None;
                Auth.exp := Some (Auth.epoch expiryNow + Auth.secs_1d) |}.
Proof.
  unfold Auth.jwtVerify, Auth.encrypt.
  cbn [existsb String.eqb Ascii.eqb Bool.eqb orb negb Auth.nbf Auth.exp].
  rewrite Z.eqb_refl. cbn [negb].
  destruct (Auth.epoch expiryNow + Auth.secs_1d <=? Auth.epoch now); reflexivity.
Qed.

(** C4 (as amended): a token issued by [encrypt] decodes to the session it
    was made from, with the registered claims [iat] and [exp], at every
    instant whose whole second lies before the token's own expiry, the
    second of issue plus one day; from that second on it decodes to null.
    The [expiresAt] member of the session takes no part. *)
Theorem decrypt_encrypt (issuedNow expiryNow now : Z) (s : Auth.SessionPayload) :
  decrypt now (Some (encrypt issuedNow expiryNow s))
  = if Auth.epoch now <? Auth.epoch expiryNow + 86400
    then Some {| Auth.session := s;
                 Auth.iat := Some (Auth.epoch issuedNow);
                 Auth.nbf := None;
                 Auth.exp := Some (Auth.epoch expiryNow + 86400) |}
    else None.
Proof.
  unfold Auth.decrypt.
  replace (Auth.falsy (encrypt issuedNow expiryNow s)) with false by reflexivity.
  rewrite jwtVerify_encrypt. unfold Auth.secs_1d.
  rewrite Z.ltb_antisym.
  destruct (Auth.epoch expiryNow + 86400 <=? Auth.epoch now); reflexivity.
Qed.

(** The whole-second test of expiry, in milliseconds. *)
Lemma epoch_before (now expiryNow : Z) :
  (Auth.epoch now <? Auth.epoch expiryNow + 86400) = true
  <-> now < (expiryNow / 1000 + 86400) * 1000.
Proof.
  unfold Auth.epoch. rewrite Z.ltb_lt. split; intro H.
  - pose proof (Z.mul_succ_div_gt now 1000 ltac:(lia)). lia.
  - apply Z.div_lt_upper_bound; lia.
Qed.

(** Every rejection of [jwtVerify] is the same null to the caller. *)
Lemma decrypt_catch (now : Z) (tok : Auth.Token) (e : Auth.JoseError) :
  jwtVerify now tok ["HS256"%string] = inl e -> decrypt now (Some tok) = None.
Proof.
  intro H. unfold Auth.decrypt. destruct (Auth.falsy tok); [reflexivity|].
  rewrite H. reflexivity.
Qed.

(** X28: [decrypt] is a total function into [Session | null], and it
    answers the same null on a missing or empty cookie, on text that is not
    a compact token, on an algorithm other than HS256, on a signature that
    is not the MAC of the decoded header and claims, on a token that is not
    yet valid and on one whose expiry has come.  The causes are properties
    of the decoded token: whether a changed byte of the cookie text changes
    the decoded signature, or the MAC, is a matter of the encoding and of
    the MAC, which are not part of this program. *)
Theorem decrypt_rejected (now : Z) (tok : option Auth.Token) :
  Spec.Rejected JWT_SECRET HS256 now tok -> decrypt now tok = None.
Proof.
  intros [ | | s | alg p sig Halg | alg p sig Hsig | alg p sig n Hn Hlt
         | alg p sig e He Hle ]; try reflexivity.
  - unfold Auth.decrypt. destruct (Auth.falsy (Auth.Text s)); reflexivity.
  - apply decrypt_catch with (e := Auth.JOSEAlgNotAllowed).
    unfold Auth.jwtVerify. cbn [existsb].
    destruct (String.eqb_spec alg "HS256"); [contradiction|reflexivity].
  - unfold Auth.decrypt. cbn [Auth.falsy]. unfold Auth.jwtVerify.
    destruct (negb (existsb (String.eqb alg) ["HS256"%string])); [reflexivity|].
    destruct (Z.eqb_spec sig (HS256 (Auth.key JWT_SECRET) alg p));
      [contradiction|reflexivity].
  - unfold Auth.decrypt. cbn [Auth.falsy]. unfold Auth.jwtVerify.
    destruct (negb (existsb (String.eqb alg) ["HS256"%string])); [reflexivity|].
    destruct (negb (sig =? HS256 (Auth.key JWT_SECRET) alg p)); [reflexivity|].
    rewrite Hn. replace (n >? Auth.epoch now) with true; [reflexivity|].
    symmetry. apply Z.gtb_lt. exact Hlt.
  - unfold Auth.decrypt. cbn [Auth.falsy]. unfold Auth.jwtVerify.
    destruct (negb (existsb (String.eqb alg) ["HS256"%string])); [reflexivity|].
    destruct (negb (sig =? HS256 (Auth.key JWT_SECRET) alg p)); [reflexivity|].
    destruct (match Auth.nbf p with Some n => n >? Auth.epoch now | None => false end);
      [reflexivity|].
    rewrite He. replace (e <=? Auth.epoch now) with true; [reflexivity|].
    symmetry. apply Z.leb_le. exact Hle.
Qed.

(** Conversely, null has no other cause than the listed ones. *)
Lemma decrypt_null_rejected (now : Z) (tok : option Auth.Token) :
  decrypt now tok = None -> Spec.Rejected JWT_SECRET HS256 now tok.
Proof.
  destruct tok as [[s | alg p tag] | ]; intro H;
    [apply Spec.malformed | | apply Spec.missing_cookie].
  unfold Auth.decrypt in H. cbn [Auth.falsy] in H. unfold Auth.jwtVerify in H.
  cbn [existsb] in H. rewrite orb_false_r in H.
  destruct (String.eqb_spec alg "HS256") as [-> | Halg];
    [|apply Spec.algorithm_not_allowed; exact Halg].
  cbn [negb] in H.
  destruct (Z.eqb_spec tag (HS256 (Auth.key JWT_SECRET) "HS256" p)) as [Htag | Hsig];
    [|apply Spec.signature_mismatch; exact Hsig].
  cbn [negb] in H.
  destruct (Auth.nbf p) as [n | ] eqn:Hn.
  - destruct (n >? Auth.epoch now) eqn:Hgt.
    + apply Spec.not_yet_valid with (n := n); [exact Hn|].
      apply Z.gtb_lt. exact Hgt.
    + destruct (Auth.exp p) as [e | ] eqn:He; [|discriminate].
      destruct (e <=? Auth.epoch now) eqn:Hle; [|discriminate].
      apply Spec.expired with (e := e); [exact He|]. apply Z.leb_le. exact Hle.
  - destruct (Auth.exp p) as [e | ] eqn:He; [|discriminate].
    destruct (e <=? Auth.epoch now) eqn:Hle; [|discriminate].
    apply Spec.expired with (e := e); [exact He|]. apply Z.leb_le. exact Hle.
Qed.

End Codec.

(** A session made by [createSession] at 1.5 s decodes to null at
    86401.2 s, 300 ms before its [expiresAt]; a session whose [expiresAt]
    lies one hour after issue still decodes an hour after that. *)
Lemma decrypt_encrypt_expiresAt_counterexample :
  (Auth.decrypt None Fixture.checksum 86401200
     (Some (Auth.createSession None Fixture.checksum 1500 1500 1500
              2 "alice" "staff")) = None
   /\ 86401200 < 1500 + 24 * 60 * 60 * 1000)
  /\
  (let s := {| Auth.userId := 2; Auth.username := "alice";
               Auth.role := "staff"; Auth.expiresAt := 3600000 |} in
   Auth.decrypt None Fixture.checksum 7200000
     (Some (Auth.encrypt None Fixture.checksum 0 0 s)) <> None
   /\ Auth.expiresAt s <= 7200000).
Proof.
  split; split; vm_compute; congruence.
Qed.

(** An issued token whose [userId] claim was changed from 2 to 1. *)
Lemma decrypt_rejected_witness :
  Auth.decrypt None Fixture.checksum 5000
    (Some (Auth.Compact "HS256"
             {| Auth.session := Fixture.admin; Auth.iat := Some 1;
                Auth.nbf := None; Auth.exp := Some 86401 |}
             (Fixture.checksum (Auth.key None) "HS256"
                {| Auth.session := Fixture.alice; Auth.iat := Some 1;
                   Auth.nbf := None; Auth.exp := Some 86401 |})))
  = None.
Proof.
  apply (decrypt_rejected None Fixture.checksum).
  apply Spec.signature_mismatch. vm_compute. discriminate.
Defined.

End AuthFacts.

(** ** Lists and tables *)

Module TableFacts.
Section Rows.
Context {Row : Type}.
Variable id : Row -> Z.

Lemma find_pointwise (P Q : Row -> bool) (l : list Row) :
  (forall r, P r = Q r) -> find P l = find Q l.
Proof.
  intro H. induction l as [|r l IH]; [reflexivity|].
  cbn [find]. rewrite H, IH. reflexivity.
Qed.

Lemma find_head_filter (P : Row -> bool) (l : list Row) :
  find P l = hd_error (filter P l).
Proof.
  induction l as [|r l IH]; [reflexivity|].
  cbn [find filter]. destruct (P r); [reflexivity|exact IH].
Qed.

Lemma filter_map_same (P : Row -> bool) (f : Row -> Row) (l : list Row) :
  (forall r, P (f r) = P r) -> filter P (map f l) = map f (filter P l).
Proof.
  intro H. induction l as [|r l IH]; [reflexivity|].
  cbn [map filter]. rewrite H. destruct (P r); cbn [map]; rewrite IH; reflexivity.
Qed.

(** With distinct primary keys, a lookup by the key of a row of the table
    finds that row. *)
Lemma findUnique_row (l : list Row) (e : Row) :
  NoDup (map id l) -> In e l -> Prisma.findUnique id (id e) l = Some e.
Proof.
  unfold Prisma.findUnique.
  induction l as [|r l IH]; intros Hnd Hin; [contradiction|].
  cbn [find]. inversion Hnd as [|x xs Hnotin Hnd']; subst.
  destruct Hin as [-> | Hin].
  - rewrite Z.eqb_refl. reflexivity.
  - destruct (Z.eqb_spec (id r) (id e)) as [Heq | _].
    + exfalso. apply Hnotin. rewrite Heq. apply in_map. exact Hin.
    + apply IH; assumption.
Qed.

Lemma findUnique_some (i : Z) (l : list Row) (r : Row) :
  Prisma.findUnique id i l = Some r -> In r l /\ id r = i.
Proof.
  unfold Prisma.findUnique. intro H. apply find_some in H.
  destruct H as [Hin Heq]. split; [exact Hin|]. apply Z.eqb_eq. exact Heq.
Qed.

(** With distinct primary keys, deleting by the key of a row takes that one
    row out and leaves the others in place. *)
Lemma delete_row (l : list Row) (e : Row) :
  NoDup (map id l) -> In e l ->
  exists before after,
    l = before ++ e :: after
    /\ filter (fun r => negb (id r =? id e)) l = before ++ after.
Proof.
  induction l as [|r l IH]; intros Hnd Hin; [contradiction|].
  inversion Hnd as [|x xs Hnotin Hnd']; subst.
  destruct Hin as [-> | Hin].
  - exists [], l. split; [reflexivity|].
    cbn [filter app]. rewrite Z.eqb_refl. cbn [negb].
    clear IH Hnd. induction l as [|r l IH]; [reflexivity|].
    cbn [filter]. cbn [map] in Hnotin, Hnd'.
    inversion Hnd' as [|x xs _ Hnd'']; subst.
    destruct (Z.eqb_spec (id r) (id e)) as [Heq | _].
    + exfalso. apply Hnotin. left. exact Heq.
    + cbn [negb]. f_equal. apply IH; [|exact Hnd''].
      intro Hc. apply Hnotin. right. exact Hc.
  - destruct (IH Hnd' Hin) as (before & after & Hl & Hf).
    exists (r :: before), after. split; [rewrite Hl; reflexivity|].
    cbn [filter]. destruct (Z.eqb_spec (id r) (id e)) as [Heq | _].
    + exfalso. apply Hnotin. rewrite Heq. apply in_map. exact Hin.
    + cbn [negb app]. rewrite Hf. reflexivity.
Qed.

(** An update rewrites the rows that carry the key and no other. *)
Lemma update_some (i : Z) (data : Row -> Row) (l : list Row) (r : Row) :
  Prisma.findUnique id i l = Some r ->
  Prisma.update id i data l
  = Some (data r, map (fun x => if id x =? i then data x else x) l).
Proof. intro H. unfold Prisma.update. rewrite H. reflexivity. Qed.

Lemma findUnique_update_same (i : Z) (data : Row -> Row) (l : list Row) (r : Row) :
  (forall x, id (data x) = id x) ->
  Prisma.findUnique id i l = Some r ->
  Prisma.findUnique id i (map (fun x => if id x =? i then data x else x) l)
  = Some (data r).
Proof.
  intros Hid. unfold Prisma.findUnique.
  induction l as [|x l IH]; [discriminate|].
  cbn [find map]. destruct (Z.eqb_spec (id x) i) as [Heq | Hne].
  - intro H. injection H as ->. rewrite Hid.
    destruct (Z.eqb_spec (id r) i); [reflexivity|contradiction].
  - destruct (Z.eqb_spec (id x) i); [contradiction|]. exact IH.
Qed.

Lemma findUnique_update_other (i j : Z) (data : Row -> Row) (l : list Row) :
  (forall x, id (data x) = id x) -> j <> i ->
  Prisma.findUnique id j (map (fun x => if id x =? i then data x else x) l)
  = Prisma.findUnique id j l.
Proof.
  intros Hid Hne. unfold Prisma.findUnique.
  induction l as [|x l IH]; [reflexivity|].
  cbn [find map]. destruct (Z.eqb_spec (id x) i) as [Heq | Hxi].
  - rewrite Hid. destruct (Z.eqb_spec (id x) j) as [Hxj | _]; [lia|exact IH].
  - destruct (id x =? j); [reflexivity|exact IH].
Qed.

End Rows.
End TableFacts.

(** ** Local days *)

Module DateFacts.

(** A zone of a fixed offset is regular. *)
Lemma Regular_fixed (offset : Z) : Spec.Regular (Zone.fixed offset).
Proof.
  constructor;
    unfold Spec.wall, Spec.dayOf, JsDate.UTC, JsDate.LocalTime, JsDate.Day,
      JsDate.msPerDay, JsDate.msPerHour;
    cbn [Zone.fixed Zone.offsetAt Zone.offsetOf].
  - intro day. lia.
  - intro day. lia.
  - intro t.
    pose proof (Z.div_mod (t + offset) 86400000 ltac:(lia)).
    pose proof (Z.mod_pos_bound (t + offset) 86400000 ltac:(lia)). lia.
  - intros day t H. symmetry.
    apply Z.div_unique with (r := t + offset - day * 86400000); lia.
Qed.

(** The offset in force at an instant of the eastern zone. *)
Lemma eastern_offsetAt (t : Z) :
  (t < 1710054000000 /\ Zone.offsetAt Fixture.eastern t = - 18000000)
  \/ (1710054000000 <= t < 1730613600000
      /\ Zone.offsetAt Fixture.eastern t = - 14400000)
  \/ (1730613600000 <= t /\ Zone.offsetAt Fixture.eastern t = - 18000000).
Proof.
  cbn [Fixture.eastern Zone.offsetAt]. unfold JsDate.msPerHour.
  destruct (Z.ltb_spec t 1710054000000); [left; lia|].
  destruct (Z.ltb_spec t 1730613600000); [right; left; lia|right; right; lia].
Qed.

(** The offset by which a local time of the eastern zone is read. *)
Lemma eastern_offsetOf (t : Z) :
  (t < 1710039600000 /\ Zone.offsetOf Fixture.eastern t = - 18000000)
  \/ (1710039600000 <= t < 1730599200000
      /\ Zone.offsetOf Fixture.eastern t = - 14400000)
  \/ (1730599200000 <= t /\ Zone.offsetOf Fixture.eastern t = - 18000000).
Proof.
  cbn [Fixture.eastern Zone.offsetOf]. unfold JsDate.msPerHour.
  destruct (Z.ltb_spec t 1710039600000); [left; lia|].
  destruct (Z.ltb_spec t 1730599200000); [right; left; lia|right; right; lia].
Qed.

(** A zone that changes its offset at 02:00 is regular. *)
Lemma Regular_eastern : Spec.Regular Fixture.eastern.
Proof.
  constructor;
    unfold Spec.wall, Spec.dayOf, JsDate.UTC, JsDate.LocalTime, JsDate.Day,
      JsDate.msPerDay, JsDate.msPerHour.
  - intro day.
    destruct (eastern_offsetOf (day * 86400000 + 12 * 3600000))
      as [[H ->] | [[H ->] | [H ->]]];
      match goal with
      | |- context [Zone.offsetAt Fixture.eastern ?u] =>
          destruct (eastern_offsetAt u) as [[H' ->] | [[H' ->] | [H' ->]]]
      end; lia.
  - intro day.
    destruct (eastern_offsetOf (day * 86400000 + 86399999))
      as [[H ->] | [[H ->] | [H ->]]];
      match goal with
      | |- context [Zone.offsetAt Fixture.eastern ?u] =>
          destruct (eastern_offsetAt u) as [[H' ->] | [[H' ->] | [H' ->]]]
      end; lia.
  - intro t.
    pose proof (Z.div_mod (t + Zone.offsetAt Fixture.eastern t) 86400000
                  ltac:(lia)) as Hdm.
    pose proof (Z.mod_pos_bound (t + Zone.offsetAt Fixture.eastern t) 86400000
                  ltac:(lia)) as Hb.
    set (day := (t + Zone.offsetAt Fixture.eastern t) / 86400000) in *.
    set (r := (t + Zone.offsetAt Fixture.eastern t) mod 86400000) in *.
    clearbody day r.
    destruct (eastern_offsetAt t) as [[H E] | [[H E] | [H E]]];
      rewrite E in Hdm;
      destruct (eastern_offsetOf (day * 86400000 + 0))
        as [[H1 ->] | [[H1 ->] | [H1 ->]]];
      destruct (eastern_offsetOf (day * 86400000 + 86399999))
        as [[H2 ->] | [[H2 ->] | [H2 ->]]];
      lia.
  - intros day t Ht. symmetry.
    apply Z.div_unique
      with (r := t + Zone.offsetAt Fixture.eastern t - day * 86400000);
      [|lia].
    destruct (eastern_offsetAt t) as [[H ->] | [[H ->] | [H ->]]];
      destruct (eastern_offsetOf (day * 86400000 + 0))
        as [[H1 E1] | [[H1 E1] | [H1 E1]]];
      destruct (eastern_offsetOf (day * 86400000 + 86399999))
        as [[H2 E2] | [[H2 E2] | [H2 E2]]];
      rewrite E1, E2 in Ht; lia.
Qed.

Lemma Regular_zone : Spec.Regular Fixture.zone.
Proof. apply Regular_fixed. Qed.

(** In a zone of a fixed offset the handler's deadline is the end of the
    day plus 24 hours. *)
Lemma deadline_fixed (offset t : Z) :
  Spec.deadline (Zone.fixed offset) t
  = Spec.endOfDay (Zone.fixed offset) t + 24 * 3600000.
Proof.
  unfold Spec.deadline, Spec.endOfDay, Spec.wall, JsDate.UTC, JsDate.msPerDay.
  cbn [Zone.fixed Zone.offsetOf]. lia.
Qed.

(** In any zone the two differ by the change of offset between the end of
    the day and the end of the next. *)
Lemma deadline_endOfDay (zone : Zone.t) (t : Z) :
  Spec.deadline zone t
  = Spec.endOfDay zone t + 24 * 3600000
    + (Zone.offsetOf zone (Spec.dayOf zone t * 86400000 + 86399999)
       - Zone.offsetOf zone ((Spec.dayOf zone t + 1) * 86400000 + 86399999)).
Proof.
  unfold Spec.deadline, Spec.endOfDay, Spec.wall, JsDate.UTC, JsDate.msPerDay.
  lia.
Qed.

(** In a zone of a fixed offset the same local time on the next day is 24
    hours later. *)
Lemma nextDay_fixed (offset t : Z) :
  Spec.nextDay (Zone.fixed offset) t = t + 86400000.
Proof.
  unfold Spec.nextDay, JsDate.UTC, JsDate.LocalTime, JsDate.msPerDay.
  cbn [Zone.fixed Zone.offsetAt Zone.offsetOf]. lia.
Qed.

Section LocalTime.
Variable zone : Zone.t.
Hypothesis regular : Spec.Regular zone.

(** Noon of a day lies on that day. *)
Lemma dayOf_noon (day : Z) : Spec.dayOf zone (Spec.noon zone day) = day.
Proof.
  unfold Spec.dayOf at 1, Spec.noon. rewrite (Spec.noon_shown zone regular).
  unfold JsDate.Day, JsDate.msPerDay, JsDate.msPerHour. symmetry.
  apply Z.div_unique with (r := 12 * 3600000); lia.
Qed.

(** The filter [{ gte: start, lte: end }] of [getDateRange] selects the
    instants of one local day. *)
Lemma range_is_day (t d : Z) :
  (Spec.wall zone (Spec.dayOf zone t) 0 <=? d)
  && (d <=? Spec.wall zone (Spec.dayOf zone t) 86399999)
  = (Spec.dayOf zone d =? Spec.dayOf zone t).
Proof.
  destruct (Z.eqb_spec (Spec.dayOf zone d) (Spec.dayOf zone t)) as [Heq | Hne].
  - pose proof (Spec.day_within zone regular d) as H. rewrite Heq in H.
    apply andb_true_iff. split; apply Z.leb_le; lia.
  - apply andb_false_iff.
    destruct (Z.leb_spec (Spec.wall zone (Spec.dayOf zone t) 0) d) as [H1 | H1];
      [|left; reflexivity].
    destruct (Z.leb_spec d (Spec.wall zone (Spec.dayOf zone t) 86399999))
      as [H2 | H2]; [|right; reflexivity].
    exfalso. apply Hne.
    apply (Spec.day_only zone regular). split; assumption.
Qed.

End LocalTime.
End DateFacts.

(** ** Report submission and withdrawal *)

Module ReportFacts.
Section Handlers.

Variable zone : Zone.t.
Hypothesis regular : Spec.Regular zone.
Variable newDate : string -> JsDate.Date.

Local Abbreviation POST := (ReportsRoute.POST zone newDate).
Local Abbreviation DELETE := (ReportsRoute.DELETE zone newDate).
Local Abbreviation ReportsOk := (Spec.ReportsOk zone).
Local Abbreviation reportsOf := (Spec.reportsOf zone).
Local Abbreviation tasksOf := (Spec.tasksOf zone).
Local Abbreviation dayOf := (Spec.dayOf zone).

(** The deadline computed by POST is the last millisecond of the local
    day after the day of the report date. *)
Lemma deadlineOf_deadline (date : string) (t : Z) :
  newDate date = Some t ->
  ReportsRoute.deadlineOf zone newDate date = Some (Spec.deadline zone t).
Proof.
  intro Ht.
  unfold ReportsRoute.deadlineOf, JsDate.getHours, JsDate.setHours1,
    JsDate.setHours.
  rewrite Ht. cbn [option_map]. unfold JsDate.msPerHour.
  change (23 * 3600000 + 59 * 60000 + 59 * 1000 + 999) with 86399999.
  pose proof (Spec.end_shown zone regular (dayOf t)) as He.
  unfold Spec.wall, Spec.dayOf in He. rewrite !He. f_equal.
  unfold Spec.deadline, Spec.wall, Spec.dayOf, JsDate.Day, JsDate.msPerDay.
  f_equal.
  set (day := JsDate.LocalTime zone t / 86400000).
  replace ((day * 86400000 + 86399999) / 86400000) with day
    by (apply Z.div_unique with (r := 86399999); lia).
  replace ((day * 86400000 + 86399999) mod 86400000) with 86399999
    by (apply Z.mod_unique with (q := day); lia).
  replace ((day * 86400000 + 86399999) mod 3600000) with 3599999
    by (apply Z.mod_unique with (q := 24 * day + 23); lia).
  change (86399999 / 3600000) with 23. lia.
Qed.

(** The three queries of the handlers select the rows of one user on one
    local day. *)
Lemma ownedIn_onDay {Row} (userId date : Row -> Z)
  (s : Auth.SessionPayload) (t : Z) (r : Row) :
  ReportsRoute.ownedIn userId date s
    (fun d => (Spec.wall zone (dayOf t) 0 <=? d)
              && (d <=? Spec.wall zone (dayOf t) 86399999))
    r
  = Spec.onDay zone userId date (Auth.userId s) (dayOf t) r.
Proof.
  unfold ReportsRoute.ownedIn, Spec.onDay. f_equal.
  apply DateFacts.range_is_day. exact regular.
Qed.

(** POST, once a session and a date are there. *)
Lemma POST_run (s : Auth.SessionPayload) (date : option string) (t : Z)
  (now submitNow : Z) (db : Db) :
  Js.truthy date = true -> newDate (text date) = Some t ->
  POST (Some s) date now submitNow db
  = if now >? Spec.deadline zone t then (Spec.DeadlinePassed, db)
    else if Prisma.count
              (Spec.onDay zone Task.userId Task.date (Auth.userId s) (dayOf t))
              (tasks db) =? 0
    then (Spec.NoTasksToSubmit, db)
    else
      match Prisma.findFirst
              (Spec.onDay zone DailyReport.userId DailyReport.date
                 (Auth.userId s) (dayOf t)) (reports db) with
      | Some existingReport =>
          try_catch
            (' (r, rows) <-
               Prisma.update DailyReport.id (DailyReport.id existingReport)
                 (ReportsRoute.resubmitted submitNow) (reports db) ;;
             ret (json (report_of r) 201, with_reports db rows))
            "Failed to submit report" db
      | None =>
          try_catch
            (' (r, db') <-
               Prisma.createReport (Spec.noon zone (dayOf t))
                 (Auth.userId s) true (Some submitNow) submitNow db ;;
             ret (json (report_of r) 201, db'))
            "Failed to submit report" db
      end.
Proof.
  intros Hdate Ht. unfold ReportsRoute.POST. rewrite Hdate. cbn [negb].
  unfold ReportsRoute.getDateRange. rewrite (deadlineOf_deadline _ _ Ht).
  unfold JsDate.setHours. rewrite Ht. cbn [option_map JsDate.gt].
  destruct (now >? Spec.deadline zone t); [reflexivity|].
  cbn [Prisma.gte_lte bind ret].
  unfold Prisma.count.
  rewrite (filter_ext _ _ (ownedIn_onDay Task.userId Task.date s t)).
  destruct (Z.of_nat _ =? 0); [reflexivity|].
  unfold Prisma.findFirst.
  rewrite (TableFacts.find_pointwise _ _ _
             (ownedIn_onDay DailyReport.userId DailyReport.date s t)).
  destruct (find _ (reports db)); reflexivity.
Qed.

Lemma POST_invalid_date (s : Auth.SessionPayload) (date : option string)
  (now submitNow : Z) (db : Db) :
  Js.truthy date = true -> newDate (text date) = None ->
  POST (Some s) date now submitNow db
  = (json (error "Failed to submit report") 500, db).
Proof.
  intros Hdate Ht. unfold ReportsRoute.POST. rewrite Hdate. cbn [negb].
  unfold ReportsRoute.getDateRange, ReportsRoute.deadlineOf, JsDate.setHours.
  rewrite Ht. reflexivity.
Qed.

Lemma count_zero {Row} (P : Row -> bool) (l : list Row) :
  (Prisma.count P l =? 0) = true <-> filter P l = [].
Proof.
  unfold Prisma.count. rewrite Z.eqb_eq. split; intro H.
  - destruct (filter P l); [reflexivity|]. cbn [List.length] in H. lia.
  - rewrite H. reflexivity.
Qed.

(** A row found by [findFirst] is the only row of its (day, user) pair. *)
Lemma findFirst_only (u day : Z) (db : Db) (e : DailyReport.t) :
  ReportsOk db ->
  Prisma.findFirst (Spec.onDay zone DailyReport.userId DailyReport.date u day)
    (reports db) = Some e ->
  reportsOf u day db = [e].
Proof.
  intros Hok Hfind. unfold Prisma.findFirst in Hfind.
  rewrite TableFacts.find_head_filter in Hfind.
  pose proof (Spec.one_per_day zone db Hok u day) as Hlen.
  unfold Spec.reportsOf in *.
  destruct (filter _ (reports db)) as [|x [|y rest]]; cbn in *;
    [discriminate | congruence | lia].
Qed.

Lemma findFirst_none (u day : Z) (db : Db) :
  Prisma.findFirst (Spec.onDay zone DailyReport.userId DailyReport.date u day)
    (reports db) = None ->
  reportsOf u day db = [].
Proof.
  unfold Prisma.findFirst. rewrite TableFacts.find_head_filter.
  unfold Spec.reportsOf. destruct (filter _ (reports db)); [reflexivity|discriminate].
Qed.

Lemma onDay_resubmit_rows (u day i submitNow : Z) (rows : list DailyReport.t) :
  filter (Spec.onDay zone DailyReport.userId DailyReport.date u day)
    (Spec.resubmit_rows i submitNow rows)
  = Spec.resubmit_rows i submitNow
      (filter (Spec.onDay zone DailyReport.userId DailyReport.date u day) rows).
Proof.
  unfold Spec.resubmit_rows. apply TableFacts.filter_map_same.
  intro r. destruct (DailyReport.id r =? i); reflexivity.
Qed.

Lemma ids_resubmit_rows (i submitNow : Z) (rows : list DailyReport.t) :
  map DailyReport.id (Spec.resubmit_rows i submitNow rows) = map DailyReport.id rows.
Proof.
  unfold Spec.resubmit_rows. rewrite map_map. apply map_ext.
  intro r. destruct (DailyReport.id r =? i); reflexivity.
Qed.

(** The update of POST keeps the table in order. *)
Lemma ReportsOk_resubmit (i submitNow : Z) (db : Db) :
  ReportsOk db ->
  ReportsOk (with_reports db (Spec.resubmit_rows i submitNow (reports db))).
Proof.
  intros [Hids Hissued Hone]. constructor; cbn [with_reports reports reportSeq].
  - rewrite ids_resubmit_rows. exact Hids.
  - unfold Spec.resubmit_rows. apply Forall_map.
    eapply Forall_impl; [|exact Hissued].
    intros r Hr. destruct (DailyReport.id r =? i); exact Hr.
  - intros u day. unfold Spec.reportsOf. cbn [with_reports reports].
    rewrite onDay_resubmit_rows. unfold Spec.resubmit_rows. rewrite length_map.
    apply Hone.
Qed.

(** The row created by POST lies on the day of the request. *)
Lemma noon_onDay (t : Z) : dayOf (Spec.noon zone (dayOf t)) = dayOf t.
Proof. apply DateFacts.dayOf_noon. exact regular. Qed.

(** The insertion of POST: it is not refused by the unique index, and it
    keeps the table in order. *)
Lemma createReport_fresh (s : Auth.SessionPayload) (t submitNow : Z) (db : Db) :
  reportsOf (Auth.userId s) (dayOf t) db = [] ->
  let r := {| DailyReport.id := reportSeq db + 1;
              DailyReport.date := Spec.noon zone (dayOf t);
              DailyReport.userId := Auth.userId s;
              DailyReport.submitted := true;
              DailyReport.submittedAt := Some submitNow;
              DailyReport.createdAt := submitNow |} in
  Prisma.createReport (Spec.noon zone (dayOf t))
    (Auth.userId s) true (Some submitNow) submitNow db
  = Some (r, {| users := users db; tasks := tasks db;
                reports := reports db ++ [r];
                reportSeq := reportSeq db + 1 |}).
Proof.
  intros Hnone r. unfold Prisma.createReport.
  destruct (existsb _ (reports db)) eqn:Hex; [|reflexivity].
  exfalso. apply existsb_exists in Hex. destruct Hex as (x & Hin & Hx).
  apply andb_true_iff in Hx. destruct Hx as [Hd Hu].
  apply Z.eqb_eq in Hd. apply Z.eqb_eq in Hu.
  assert (In x (reportsOf (Auth.userId s) (dayOf t) db)) as Hin'.
  { unfold Spec.reportsOf. apply filter_In. split; [exact Hin|].
    unfold Spec.onDay. rewrite Hu, Hd, noon_onDay, !Z.eqb_refl. reflexivity. }
  rewrite Hnone in Hin'. exact Hin'.
Qed.

Lemma ReportsOk_create (s : Auth.SessionPayload) (t submitNow : Z) (db : Db) :
  ReportsOk db ->
  reportsOf (Auth.userId s) (dayOf t) db = [] ->
  let r := {| DailyReport.id := reportSeq db + 1;
              DailyReport.date := Spec.noon zone (dayOf t);
              DailyReport.userId := Auth.userId s;
              DailyReport.submitted := true;
              DailyReport.submittedAt := Some submitNow;
              DailyReport.createdAt := submitNow |} in
  ReportsOk {| users := users db; tasks := tasks db;
               reports := reports db ++ [r];
               reportSeq := reportSeq db + 1 |}.
Proof.
  intros [Hids Hissued Hone] Hnone r. constructor; cbn [reports reportSeq].
  - rewrite map_app. cbn [map]. apply NoDup_app; [exact Hids| |].
    + constructor; [intros []|constructor].
    + intros i Hi [Heq | []]. cbn [DailyReport.id r] in Heq. subst i.
      apply in_map_iff in Hi. destruct Hi as (x & Hx & Hin).
      rewrite Forall_forall in Hissued. specialize (Hissued x Hin). lia.
  - apply Forall_app. split.
    + eapply Forall_impl; [|exact Hissued]. intros x Hx. cbn beta in *. lia.
    + constructor; [cbn; lia|constructor].
  - intros u day. unfold Spec.reportsOf. cbn [reports].
    rewrite filter_app, length_app. cbn [filter].
    destruct (Spec.onDay zone DailyReport.userId DailyReport.date u day r) eqn:Hr.
    + unfold Spec.onDay in Hr. apply andb_true_iff in Hr.
      destruct Hr as [Hu Hd]. apply Z.eqb_eq in Hu. apply Z.eqb_eq in Hd.
      cbn [DailyReport.userId DailyReport.date r] in Hu, Hd.
      rewrite noon_onDay in Hd. subst u day.
      unfold Spec.reportsOf in Hnone. rewrite Hnone. cbn. lia.
    + specialize (Hone u day). unfold Spec.reportsOf in Hone. cbn. lia.
Qed.

(** A submission within the window, with tasks on the day: the answer is
    the report of the (day, user) pair, which is then its only row. *)
Lemma POST_accepted (s : Auth.SessionPayload) (date : option string) (t : Z)
  (now submitNow : Z) (db : Db) :
  ReportsOk db ->
  Js.truthy date = true -> newDate (text date) = Some t ->
  now <= Spec.deadline zone t ->
  tasksOf (Auth.userId s) (dayOf t) db <> [] ->
  exists r db',
    POST (Some s) date now submitNow db = (json (report_of r) 201, db')
    /\ reportsOf (Auth.userId s) (dayOf t) db' = [r]
    /\ ReportsOk db'
    /\ tasks db' = tasks db /\ users db' = users db
    /\ (forall e, reportsOf (Auth.userId s) (dayOf t) db = [e] ->
        r = ReportsRoute.resubmitted submitNow e)
    /\ (reportsOf (Auth.userId s) (dayOf t) db = [] ->
        DailyReport.id r = reportSeq db + 1
        /\ DailyReport.submitted r = true
        /\ DailyReport.submittedAt r = Some submitNow).
Proof.
  intros Hok Hdate Ht Hnow Htasks. rewrite (POST_run _ _ _ _ _ _ Hdate Ht).
  destruct (Z.gtb_spec now (Spec.deadline zone t)) as [Hgt | _]; [lia|].
  destruct (Prisma.count _ (tasks db) =? 0) eqn:Hcount.
  { apply count_zero in Hcount. contradiction. }
  destruct (Prisma.findFirst _ (reports db)) as [e | ] eqn:Hfind.
  - pose proof (findFirst_only _ _ _ _ Hok Hfind) as Honly.
    assert (In e (reports db)) as Hin.
    { assert (In e (reportsOf (Auth.userId s) (dayOf t) db)) as H
        by (rewrite Honly; left; reflexivity).
      unfold Spec.reportsOf in H. apply filter_In in H. exact (proj1 H). }
    rewrite (TableFacts.update_some DailyReport.id _ _ _ e)
      by (apply TableFacts.findUnique_row; [exact (Spec.ids_distinct zone db Hok)|exact Hin]).
    fold (Spec.resubmit_rows (DailyReport.id e) submitNow (reports db)).
    cbn [bind ret try_catch].
    eexists; eexists; split; [reflexivity|].
    split; [|split; [apply ReportsOk_resubmit; exact Hok|]].
    + unfold Spec.reportsOf in *. cbn [with_reports reports].
      rewrite onDay_resubmit_rows, Honly. unfold Spec.resubmit_rows.
      cbn [map]. rewrite Z.eqb_refl. reflexivity.
    + split; [reflexivity|]. split; [reflexivity|]. split.
      * intros e' He'. rewrite Honly in He'. congruence.
      * intro Hnone. rewrite Honly in Hnone. discriminate.
  - pose proof (findFirst_none _ _ _ Hfind) as Hnone.
    rewrite (createReport_fresh s t submitNow db Hnone).
    cbn [bind ret try_catch].
    eexists; eexists; split; [reflexivity|].
    split; [|split; [apply ReportsOk_create; assumption|]].
    + unfold Spec.reportsOf in *. cbn [reports]. rewrite filter_app, Hnone.
      cbn [filter app]. unfold Spec.onDay.
      cbn [DailyReport.userId DailyReport.date].
      rewrite noon_onDay, !Z.eqb_refl. reflexivity.
    + split; [reflexivity|]. split; [reflexivity|]. split.
      * intros e' He'. rewrite Hnone in He'. discriminate.
      * intros _. repeat split.
Qed.

(** Every submit call leaves the report table in order. *)
Lemma POST_ReportsOk (session : option Auth.SessionPayload)
  (date : option string) (now submitNow : Z) (db : Db) :
  ReportsOk db -> ReportsOk (snd (POST session date now submitNow db)).
Proof.
  intro Hok. destruct session as [s | ]; [|exact Hok].
  destruct (Js.truthy date) eqn:Hdate.
  2:{ unfold ReportsRoute.POST. rewrite Hdate. exact Hok. }
  destruct (newDate (text date)) as [t | ] eqn:Ht.
  2:{ rewrite (POST_invalid_date _ _ _ _ _ Hdate Ht). exact Hok. }
  destruct (Z.gtb_spec now (Spec.deadline zone t)) as [Hgt | Hle].
  { rewrite (POST_run _ _ _ _ _ _ Hdate Ht).
    destruct (Z.gtb_spec now (Spec.deadline zone t)); [exact Hok|lia]. }
  destruct (tasksOf (Auth.userId s) (dayOf t) db) as [|x l] eqn:Htasks.
  { rewrite (POST_run _ _ _ _ _ _ Hdate Ht).
    destruct (now >? Spec.deadline zone t); [exact Hok|].
    replace (Prisma.count _ (tasks db) =? 0) with true; [exact Hok|].
    symmetry. apply count_zero. exact Htasks. }
  destruct (POST_accepted s date t now submitNow db Hok Hdate Ht Hle)
    as (r & db' & Hrun & _ & Hok' & _).
  { rewrite Htasks. discriminate. }
  rewrite Hrun. exact Hok'.
Qed.

(** X27: the deadline that the submit handler enforces is the last
    millisecond of the local day after the day of the report date.  A call
    made after it is answered DeadlinePassed and leaves the store as it
    was, whatever the role of the session, whether or not a report exists
    for the pair, and whatever the tasks of the day; a call made by then is
    not answered DeadlinePassed.  In a zone of a fixed offset that instant
    is 24 hours after the end of the day of the date
    ([DateFacts.deadline_fixed]). *)
Theorem submit_after_deadline (s : Auth.SessionPayload) (date : option string)
  (t now submitNow : Z) (db : Db) :
  Js.truthy date = true -> newDate (text date) = Some t ->
  (now > Spec.deadline zone t ->
   POST (Some s) date now submitNow db = (Spec.DeadlinePassed, db))
  /\ (now <= Spec.deadline zone t ->
      fst (POST (Some s) date now submitNow db) <> Spec.DeadlinePassed).
Proof.
  intros Hdate Ht. rewrite (POST_run _ _ _ _ _ _ Hdate Ht).
  destruct (Z.gtb_spec now (Spec.deadline zone t)) as [Hgt | Hle];
    split; intro Hnow; try lia; [reflexivity|].
  destruct (Prisma.count _ (tasks db) =? 0); [discriminate|].
  destruct (Prisma.findFirst _ (reports db)) as [e | ].
  - destruct (Prisma.update _ _ _ _) as [[r rows] | ]; discriminate.
  - destruct (Prisma.createReport _ _ _ _ _ _) as [[r db'] | ]; discriminate.
Qed.

(** C3 (as amended): a submit call that passes the deadline check and finds
    no task of the session's user on the day is answered NoTasksToSubmit,
    whatever the role, and leaves the store as it was; one that passes the
    deadline check and finds a task is not answered NoTasksToSubmit.  The
    deadline is the one the handler computes, in a regular zone. *)
Theorem submit_without_tasks (s : Auth.SessionPayload) (date : option string)
  (t now submitNow : Z) (db : Db) :
  Js.truthy date = true -> newDate (text date) = Some t ->
  now <= Spec.deadline zone t ->
  (tasksOf (Auth.userId s) (dayOf t) db = [] ->
   POST (Some s) date now submitNow db = (Spec.NoTasksToSubmit, db))
  /\ (tasksOf (Auth.userId s) (dayOf t) db <> [] ->
      fst (POST (Some s) date now submitNow db) <> Spec.NoTasksToSubmit).
Proof.
  intros Hdate Ht Hnow. rewrite (POST_run _ _ _ _ _ _ Hdate Ht).
  destruct (Z.gtb_spec now (Spec.deadline zone t)) as [Hgt | _]; [lia|].
  split; intro Htasks.
  - replace (Prisma.count _ (tasks db) =? 0) with true; [reflexivity|].
    symmetry. apply count_zero. exact Htasks.
  - destruct (Prisma.count _ (tasks db) =? 0) eqn:Hcount.
    { apply count_zero in Hcount. contradiction. }
    destruct (Prisma.findFirst _ (reports db)) as [e | ].
    + destruct (Prisma.update _ _ _ _) as [[r rows] | ]; cbn; discriminate.
    + destruct (Prisma.createReport _ _ _ _ _ _) as [[r db'] | ]; cbn; discriminate.
Qed.


(** DELETE, once a session and a date are there. *)
Lemma DELETE_run (s : Auth.SessionPayload) (date : option string) (t : Z)
  (db : Db) :
  Js.truthy date = true -> newDate (text date) = Some t ->
  DELETE (Some s) date db
  = match Prisma.findFirst
            (Spec.onDay zone DailyReport.userId DailyReport.date
               (Auth.userId s) (dayOf t)) (reports db) with
    | None => (Spec.ReportNotFound, db)
    | Some report =>
        try_catch
          (rows <- Prisma.delete DailyReport.id (DailyReport.id report)
                     (reports db) ;;
           ret (json (message "Report deleted successfully") 200,
                with_reports db rows))
          "Failed to delete report" db
    end.
Proof.
  intros Hdate Ht. unfold ReportsRoute.DELETE. rewrite Hdate. cbn [negb].
  unfold ReportsRoute.getDateRange, JsDate.setHours. rewrite Ht.
  cbn [option_map Prisma.gte_lte bind ret].
  unfold Prisma.findFirst.
  rewrite (TableFacts.find_pointwise _ _ _
             (ownedIn_onDay DailyReport.userId DailyReport.date s t)).
  destruct (find _ (reports db)); reflexivity.
Qed.

Lemma findFirst_absent (u day : Z) (db : Db) :
  reportsOf u day db = [] ->
  Prisma.findFirst (Spec.onDay zone DailyReport.userId DailyReport.date u day)
    (reports db) = None.
Proof.
  unfold Prisma.findFirst, Spec.reportsOf. rewrite TableFacts.find_head_filter.
  intros ->. reflexivity.
Qed.

(** Taking one row out keeps the table in order. *)
Lemma ReportsOk_remove (db : Db) (before after : list DailyReport.t)
  (r : DailyReport.t) :
  ReportsOk db -> reports db = before ++ r :: after ->
  ReportsOk (with_reports db (before ++ after)).
Proof.
  intros [Hids Hissued Hone] Hrows.
  constructor; cbn [with_reports reports reportSeq].
  - rewrite Hrows, map_app in Hids. cbn [map] in Hids.
    rewrite map_app. exact (NoDup_remove_1 _ _ _ Hids).
  - rewrite Hrows in Hissued. apply Forall_app in Hissued.
    destruct Hissued as [Hb Ha]. inversion Ha; subst.
    apply Forall_app. split; assumption.
  - intros u day. specialize (Hone u day). unfold Spec.reportsOf in *.
    cbn [with_reports reports]. rewrite Hrows in Hone.
    rewrite filter_app, length_app in *. cbn [filter] in Hone.
    destruct (Spec.onDay _ _ _ _ _ r); cbn [List.length] in Hone; lia.
Qed.

Lemma DELETE_absent (s : Auth.SessionPayload) (date : option string) (t : Z)
  (db : Db) :
  Js.truthy date = true -> newDate (text date) = Some t ->
  reportsOf (Auth.userId s) (dayOf t) db = [] ->
  DELETE (Some s) date db = (Spec.ReportNotFound, db).
Proof.
  intros Hdate Ht Hnone. rewrite (DELETE_run _ _ _ _ Hdate Ht).
  rewrite (findFirst_absent _ _ _ Hnone). reflexivity.
Qed.

Lemma DELETE_present (s : Auth.SessionPayload) (date : option string) (t : Z)
  (db : Db) (r : DailyReport.t) :
  ReportsOk db ->
  Js.truthy date = true -> newDate (text date) = Some t ->
  reportsOf (Auth.userId s) (dayOf t) db = [r] ->
  exists before after db',
    DELETE (Some s) date db
    = (json (message "Report deleted successfully") 200, db')
    /\ reports db = before ++ r :: after
    /\ reports db' = before ++ after
    /\ tasks db' = tasks db
    /\ users db' = users db
    /\ reportsOf (Auth.userId s) (dayOf t) db' = []
    /\ ReportsOk db'.
Proof.
  intros Hok Hdate Ht Hrow.
  assert (In r (reports db)) as Hin.
  { assert (In r (reportsOf (Auth.userId s) (dayOf t) db)) as H
      by (rewrite Hrow; left; reflexivity).
    unfold Spec.reportsOf in H. apply filter_In in H. exact (proj1 H). }
  destruct (TableFacts.delete_row DailyReport.id (reports db) r
              (Spec.ids_distinct zone db Hok) Hin)
    as (before & after & Hrows & Hdel).
  assert (reportsOf (Auth.userId s) (dayOf t)
            (with_reports db (before ++ after)) = []) as Hgone.
  { assert (Spec.onDay zone DailyReport.userId DailyReport.date
              (Auth.userId s) (dayOf t) r = true) as Hr.
    { assert (In r (reportsOf (Auth.userId s) (dayOf t) db)) as H
        by (rewrite Hrow; left; reflexivity).
      unfold Spec.reportsOf in H. apply filter_In in H. exact (proj2 H). }
    unfold Spec.reportsOf in *. cbn [with_reports reports].
    rewrite Hrows, filter_app in Hrow. cbn [filter] in Hrow.
    rewrite Hr in Hrow. rewrite filter_app.
    destruct (filter _ before) as [|x l].
    - cbn [app] in Hrow |- *. congruence.
    - cbn [app] in Hrow. injection Hrow as _ Hnil.
      destruct l; discriminate. }
  exists before, after, (with_reports db (before ++ after)).
  split.
  { rewrite (DELETE_run _ _ _ _ Hdate Ht).
    assert (Prisma.findFirst
              (Spec.onDay zone DailyReport.userId DailyReport.date
                 (Auth.userId s) (dayOf t)) (reports db) = Some r) as Hfind.
    { unfold Prisma.findFirst. rewrite TableFacts.find_head_filter.
      unfold Spec.reportsOf in Hrow. rewrite Hrow. reflexivity. }
    rewrite Hfind. unfold Prisma.delete.
    rewrite (TableFacts.findUnique_row DailyReport.id _ _
               (Spec.ids_distinct zone db Hok) Hin).
    cbn [bind ret try_catch]. rewrite Hdel. reflexivity. }
  split; [exact Hrows|]. repeat (split; [reflexivity|]).
  split; [exact Hgone|].
  exact (ReportsOk_remove db before after r Hok Hrows).
Qed.

(** C6: in a regular zone and with the report table in order, a withdraw
    call by session [s] for date [d] is answered NotFound and changes
    nothing when the pair (d, s.userId) has no report; when it has one, that row is taken out of
    the table and every other row stays, the task and user tables are
    untouched, the pair has no report afterwards, and a second withdraw
    call is answered NotFound. *)
Theorem withdraw_report (s : Auth.SessionPayload) (date : option string) (t : Z)
  (db : Db) :
  ReportsOk db ->
  Js.truthy date = true -> newDate (text date) = Some t ->
  (reportsOf (Auth.userId s) (dayOf t) db = [] ->
   DELETE (Some s) date db = (Spec.ReportNotFound, db))
  /\ (forall r,
       reportsOf (Auth.userId s) (dayOf t) db = [r] ->
       exists before after db',
         DELETE (Some s) date db
         = (json (message "Report deleted successfully") 200, db')
         /\ reports db = before ++ r :: after
         /\ reports db' = before ++ after
         /\ tasks db' = tasks db
         /\ users db' = users db
         /\ reportsOf (Auth.userId s) (dayOf t) db' = []
         /\ ReportsOk db'
         /\ DELETE (Some s) date db' = (Spec.ReportNotFound, db')).
Proof.
  intros Hok Hdate Ht. split.
  - exact (DELETE_absent s date t db Hdate Ht).
  - intros r Hrow.
    destruct (DELETE_present s date t db r Hok Hdate Ht Hrow)
      as (before & after & db' & Hrun & Hrows & Hrows' & Htasks & Husers
          & Hgone & Hok').
    exists before, after, db'. repeat (split; [assumption|]).
    exact (DELETE_absent s date t db' Hdate Ht Hgone).
Qed.

Lemma DELETE_invalid_date (s : Auth.SessionPayload) (date : option string)
  (db : Db) :
  Js.truthy date = true -> newDate (text date) = None ->
  DELETE (Some s) date db = (json (error "Failed to delete report") 500, db).
Proof.
  intros Hdate Ht. unfold ReportsRoute.DELETE. rewrite Hdate. cbn [negb].
  unfold ReportsRoute.getDateRange, JsDate.setHours. rewrite Ht. reflexivity.
Qed.

(** Every withdraw call leaves the report table in order. *)
Lemma DELETE_ReportsOk (session : option Auth.SessionPayload)
  (date : option string) (db : Db) :
  ReportsOk db -> ReportsOk (snd (DELETE session date db)).
Proof.
  intro Hok. destruct session as [s | ]; [|exact Hok].
  destruct (Js.truthy date) eqn:Hdate.
  2:{ unfold ReportsRoute.DELETE. rewrite Hdate. exact Hok. }
  destruct (newDate (text date)) as [t | ] eqn:Ht.
  2:{ rewrite (DELETE_invalid_date _ _ _ Hdate Ht). exact Hok. }
  destruct (reportsOf (Auth.userId s) (dayOf t) db) as [|r l] eqn:Hrows.
  - rewrite (DELETE_absent s date t db Hdate Ht Hrows). exact Hok.
  - pose proof (Spec.one_per_day zone db Hok (Auth.userId s) (dayOf t)) as Hlen.
    unfold Spec.reportsOf in Hrows, Hlen. rewrite Hrows in Hlen.
    destruct l; [|cbn in Hlen; lia].
    destruct (DELETE_present s date t db r Hok Hdate Ht Hrows)
      as (before & after & db' & Hrun & _ & _ & _ & _ & _ & Hok').
    rewrite Hrun. exact Hok'.
Qed.

Lemma filter_has {A} (P : A -> bool) (l : list A) (x : A) :
  In x l -> P x = true -> (1 <= List.length (filter P l))%nat.
Proof.
  intros Hin Hx.
  assert (In x (filter P l)) as H by (apply filter_In; split; assumption).
  destruct (filter P l); [contradiction|]. cbn. lia.
Qed.

(** A table in order satisfies the unique index
    [DailyReport_date_userId_key] on (date, userId). *)
Lemma ReportsOk_unique_index (db : Db) :
  ReportsOk db ->
  NoDup (map (fun r => (DailyReport.date r, DailyReport.userId r)) (reports db)).
Proof.
  intros [_ _ Hone]. unfold Spec.reportsOf in Hone.
  induction (reports db) as [|r l IH]; cbn [map]; constructor.
  - intro Hin. apply in_map_iff in Hin. destruct Hin as (r' & Hkey & Hin).
    injection Hkey as Hd Hu.
    specialize (Hone (DailyReport.userId r) (dayOf (DailyReport.date r))).
    cbn [filter] in Hone. unfold Spec.onDay at 1 in Hone.
    rewrite !Z.eqb_refl in Hone. cbn [andb List.length] in Hone.
    pose proof (filter_has
                  (Spec.onDay zone DailyReport.userId DailyReport.date
                     (DailyReport.userId r) (dayOf (DailyReport.date r)))
                  l r' Hin) as Hge.
    unfold Spec.onDay at 1 in Hge. rewrite Hd, Hu, !Z.eqb_refl in Hge.
    specialize (Hge eq_refl). lia.
  - apply IH. intros u day. specialize (Hone u day). cbn [filter] in Hone.
    destruct (Spec.onDay zone DailyReport.userId DailyReport.date u day r);
      cbn [List.length] in Hone; lia.
Qed.

(** The table is in order before the first report is submitted. *)
Lemma ReportsOk_start (db : Db) : reports db = [] -> ReportsOk db.
Proof.
  intro H. constructor.
  - rewrite H. constructor.
  - rewrite H. constructor.
  - intros u day. unfold Spec.reportsOf. rewrite H. cbn. lia.
Qed.

End Handlers.


(** Alice submits her report of 2024-06-01 three days late, and on the
    day itself. *)
Lemma submit_after_deadline_witness :
  ReportsRoute.POST Fixture.zone Fixture.newDate (Some Fixture.alice)
    (Some "2024-06-01"%string) (Fixture.june1 + 3 * 86400000)
    (Fixture.june1 + 3 * 86400000) Fixture.db0
  = (Spec.DeadlinePassed, Fixture.db0)
  /\ fst (ReportsRoute.POST Fixture.zone Fixture.newDate (Some Fixture.alice)
            (Some "2024-06-01"%string) (Fixture.june1 + 1000)
            (Fixture.june1 + 1001) Fixture.db0)
     <> Spec.DeadlinePassed.
Proof.
  split.
  - apply (proj1 (submit_after_deadline Fixture.zone DateFacts.Regular_zone
                    Fixture.newDate Fixture.alice (Some "2024-06-01"%string)
                    Fixture.june1 (Fixture.june1 + 3 * 86400000)
                    (Fixture.june1 + 3 * 86400000) Fixture.db0
                    eq_refl eq_refl)).
    vm_compute. reflexivity.
  - apply (proj2 (submit_after_deadline Fixture.zone DateFacts.Regular_zone
                    Fixture.newDate Fixture.alice (Some "2024-06-01"%string)
                    Fixture.june1 (Fixture.june1 + 1000)
                    (Fixture.june1 + 1001) Fixture.db0 eq_refl eq_refl)).
    vm_compute. discriminate.
Defined.

(** C2: the handler's comment puts the deadline 24 hours after the end of
    the day, and the handler adds 24 to the hour of the local clock: where
    the offset of the zone changes in between, the two differ.  In the
    eastern zone the report
    date 2024-11-03 lies on 2 November, whose last millisecond is
    1730606399999.  At 1730694600000, which is 24 and a half hours later,
    Alice's submit call is accepted: the day after has 25 hours.  For the
    report date 2024-03-10, which lies on 9 March, a call at 1710131400000,
    23 and a half hours after the end of that day, is answered
    DeadlinePassed: the day after has 23 hours. *)
Lemma deadline_across_offset_change :
  (Fixture.newDate "2024-11-03" = Some 1730592000000
   /\ Spec.endOfDay Fixture.eastern 1730592000000 = 1730606399999
   /\ 1730694600000 > 1730606399999 + 24 * 3600000
   /\ ReportsRoute.POST Fixture.eastern Fixture.newDate (Some Fixture.alice)
        (Some "2024-11-03"%string) 1730694600000 1730694600001 Fixture.db_nov
      = (json (report_of
                 {| DailyReport.id := 1;
                    DailyReport.date := 1730563200000;
                    DailyReport.userId := 2;
                    DailyReport.submitted := true;
                    DailyReport.submittedAt := Some 1730694600001;
                    DailyReport.createdAt := 1730694600001 |}) 201,
         {| users := users Fixture.db_nov;
            tasks := tasks Fixture.db_nov;
            reports :=
              [{| DailyReport.id := 1;
                  DailyReport.date := 1730563200000;
                  DailyReport.userId := 2;
                  DailyReport.submitted := true;
                  DailyReport.submittedAt := Some 1730694600001;
                  DailyReport.createdAt := 1730694600001 |}];
            reportSeq := 1 |}))
  /\ (Fixture.newDate "2024-03-10" = Some 1710028800000
      /\ Spec.endOfDay Fixture.eastern 1710028800000 = 1710046799999
      /\ 1710131400000 <= 1710046799999 + 24 * 3600000
      /\ ReportsRoute.POST Fixture.eastern Fixture.newDate (Some Fixture.alice)
           (Some "2024-03-10"%string) 1710131400000 1710131400001
           Fixture.db_nov
         = (Spec.DeadlinePassed, Fixture.db_nov)).
Proof.
  repeat split; vm_compute; congruence.
Qed.

(** Alice has no task on 2024-06-02, Bob has one on 2024-06-01. *)
Lemma submit_without_tasks_witness :
  ReportsRoute.POST Fixture.zone Fixture.newDate (Some Fixture.alice)
    (Some "2024-06-02"%string) (Fixture.june1 + 1000) (Fixture.june1 + 1001)
    Fixture.db0
  = (Spec.NoTasksToSubmit, Fixture.db0)
  /\ fst (ReportsRoute.POST Fixture.zone Fixture.newDate (Some Fixture.bob)
            (Some "2024-06-01"%string) (Fixture.june1 + 1000)
            (Fixture.june1 + 1001) Fixture.db0)
     <> Spec.NoTasksToSubmit.
Proof.
  split.
  - apply (submit_without_tasks Fixture.zone DateFacts.Regular_zone
             Fixture.newDate Fixture.alice
             (Some "2024-06-02"%string) (Fixture.june1 + 86400000)).
    + reflexivity.
    + reflexivity.
    + vm_compute. discriminate.
    + reflexivity.
  - apply (submit_without_tasks Fixture.zone DateFacts.Regular_zone
             Fixture.newDate Fixture.bob
             (Some "2024-06-01"%string) Fixture.june1).
    + reflexivity.
    + reflexivity.
    + vm_compute. discriminate.
    + vm_compute. discriminate.
Defined.

(** Alice has no task on 2024-05-01; her submit call for that day, made on
    2024-06-01, is answered DeadlinePassed, not NoTasksToSubmit. *)
Lemma submit_without_tasks_counterexample :
  Spec.tasksOf Fixture.zone (Auth.userId Fixture.alice)
    (Spec.dayOf Fixture.zone (Fixture.june1 - 31 * 86400000)) Fixture.db0 = []
  /\ Fixture.newDate "2024-05-01" = Some (Fixture.june1 - 31 * 86400000)
  /\ ReportsRoute.POST Fixture.zone Fixture.newDate (Some Fixture.alice)
       (Some "2024-05-01"%string) Fixture.june1 Fixture.june1 Fixture.db0
     = (Spec.DeadlinePassed, Fixture.db0)
  /\ Spec.DeadlinePassed <> Spec.NoTasksToSubmit.
Proof.
  repeat split; try reflexivity. vm_compute. discriminate.
Qed.

(** Alice withdraws the report of 2024-06-01 that she submitted. *)
Lemma withdraw_report_witness :
  let db1 := snd (ReportsRoute.POST Fixture.zone Fixture.newDate
                    (Some Fixture.alice) (Some "2024-06-01"%string)
                    (Fixture.june1 + 1000) (Fixture.june1 + 1001) Fixture.db0) in
  ReportsRoute.DELETE Fixture.zone Fixture.newDate (Some Fixture.bob)
    (Some "2024-06-01"%string) db1 = (Spec.ReportNotFound, db1)
  /\ exists before after db',
       ReportsRoute.DELETE Fixture.zone Fixture.newDate (Some Fixture.alice)
         (Some "2024-06-01"%string) db1
       = (json (message "Report deleted successfully") 200, db')
       /\ reports db1
          = before
            ++ {| DailyReport.id := 1;
                  DailyReport.date := Fixture.june1 + 5 * 3600000;
                  DailyReport.userId := 2;
                  DailyReport.submitted := true;
                  DailyReport.submittedAt := Some (Fixture.june1 + 1001);
                  DailyReport.createdAt := Fixture.june1 + 1001 |} :: after
       /\ reports db' = before ++ after
       /\ tasks db' = tasks db1
       /\ users db' = users db1
       /\ Spec.reportsOf Fixture.zone (Auth.userId Fixture.alice)
            (Spec.dayOf Fixture.zone Fixture.june1) db' = []
       /\ Spec.ReportsOk Fixture.zone db'
       /\ ReportsRoute.DELETE Fixture.zone Fixture.newDate (Some Fixture.alice)
            (Some "2024-06-01"%string) db' = (Spec.ReportNotFound, db').
Proof.
  intro db1.
  assert (Spec.ReportsOk Fixture.zone db1) as Hok.
  { apply (POST_ReportsOk Fixture.zone DateFacts.Regular_zone).
    apply ReportsOk_start. reflexivity. }
  split.
  - apply (proj1 (withdraw_report Fixture.zone DateFacts.Regular_zone
                    Fixture.newDate Fixture.bob
                    (Some "2024-06-01"%string) Fixture.june1 db1 Hok
                    eq_refl eq_refl)).
    reflexivity.
  - apply (proj2 (withdraw_report Fixture.zone DateFacts.Regular_zone
                    Fixture.newDate Fixture.alice
                    (Some "2024-06-01"%string) Fixture.june1 db1 Hok
                    eq_refl eq_refl)).
    reflexivity.
Defined.

End ReportFacts.

(** ** Tasks *)

Module TaskFacts.

(** An [Int] passes as an id. *)
Lemma number_Int (n : Z) : fitsInt n = true -> number (Some n) = Some n.
Proof. intro H. unfold number. rewrite H. reflexivity. Qed.

(** What is no [Int] does not. *)
Lemma number_not_Int (n : Z) : fitsInt n = false -> number (Some n) = None.
Proof. intro H. unfold number. rewrite H. reflexivity. Qed.

Section Handlers.

Variable zone : Zone.t.
Variable newDate : string -> JsDate.Date.
Variable parseInt : string -> option Z.

Local Abbreviation GET := (TasksRoute.GET zone newDate parseInt).
Local Abbreviation PUT := (TaskIdRoute.PUT parseInt).
Local Abbreviation DELETE := (TaskIdRoute.DELETE parseInt).

(** The caller passes the ownership check of PUT and DELETE. *)
Lemma owner_or_admin (s : Auth.SessionPayload) (t : Task.t) :
  Auth.role s = "admin"%string \/ Task.userId t = Auth.userId s ->
  negb (Auth.role s =? "admin")%string
  && negb (Task.userId t =? Auth.userId s) = false.
Proof.
  intros [H | H]; rewrite H.
  - reflexivity.
  - rewrite Z.eqb_refl. apply andb_false_r.
Qed.

Lemma stranger (s : Auth.SessionPayload) (t : Task.t) :
  Auth.role s <> "admin"%string -> Task.userId t <> Auth.userId s ->
  negb (Auth.role s =? "admin")%string
  && negb (Task.userId t =? Auth.userId s) = true.
Proof.
  intros Hrole Huser.
  destruct (String.eqb_spec (Auth.role s) "admin"); [contradiction|].
  destruct (Z.eqb_spec (Task.userId t) (Auth.userId s)); [contradiction|].
  reflexivity.
Qed.

(** The row written by PUT. *)
Lemma PUT_authorized (s : Auth.SessionPayload) (id : string) (n : Z)
  (taskName plan result : TaskIdRoute.Field) (db : Db) (t : Task.t) :
  parseInt id = Some n -> fitsInt n = true ->
  Prisma.findUnique Task.id n (tasks db) = Some t ->
  Auth.role s = "admin"%string \/ Task.userId t = Auth.userId s ->
  Spec.textual taskName && Spec.textual plan && Spec.textual result = true ->
  let data :=
    TaskIdRoute.written (Spec.updated taskName (Task.taskName t))
      (Spec.updated plan (Task.plan t)) (Spec.updated result (Task.result t)) in
  PUT (Some s) id (Some (taskName, plan, result)) db
  = (json (task_of (data t)) 200,
     with_tasks db (map (fun x => if Task.id x =? n then data x else x) (tasks db))).
Proof.
  intros Hid Hfit Hfind Hauth Htext data. unfold TaskIdRoute.PUT.
  rewrite Hid. cbn [bind]. rewrite (number_Int n Hfit). cbn [bind].
  rewrite Hfind.
  rewrite (owner_or_admin s t Hauth).
  apply andb_true_iff in Htext. destruct Htext as [Htext Hr].
  apply andb_true_iff in Htext. destruct Htext as [Hn Hp].
  unfold Prisma.update. rewrite Hfind.
  destruct taskName, plan, result; try discriminate; reflexivity.
Qed.

(** A request whose id is no key of the table (not a number, or a number
    that is no [Int]), or an update whose body is no JSON object, is
    answered 500 and changes nothing. *)
Lemma not_a_key (s : Auth.SessionPayload) (id : string)
  (body : M (TaskIdRoute.Field * TaskIdRoute.Field * TaskIdRoute.Field))
  (db : Db) :
  number (parseInt id) = None ->
  PUT (Some s) id body db = (json (error "Internal server error") 500, db)
  /\ DELETE (Some s) id db = (json (error "Internal server error") 500, db).
Proof.
  intro H. unfold TaskIdRoute.PUT, TaskIdRoute.DELETE. rewrite H.
  split; [|reflexivity]. destruct body as [[[a b] c] | ]; reflexivity.
Qed.

Lemma PUT_no_body (s : Auth.SessionPayload) (id : string) (db : Db) :
  PUT (Some s) id None db = (json (error "Internal server error") 500, db).
Proof. reflexivity. Qed.

(** C7 (as amended): for an update or a delete request on a task id, by
    any session, where the id is a key (an integer of the range of the id
    column) and the body of an update is a JSON object: when no task has
    the id the
    answer is NotFound, whoever asks; when the task exists and the session
    is not an admin's and not the owner's, the answer is Unauthorized and
    the store is as it was; an admin's session deletes any task, which is
    then the one row missing from the table, and updates any task: the
    answer and the stored row carry the supplied texts in [taskName],
    [plan] and [result], the prior value where a member is absent, and the
    prior id, date, userId and createdAt, and every other row is as
    before. *)
Theorem task_mutation_guard (s : Auth.SessionPayload) (id : string) (n : Z)
  (taskName plan result : TaskIdRoute.Field) (db : Db) :
  parseInt id = Some n -> fitsInt n = true ->
  (Prisma.findUnique Task.id n (tasks db) = None ->
   PUT (Some s) id (Some (taskName, plan, result)) db = (Spec.TaskNotFound, db)
   /\ DELETE (Some s) id db = (Spec.TaskNotFound, db))
  /\ (forall t,
       Prisma.findUnique Task.id n (tasks db) = Some t ->
       Auth.role s <> "admin"%string -> Task.userId t <> Auth.userId s ->
       PUT (Some s) id (Some (taskName, plan, result)) db
       = (Spec.Unauthorized, db)
       /\ DELETE (Some s) id db = (Spec.Unauthorized, db))
  /\ (forall t,
       Prisma.findUnique Task.id n (tasks db) = Some t ->
       Auth.role s = "admin"%string ->
       DELETE (Some s) id db
       = (json success 200,
          with_tasks db (filter (fun x => negb (Task.id x =? n)) (tasks db)))
       /\ (Spec.textual taskName && Spec.textual plan && Spec.textual result
           = true ->
           let t' :=
             {| Task.id := Task.id t;
                Task.date := Task.date t;
                Task.taskName :=
                  match taskName with
                  | TaskIdRoute.str v => v
                  | _ => Task.taskName t
                  end;
                Task.plan :=
                  match plan with TaskIdRoute.str v => v | _ => Task.plan t end;
                Task.result :=
                  match result with
                  | TaskIdRoute.str v => v
                  | _ => Task.result t
                  end;
                Task.userId := Task.userId t;
                Task.createdAt := Task.createdAt t |} in
           exists db',
             PUT (Some s) id (Some (taskName, plan, result)) db
             = (json (task_of t') 200, db')
             /\ Prisma.findUnique Task.id n (tasks db') = Some t'
             /\ (forall m, m <> n ->
                 Prisma.findUnique Task.id m (tasks db')
                 = Prisma.findUnique Task.id m (tasks db))
             /\ List.length (tasks db') = List.length (tasks db)
             /\ users db' = users db
             /\ reports db' = reports db)).
Proof.
  intros Hid Hfit. split; [|split].
  - intro Hnone. unfold TaskIdRoute.PUT, TaskIdRoute.DELETE.
    rewrite Hid. cbn [bind]. rewrite (number_Int n Hfit). cbn [bind].
    rewrite Hnone. split; reflexivity.
  - intros t Hfind Hrole Huser. unfold TaskIdRoute.PUT, TaskIdRoute.DELETE.
    rewrite Hid. cbn [bind]. rewrite (number_Int n Hfit). cbn [bind].
    rewrite Hfind.
    rewrite (stranger s t Hrole Huser). split; reflexivity.
  - intros t Hfind Hrole. split.
    + unfold TaskIdRoute.DELETE. rewrite Hid, (number_Int n Hfit).
      cbn [bind].
      rewrite Hfind, (owner_or_admin s t (or_introl Hrole)).
      unfold Prisma.delete. rewrite Hfind. reflexivity.
    + intros Htext t'.
      rewrite (PUT_authorized s id n taskName plan result db t Hid Hfit Hfind
                 (or_introl Hrole) Htext).
      eexists. split; [reflexivity|].
      cbn [with_tasks tasks users reports].
      split; [|split; [|split; [|split; reflexivity]]].
      * apply (TableFacts.findUnique_update_same Task.id n
                 (TaskIdRoute.written _ _ _) (tasks db) t);
          [reflexivity|exact Hfind].
      * intros m Hm.
        apply (TableFacts.findUnique_update_other Task.id n m
                 (TaskIdRoute.written _ _ _));
          [reflexivity|exact Hm].
      * apply length_map.
Qed.

(** A supplied member that is not text makes the write fail as a whole. *)
Lemma PUT_not_textual (s : Auth.SessionPayload) (id : string) (n : Z)
  (taskName plan result : TaskIdRoute.Field) (db : Db) (t : Task.t) :
  parseInt id = Some n -> fitsInt n = true ->
  Prisma.findUnique Task.id n (tasks db) = Some t ->
  Auth.role s = "admin"%string \/ Task.userId t = Auth.userId s ->
  Spec.textual taskName && Spec.textual plan && Spec.textual result = false ->
  PUT (Some s) id (Some (taskName, plan, result)) db
  = (json (error "Internal server error") 500, db).
Proof.
  intros Hid Hfit Hfind Hauth Htext. unfold TaskIdRoute.PUT.
  rewrite Hid. cbn [bind]. rewrite (number_Int n Hfit). cbn [bind].
  rewrite Hfind.
  rewrite (owner_or_admin s t Hauth).
  destruct taskName, plan, result; try discriminate; reflexivity.
Qed.

(** C8: an authorized update is partial.  When the supplied members are
    text the answer is the updated task: each of [taskName], [plan] and
    [result] is the supplied text or, when the member is absent, its prior
    value; id, date, userId and createdAt are the prior ones; the row is
    stored under its id, and every other task, every user and every report
    is as before.  When a supplied member is not text, nothing changes.
    The id is that of a task of the table, an integer of the range of the
    id column. *)
Theorem task_update_partial (s : Auth.SessionPayload) (id : string) (n : Z)
  (taskName plan result : TaskIdRoute.Field) (db : Db) (t : Task.t) :
  parseInt id = Some n -> fitsInt n = true ->
  Prisma.findUnique Task.id n (tasks db) = Some t ->
  Auth.role s = "admin"%string \/ Task.userId t = Auth.userId s ->
  (Spec.textual taskName && Spec.textual plan && Spec.textual result = true ->
   exists t' db',
     PUT (Some s) id (Some (taskName, plan, result)) db
     = (json (task_of t') 200, db')
     /\ Task.taskName t'
        = match taskName with
          | TaskIdRoute.str v => v
          | _ => Task.taskName t
          end
     /\ Task.plan t'
        = match plan with TaskIdRoute.str v => v | _ => Task.plan t end
     /\ Task.result t'
        = match result with TaskIdRoute.str v => v | _ => Task.result t end
     /\ Task.id t' = Task.id t
     /\ Task.date t' = Task.date t
     /\ Task.userId t' = Task.userId t
     /\ Task.createdAt t' = Task.createdAt t
     /\ Prisma.findUnique Task.id n (tasks db') = Some t'
     /\ (forall m, m <> n ->
         Prisma.findUnique Task.id m (tasks db')
         = Prisma.findUnique Task.id m (tasks db))
     /\ List.length (tasks db') = List.length (tasks db)
     /\ users db' = users db
     /\ reports db' = reports db)
  /\ (Spec.textual taskName && Spec.textual plan && Spec.textual result = false ->
      snd (PUT (Some s) id (Some (taskName, plan, result)) db) = db).
Proof.
  intros Hid Hfit Hfind Hauth. split; intro Htext.
  2:{ rewrite (PUT_not_textual s id n taskName plan result db t Hid Hfit Hfind
                 Hauth Htext). reflexivity. }
  rewrite (PUT_authorized s id n taskName plan result db t Hid Hfit Hfind Hauth
             Htext).
  eexists; eexists; split; [reflexivity|].
  cbn [TaskIdRoute.written Task.taskName Task.plan Task.result Task.id
       Task.date Task.userId Task.createdAt with_tasks tasks users reports].
  repeat (split; [reflexivity|]).
  split; [|split; [|split; [|split; reflexivity]]].
  - apply (TableFacts.findUnique_update_same Task.id n
             (TaskIdRoute.written _ _ _) (tasks db) t);
      [reflexivity|exact Hfind].
  - intros m Hm.
    apply (TableFacts.findUnique_update_other Task.id n m
             (TaskIdRoute.written _ _ _));
      [reflexivity|exact Hm].
  - apply length_map.
Qed.

Lemma includeUser_rows (users : list User.t) (rows : list Task.t)
  (l : list (Task.t * UserRef)) :
  TasksRoute.includeUser users rows = Some l -> map fst l = rows.
Proof.
  revert l. induction rows as [|t rows IH]; intros l H.
  - injection H as <-. reflexivity.
  - cbn [TasksRoute.includeUser] in H.
    destruct (Prisma.findUnique User.id (Task.userId t) users); [|discriminate].
    cbn [bind] in H.
    destruct (TasksRoute.includeUser users rows) as [rest | ]; [|discriminate].
    cbn [bind ret] in H. injection H as <-. cbn [map fst].
    rewrite (IH rest eq_refl). reflexivity.
Qed.

Lemma insertAsc_In {Row} (col : Row -> Z) (r x : Row) (l : list Row) :
  In x (Prisma.insertAsc col r l) -> x = r \/ In x l.
Proof.
  induction l as [|r' l IH]; cbn [Prisma.insertAsc].
  - intros [<- | []]. left. reflexivity.
  - destruct (col r <=? col r').
    + intros [<- | H]; [left; reflexivity|right; exact H].
    + intros [<- | H]; [right; left; reflexivity|].
      destruct (IH H) as [-> | H']; [left; reflexivity|right; right; exact H'].
Qed.

Lemma orderByAsc_In {Row} (col : Row -> Z) (x : Row) (l : list Row) :
  In x (Prisma.orderByAsc col l) -> In x l.
Proof.
  unfold Prisma.orderByAsc. induction l as [|r l IH]; cbn [fold_right].
  - intros [].
  - intro H. apply insertAsc_In in H. destruct H as [-> | H].
    + left. reflexivity.
    + right. apply IH. exact H.
Qed.

(** A query with [where.userId] set returns rows of that user only. *)
Lemma findMany_userId (uid : Z) (where_date : option (JsDate.Date * JsDate.Date))
  (db : Db) (l : list (Task.t * UserRef)) :
  TasksRoute.findMany
    {| TasksRoute.where_userId := Some (Some uid);
       TasksRoute.where_date := where_date |} db = Some l ->
  Forall (fun row => Task.userId (fst row) = uid) l.
Proof.
  unfold TasksRoute.findMany.
  cbn [TasksRoute.where_userId TasksRoute.where_date].
  unfold number. destruct (fitsInt uid); [|discriminate].
  cbn [bind ret]. intro H.
  assert (exists byDate,
            TasksRoute.includeUser (users db)
              (Prisma.orderByAsc Task.createdAt
                 (filter (fun t => (Task.userId t =? uid) && byDate (Task.date t))
                    (tasks db))) = Some l) as (byDate & Hinc).
  { destruct where_date as [[gte lt] | ].
    - destruct (Prisma.gte_lt gte lt) as [byDate | ]; [|discriminate].
      exists byDate. exact H.
    - exists (fun _ => true). exact H. }
  apply includeUser_rows in Hinc.
  apply Forall_forall. intros row Hrow.
  assert (In (fst row) (map fst l)) as Hin by (apply in_map; exact Hrow).
  rewrite Hinc in Hin. apply orderByAsc_In in Hin.
  apply filter_In in Hin. destruct Hin as [_ Hin].
  apply andb_true_iff in Hin. destruct Hin as [Hu _].
  apply Z.eqb_eq. exact Hu.
Qed.

(** X29: for a session whose role is "staff", the task list does not
    depend on the [userId] search parameter, every task in it belongs to
    the session's user, and the store is left as it was. *)
Theorem task_list_staff (s : Auth.SessionPayload)
  (dateStr userId1 userId2 : option string) (db : Db) :
  Auth.role s = "staff"%string ->
  GET (Some s) dateStr userId1 db = GET (Some s) dateStr userId2 db
  /\ (forall l,
       body (fst (GET (Some s) dateStr userId1 db)) = tasks_of l ->
       Forall (fun row => Task.userId (fst row) = Auth.userId s) l)
  /\ snd (GET (Some s) dateStr userId1 db) = db.
Proof.
  intro Hrole. unfold TasksRoute.GET. rewrite Hrole.
  cbn [String.eqb Ascii.eqb Bool.eqb andb].
  split; [reflexivity|].
  destruct (TasksRoute.findMany _ db) as [l' | ] eqn:Hfind;
    cbn [bind ret try_catch fst snd body json].
  - split; [|reflexivity]. intros l H. injection H as <-.
    exact (findMany_userId _ _ _ _ Hfind).
  - split; [intros l H; discriminate|reflexivity].
Qed.

End Handlers.

(** Alice, staff, asks to change and to delete Bob's task, then a task that
    does not exist; the admin renames Bob's task. *)
Lemma task_mutation_guard_witness :
  (TaskIdRoute.PUT Fixture.parseInt (Some Fixture.alice) "2"
     (Some (TaskIdRoute.str "mine", TaskIdRoute.undefined,
            TaskIdRoute.undefined))
     Fixture.db0 = (Spec.Unauthorized, Fixture.db0)
   /\ TaskIdRoute.DELETE Fixture.parseInt (Some Fixture.alice) "2" Fixture.db0
      = (Spec.Unauthorized, Fixture.db0))
  /\ (TaskIdRoute.PUT Fixture.parseInt (Some Fixture.alice) "9"
        (Some (TaskIdRoute.str "mine", TaskIdRoute.undefined,
               TaskIdRoute.undefined))
        Fixture.db0 = (Spec.TaskNotFound, Fixture.db0)
      /\ TaskIdRoute.DELETE Fixture.parseInt (Some Fixture.alice) "9" Fixture.db0
         = (Spec.TaskNotFound, Fixture.db0))
  /\ (exists db',
        TaskIdRoute.PUT Fixture.parseInt (Some Fixture.admin) "2"
          (Some (TaskIdRoute.str "Buy more media", TaskIdRoute.undefined,
                 TaskIdRoute.undefined))
          Fixture.db0
        = (json (task_of
                   {| Task.id := 2; Task.date := Fixture.june1;
                      Task.taskName := "Buy more media"; Task.plan := "";
                      Task.result := ""; Task.userId := 3;
                      Task.createdAt := Fixture.june1 + 2000 |}) 200, db')
        /\ Prisma.findUnique Task.id 2 (tasks db')
           = Some {| Task.id := 2; Task.date := Fixture.june1;
                     Task.taskName := "Buy more media"; Task.plan := "";
                     Task.result := ""; Task.userId := 3;
                     Task.createdAt := Fixture.june1 + 2000 |}).
Proof.
  split; [|split].
  - apply (proj1 (proj2 (task_mutation_guard Fixture.parseInt Fixture.alice "2" 2
                           (TaskIdRoute.str "mine") TaskIdRoute.undefined
                           TaskIdRoute.undefined Fixture.db0 eq_refl eq_refl))
             Fixture.buyMedia).
    + reflexivity.
    + vm_compute. discriminate.
    + vm_compute. discriminate.
  - apply (proj1 (task_mutation_guard Fixture.parseInt Fixture.alice "9" 9
                    (TaskIdRoute.str "mine") TaskIdRoute.undefined
                    TaskIdRoute.undefined Fixture.db0 eq_refl eq_refl)).
    reflexivity.
  - destruct (proj2 (proj2 (proj2
                (task_mutation_guard Fixture.parseInt Fixture.admin "2" 2
                   (TaskIdRoute.str "Buy more media") TaskIdRoute.undefined
                   TaskIdRoute.undefined Fixture.db0 eq_refl eq_refl))
                Fixture.buyMedia eq_refl eq_refl) eq_refl)
      as (db' & Hrun & Hrow & _).
    exists db'. split; [exact Hrun|exact Hrow].
Defined.

(** No task has the id 10^30, which is no [Int], and none has the id 9.
    A delete and an update request on the first are answered 500, and so
    is an update request on the second whose body is no JSON object. *)
Lemma task_mutation_guard_counterexample :
  Fixture.parseInt "1000000000000000000000000000000" = Some (10 ^ 30)
  /\ Prisma.findUnique Task.id (10 ^ 30) (tasks Fixture.db0) = None
  /\ TaskIdRoute.DELETE Fixture.parseInt (Some Fixture.admin)
       "1000000000000000000000000000000" Fixture.db0
     = (json (error "Internal server error") 500, Fixture.db0)
  /\ TaskIdRoute.PUT Fixture.parseInt (Some Fixture.admin)
       "1000000000000000000000000000000"
       (Some (TaskIdRoute.str "mine", TaskIdRoute.undefined,
              TaskIdRoute.undefined))
       Fixture.db0
     = (json (error "Internal server error") 500, Fixture.db0)
  /\ Prisma.findUnique Task.id 9 (tasks Fixture.db0) = None
  /\ TaskIdRoute.PUT Fixture.parseInt (Some Fixture.admin) "9" None Fixture.db0
     = (json (error "Internal server error") 500, Fixture.db0)
  /\ json (error "Internal server error") 500 <> Spec.TaskNotFound.
Proof.
  split; [vm_compute; reflexivity|].
  split; [vm_compute; reflexivity|].
  split; [vm_compute; reflexivity|].
  split; [vm_compute; reflexivity|].
  split; [vm_compute; reflexivity|].
  split; [vm_compute; reflexivity|].
  discriminate.
Qed.

(** Alice sets the result of her task and leaves name and plan out. *)
Lemma task_update_partial_witness :
  exists t' db',
    TaskIdRoute.PUT Fixture.parseInt (Some Fixture.alice) "1"
      (Some (TaskIdRoute.undefined, TaskIdRoute.undefined,
             TaskIdRoute.str "done"))
      Fixture.db0 = (json (task_of t') 200, db')
    /\ Task.taskName t' = Task.taskName Fixture.writeCopy
    /\ Task.plan t' = Task.plan Fixture.writeCopy
    /\ Task.result t' = "done"%string
    /\ Task.id t' = Task.id Fixture.writeCopy
    /\ Task.date t' = Task.date Fixture.writeCopy
    /\ Task.userId t' = Task.userId Fixture.writeCopy
    /\ Task.createdAt t' = Task.createdAt Fixture.writeCopy
    /\ Prisma.findUnique Task.id 1 (tasks db') = Some t'
    /\ (forall m, m <> 1 ->
        Prisma.findUnique Task.id m (tasks db')
        = Prisma.findUnique Task.id m (tasks Fixture.db0))
    /\ List.length (tasks db') = List.length (tasks Fixture.db0)
    /\ users db' = users Fixture.db0
    /\ reports db' = reports Fixture.db0.
Proof.
  apply (proj1 (task_update_partial Fixture.parseInt Fixture.alice "1" 1
                  TaskIdRoute.undefined TaskIdRoute.undefined
                  (TaskIdRoute.str "done") Fixture.db0 Fixture.writeCopy
                  eq_refl eq_refl eq_refl (or_intror eq_refl))).
  reflexivity.
Defined.

(** Alice lists tasks and names Bob in the [userId] parameter. *)
Lemma task_list_staff_witness :
  TasksRoute.GET Fixture.zone Fixture.newDate Fixture.parseInt
    (Some Fixture.alice) (Some "2024-06-01"%string) (Some "3"%string)
    Fixture.db0
  = TasksRoute.GET Fixture.zone Fixture.newDate Fixture.parseInt
      (Some Fixture.alice) (Some "2024-06-01"%string) None Fixture.db0
  /\ (forall l,
       body (fst (TasksRoute.GET Fixture.zone Fixture.newDate Fixture.parseInt
                    (Some Fixture.alice) (Some "2024-06-01"%string)
                    (Some "3"%string) Fixture.db0)) = tasks_of l ->
       Forall (fun row => Task.userId (fst row) = Auth.userId Fixture.alice) l)
  /\ snd (TasksRoute.GET Fixture.zone Fixture.newDate Fixture.parseInt
            (Some Fixture.alice) (Some "2024-06-01"%string) (Some "3"%string)
            Fixture.db0)
     = Fixture.db0.
Proof.
  apply (task_list_staff Fixture.zone Fixture.newDate Fixture.parseInt
           Fixture.alice).
  reflexivity.
Defined.


End TaskFacts.

(** ** Staff accounts *)

Module StaffFacts.
Section Handlers.

Variable parseInt : string -> option Z.
Variable bcrypt_hash : string -> string.

Local Abbreviation PUT := (StaffIdRoute.PUT parseInt bcrypt_hash).
Local Abbreviation DELETE := (StaffIdRoute.DELETE parseInt).

Lemma notStaff_role (u : User.t) :
  User.role u <> "staff"%string -> StaffIdRoute.notStaff (Some u) = true.
Proof.
  intro H. unfold StaffIdRoute.notStaff.
  destruct (String.eqb_spec (User.role u) "staff"); [contradiction|reflexivity].
Qed.

Lemma notAdmin_admin (s : Auth.SessionPayload) :
  Auth.role s = "admin"%string -> StaffIdRoute.notAdmin (Some s) = false.
Proof. intro H. unfold StaffIdRoute.notAdmin. rewrite H. reflexivity. Qed.

(** C10 (as amended): when the id of a staff-delete request, or of a
    staff-update request that supplies a username and a position, names a
    user whose role is not staff, an admin's call is answered NotFound;
    and no staff-update or staff-delete request on such an id, whatever
    its body, changes the store.  The id is that of a user of the table,
    an integer of the range of the id column. *)
Theorem staff_endpoints_spare_others (s : Auth.SessionPayload) (id : string)
  (n : Z) (u : User.t) (db : Db) :
  Auth.role s = "admin"%string ->
  parseInt id = Some n -> fitsInt n = true ->
  Prisma.findUnique User.id n (users db) = Some u ->
  User.role u <> "staff"%string ->
  DELETE (Some s) id db = (Spec.StaffNotFound, db)
  /\ (forall username password position,
       Js.truthy username = true -> Js.truthy position = true ->
       PUT (Some s) id username password position db = (Spec.StaffNotFound, db))
  /\ (forall username password position,
       snd (PUT (Some s) id username password position db) = db).
Proof.
  intros Hadmin Hid Hfit Hfind Hrole.
  assert (forall username password position,
            Js.truthy username = true -> Js.truthy position = true ->
            PUT (Some s) id username password position db
            = (Spec.StaffNotFound, db)) as Hput.
  { intros username password position Hu Hp. unfold StaffIdRoute.PUT.
    rewrite (notAdmin_admin s Hadmin), Hu, Hp, Hid. cbn [negb orb].
    rewrite (TaskFacts.number_Int n Hfit). cbn [bind].
    rewrite Hfind, (notStaff_role u Hrole). reflexivity. }
  split; [|split].
  - unfold StaffIdRoute.DELETE.
    rewrite (notAdmin_admin s Hadmin), Hid, (TaskFacts.number_Int n Hfit).
    cbn [bind].
    rewrite Hfind, (notStaff_role u Hrole). reflexivity.
  - exact Hput.
  - intros username password position.
    destruct (Js.truthy username) eqn:Hu; [destruct (Js.truthy position) eqn:Hp|].
    + rewrite (Hput _ password _ Hu Hp). reflexivity.
    + unfold StaffIdRoute.PUT.
      rewrite (notAdmin_admin s Hadmin), Hu, Hp. reflexivity.
    + unfold StaffIdRoute.PUT.
      rewrite (notAdmin_admin s Hadmin), Hu. reflexivity.
Qed.

End Handlers.

(** The admin asks to rename and to delete account 1, the admin account. *)
Lemma staff_endpoints_spare_others_witness :
  StaffIdRoute.DELETE Fixture.parseInt (Some Fixture.admin) "1" Fixture.db0
  = (Spec.StaffNotFound, Fixture.db0)
  /\ (forall username password position,
       Js.truthy username = true -> Js.truthy position = true ->
       StaffIdRoute.PUT Fixture.parseInt Fixture.bcrypt_hash
         (Some Fixture.admin) "1" username password position Fixture.db0
       = (Spec.StaffNotFound, Fixture.db0))
  /\ (forall username password position,
       snd (StaffIdRoute.PUT Fixture.parseInt Fixture.bcrypt_hash
              (Some Fixture.admin) "1" username password position Fixture.db0)
       = Fixture.db0).
Proof.
  apply (staff_endpoints_spare_others Fixture.parseInt Fixture.bcrypt_hash
           Fixture.admin "1" 1 (Fixture.user 1 "admin" "admin" None)).
  - reflexivity.
  - reflexivity.
  - reflexivity.
  - reflexivity.
  - vm_compute. discriminate.
Defined.

(** A staff-update request on the admin account that leaves the username
    out is answered 400, not NotFound. *)
Lemma staff_update_counterexample :
  Prisma.findUnique User.id 1 (users Fixture.db0)
  = Some (Fixture.user 1 "admin" "admin" None)
  /\ StaffIdRoute.PUT Fixture.parseInt Fixture.bcrypt_hash (Some Fixture.admin)
       "1" None None (Some "media_buyer"%string) Fixture.db0
     = (json (error "Username and position are required") 400, Fixture.db0)
  /\ json (error "Username and position are required") 400 <> Spec.StaffNotFound.
Proof.
  repeat split; try reflexivity. vm_compute. discriminate.
Qed.

End StaffFacts.

(** * Properties of the rest of the handlers *)

(** ** The session cookie *)

Module SessionFacts.

Lemma get_delete (name : string) (jar : Session.Jar) :
  Session.get name (Session.delete name jar) = None.
Proof.
  unfold Session.get, Session.delete.
  induction jar as [|[n c] jar IH]; [reflexivity|].
  cbn [filter fst]. destruct (String.eqb_spec n name) as [Heq | Hne]; cbn [negb].
  - exact IH.
  - cbn [find fst]. destruct (String.eqb_spec n name); [contradiction|exact IH].
Qed.

Lemma get_delete_other (name other : string) (jar : Session.Jar) :
  other <> name ->
  Session.get other (Session.delete name jar) = Session.get other jar.
Proof.
  intro Hne. unfold Session.get, Session.delete. f_equal.
  induction jar as [|[n c] jar IH]; [reflexivity|].
  cbn [filter find fst]. destruct (String.eqb_spec n name) as [Heq | Hn]; cbn [negb].
  - subst n. destruct (String.eqb_spec name other) as [Heq | _];
      [symmetry in Heq; contradiction|exact IH].
  - cbn [find fst]. rewrite IH. reflexivity.
Qed.

Lemma get_set (name : string) (c : Session.Cookie) (jar : Session.Jar) :
  Session.get name (Session.set name c jar) = Some c.
Proof.
  unfold Session.get, Session.set. cbn [find fst].
  rewrite String.eqb_refl. reflexivity.
Qed.

Lemma get_set_other (name other : string) (c : Session.Cookie)
  (jar : Session.Jar) :
  other <> name ->
  Session.get other (Session.set name c jar) = Session.get other jar.
Proof.
  intro Hne. unfold Session.set.
  transitivity (Session.get other (Session.delete name jar));
    [|apply get_delete_other; exact Hne].
  unfold Session.get. cbn [find fst].
  destruct (String.eqb_spec name other) as [Heq | _];
    [symmetry in Heq; contradiction|reflexivity].
Qed.

Lemma delete_delete (name : string) (jar : Session.Jar) :
  Session.delete name (Session.delete name jar) = Session.delete name jar.
Proof.
  unfold Session.delete. induction jar as [|[n c] jar IH]; [reflexivity|].
  cbn [filter fst]. destruct (negb (n =? name)%string) eqn:Hn; [|exact IH].
  cbn [filter fst]. rewrite Hn, IH. reflexivity.
Qed.

Section Codec.

Variable JWT_SECRET : option string.
Variable HS256 : string -> string -> Auth.JWTPayload -> Z.
Variable NODE_ENV : option string.

Local Abbreviation createSession :=
  (Session.createSession JWT_SECRET HS256 NODE_ENV).
Local Abbreviation getSession := (Session.getSession JWT_SECRET HS256).
Local Abbreviation decrypt := (Auth.decrypt JWT_SECRET HS256).
Local Abbreviation encrypt := (Auth.encrypt JWT_SECRET HS256).

(** What [decrypt] answers on an issued token. *)
Lemma decrypt_issued (issuedNow expiryNow now : Z) (s : Auth.SessionPayload) :
  decrypt now (Some (encrypt issuedNow expiryNow s))
  = if Auth.epoch now <? Auth.epoch expiryNow + 86400
    then Some {| Auth.session := s;
                 Auth.iat := Some (Auth.epoch issuedNow);
                 Auth.nbf := None;
                 Auth.exp := Some (Auth.epoch expiryNow + 86400) |}
    else None.
Proof.
  unfold Auth.decrypt.
  replace (Auth.falsy (encrypt issuedNow expiryNow s)) with false by reflexivity.
  rewrite AuthFacts.jwtVerify_encrypt. unfold Auth.secs_1d.
  rewrite Z.ltb_antisym.
  destruct (Auth.epoch expiryNow + 86400 <=? Auth.epoch now); reflexivity.
Qed.

(** X1: after [createSession], whatever the cookie store held before (no
    session, another user's session, a stale one), [getSession] answers the
    new session, with [expiresAt] 24 hours after the clock read, until the
    token expires, and null from then on; the other cookies are as before. *)
Theorem login_then_getSession (now issuedNow expiryNow at_ : Z)
  (userId : Z) (username role : string) (jar : Session.Jar) :
  getSession at_
    (createSession now issuedNow expiryNow userId username role jar)
  = (if Auth.epoch at_ <? Auth.epoch expiryNow + 86400
     then Some {| Auth.session :=
                    {| Auth.userId := userId; Auth.username := username;
                       Auth.role := role;
                       Auth.expiresAt := now + 86400000 |};
                  Auth.iat := Some (Auth.epoch issuedNow);
                  Auth.nbf := None;
                  Auth.exp := Some (Auth.epoch expiryNow + 86400) |}
     else None)
  /\ (forall other, other <> "session"%string ->
      Session.get other
        (createSession now issuedNow expiryNow userId username role jar)
      = Session.get other jar).
Proof.
  split.
  - unfold Session.getSession, Session.createSession.
    rewrite get_set. cbn [option_map Session.value].
    rewrite decrypt_issued. reflexivity.
  - intros other Hne. unfold Session.createSession.
    apply get_set_other. exact Hne.
Qed.

(** X2: after [deleteSession], [getSession] answers null at every instant,
    also right after a login; deleting twice is deleting once, and the
    other cookies are as before. *)
Theorem logout_then_getSession (jar : Session.Jar) :
  (forall at_, getSession at_ (Session.deleteSession jar) = None)
  /\ (forall now issuedNow expiryNow userId username role at_,
      getSession at_
        (Session.deleteSession
           (createSession now issuedNow expiryNow userId username role jar))
      = None)
  /\ Session.deleteSession (Session.deleteSession jar)
     = Session.deleteSession jar
  /\ (forall other, other <> "session"%string ->
      Session.get other (Session.deleteSession jar) = Session.get other jar).
Proof.
  unfold Session.getSession, Session.deleteSession.
  split; [|split; [|split]].
  - intro at_. rewrite get_delete. reflexivity.
  - intros. rewrite get_delete. reflexivity.
  - apply delete_delete.
  - intros other Hne. apply get_delete_other. exact Hne.
Qed.

(** X3: a cookie value that [decrypt] accepts is a token under HS256 whose
    signature is the MAC of its header and claims under the server key,
    whose expiry, if any, lies after the current second and whose
    not-before, if any, does not. *)
Theorem decrypt_accepts_authentic (now : Z) (tok : option Auth.Token)
  (p : Auth.JWTPayload) :
  decrypt now tok = Some p ->
  tok = Some (Auth.Compact "HS256" p (HS256 (Auth.key JWT_SECRET) "HS256" p))
  /\ (forall e, Auth.exp p = Some e -> Auth.epoch now < e)
  /\ (forall n, Auth.nbf p = Some n -> n <= Auth.epoch now).
Proof.
  destruct tok as [[s | alg q tag] | ]; unfold Auth.decrypt; cbn [Auth.falsy].
  - destruct (s =? "")%string; discriminate.
  - unfold Auth.jwtVerify. cbn [existsb]. rewrite orb_false_r.
    destruct (String.eqb_spec alg "HS256") as [-> | _]; [|discriminate].
    cbn [negb].
    destruct (Z.eqb_spec tag (HS256 (Auth.key JWT_SECRET) "HS256" q))
      as [Htag | _]; [|discriminate].
    cbn [negb].
    destruct (match Auth.nbf q with
              | Some n => n >? Auth.epoch now
              | None => false
              end) eqn:Hnbf; [discriminate|].
    destruct (match Auth.exp q with
              | Some e => e <=? Auth.epoch now
              | None => false
              end) eqn:Hexp; [discriminate|].
    intro H. injection H as <-. subst tag. split; [reflexivity|]. split.
    + intros e He. rewrite He in Hexp. apply Z.leb_gt in Hexp. exact Hexp.
    + intros n Hn. rewrite Hn in Hnbf.
      destruct (Z.gtb_spec n (Auth.epoch now)); [discriminate|lia].
  - discriminate.
Qed.

(** X4: a token issued at clock read [expiryNow] is accepted at every
    instant up to [expiryNow] + 86399 s and refused at every instant from
    [expiryNow] + 86400 s on; once refused it is refused at every later
    instant. *)
Theorem issued_token_lifetime (issuedNow expiryNow : Z)
  (s : Auth.SessionPayload) :
  (forall now, now <= expiryNow + 86399000 ->
   decrypt now (Some (encrypt issuedNow expiryNow s))
   = Some {| Auth.session := s;
             Auth.iat := Some (Auth.epoch issuedNow);
             Auth.nbf := None;
             Auth.exp := Some (Auth.epoch expiryNow + 86400) |})
  /\ (forall now, expiryNow + 86400000 <= now ->
      decrypt now (Some (encrypt issuedNow expiryNow s)) = None)
  /\ (forall now later, now <= later ->
      decrypt now (Some (encrypt issuedNow expiryNow s)) = None ->
      decrypt later (Some (encrypt issuedNow expiryNow s)) = None).
Proof.
  pose proof (Z.div_mod expiryNow 1000 ltac:(lia)) as Hdm.
  pose proof (Z.mod_pos_bound expiryNow 1000 ltac:(lia)) as Hb.
  split; [|split].
  - intros now Hnow. rewrite decrypt_issued.
    replace (Auth.epoch now <? Auth.epoch expiryNow + 86400) with true;
      [reflexivity|].
    symmetry. apply Z.ltb_lt. unfold Auth.epoch.
    apply Z.div_lt_upper_bound; lia.
  - intros now Hnow. rewrite decrypt_issued.
    replace (Auth.epoch now <? Auth.epoch expiryNow + 86400) with false;
      [reflexivity|].
    symmetry. apply Z.ltb_ge. unfold Auth.epoch.
    apply Z.div_le_lower_bound; lia.
  - intros now later Hle. rewrite !decrypt_issued.
    destruct (Z.ltb_spec (Auth.epoch now) (Auth.epoch expiryNow + 86400));
      [discriminate|].
    intros _.
    replace (Auth.epoch later <? Auth.epoch expiryNow + 86400) with false;
      [reflexivity|].
    symmetry. apply Z.ltb_ge. unfold Auth.epoch in *.
    pose proof (Z.div_le_mono now later 1000 ltac:(lia) Hle). lia.
Qed.

End Codec.

(** A token issued to Alice is accepted; it is what [encrypt] made. *)
Lemma decrypt_accepts_authentic_witness :
  Some (Auth.encrypt None Fixture.checksum 1500 1500 Fixture.alice)
  = Some (Auth.Compact "HS256"
            {| Auth.session := Fixture.alice; Auth.iat := Some 1;
               Auth.nbf := None; Auth.exp := Some 86401 |}
            (Fixture.checksum (Auth.key None) "HS256"
               {| Auth.session := Fixture.alice; Auth.iat := Some 1;
                  Auth.nbf := None; Auth.exp := Some 86401 |}))
  /\ (forall e, Some 86401 = Some e -> Auth.epoch 5000 < e)
  /\ (forall n, @None Z = Some n -> n <= Auth.epoch 5000).
Proof.
  apply (decrypt_accepts_authentic None Fixture.checksum 5000
           (Some (Auth.encrypt None Fixture.checksum 1500 1500 Fixture.alice))
           {| Auth.session := Fixture.alice; Auth.iat := Some 1;
              Auth.nbf := None; Auth.exp := Some 86401 |}).
  reflexivity.
Defined.

(** Alice's token, issued at 1.5 s. *)
Lemma issued_token_lifetime_witness :
  Auth.decrypt None Fixture.checksum 86400000
    (Some (Auth.encrypt None Fixture.checksum 1500 1500 Fixture.alice))
  = Some {| Auth.session := Fixture.alice; Auth.iat := Some 1;
            Auth.nbf := None; Auth.exp := Some 86401 |}
  /\ Auth.decrypt None Fixture.checksum 86401500
       (Some (Auth.encrypt None Fixture.checksum 1500 1500 Fixture.alice))
     = None.
Proof.
  split.
  - apply (proj1 (issued_token_lifetime None Fixture.checksum 1500 1500
                    Fixture.alice)).
    vm_compute. discriminate.
  - apply (proj1 (proj2 (issued_token_lifetime None Fixture.checksum 1500 1500
                           Fixture.alice))).
    vm_compute. discriminate.
Defined.

(** A store with a theme cookie: Alice logs in. *)
Lemma login_then_getSession_witness :
  Session.get "theme"
    (Session.createSession None Fixture.checksum None 1500 1500 1500 2
       "alice" "staff"
       [("theme"%string,
         {| Session.value := Auth.Text "dark"; Session.httpOnly := false;
            Session.secure := false; Session.expires := 0;
            Session.sameSite := "lax"; Session.path := "/" |})])
  = Session.get "theme"
      [("theme"%string,
        {| Session.value := Auth.Text "dark"; Session.httpOnly := false;
           Session.secure := false; Session.expires := 0;
           Session.sameSite := "lax"; Session.path := "/" |})].
Proof.
  apply (proj2 (login_then_getSession None Fixture.checksum None 1500 1500
                  1500 2000 2 "alice" "staff" _)).
  discriminate.
Defined.

(** The same store: Alice logs in and out. *)
Lemma logout_then_getSession_witness :
  Session.get "theme"
    (Session.deleteSession
       (Session.createSession None Fixture.checksum None 1500 1500 1500 2
          "alice" "staff"
          [("theme"%string,
            {| Session.value := Auth.Text "dark"; Session.httpOnly := false;
               Session.secure := false; Session.expires := 0;
               Session.sameSite := "lax"; Session.path := "/" |})]))
  = Session.get "theme"
      (Session.createSession None Fixture.checksum None 1500 1500 1500 2
         "alice" "staff"
         [("theme"%string,
           {| Session.value := Auth.Text "dark"; Session.httpOnly := false;
              Session.secure := false; Session.expires := 0;
              Session.sameSite := "lax"; Session.path := "/" |})]).
Proof.
  apply (proj2 (proj2 (proj2
           (logout_then_getSession None Fixture.checksum None _)))).
  discriminate.
Defined.

End SessionFacts.

(** ** The dashboard page *)

Module PageFacts.
Section Page.

Variable JWT_SECRET : option string.
Variable HS256 : string -> string -> Auth.JWTPayload -> Z.
Variable NODE_ENV : option string.

Local Abbreviation createSession :=
  (Session.createSession JWT_SECRET HS256 NODE_ENV).
Local Abbreviation DashboardPage :=
  (DashboardPage.DashboardPage JWT_SECRET HS256).

(** X26: the dashboard page.  Without a session cookie, after a logout, or
    from the second on at which the token of the login expires (the whole
    second of the login's clock read plus 86400), the page redirects to
    /login.  Before that second it shows the username and the role that
    the login put into the cookie, whatever the user table holds by then,
    the number 1 for an admin and 2 otherwise, and the position of the row
    that now carries the session's user id: none when the row is gone or
    its position is empty. *)
Theorem dashboard_page (now issuedNow expiryNow at_ : Z) (userId : Z)
  (username role : string) (jar : Session.Jar) (db : Db) :
  (Session.get "session" jar = None ->
   DashboardPage at_ jar db = DashboardPage.redirect "/login")
  /\ DashboardPage at_
       (Session.deleteSession
          (createSession now issuedNow expiryNow userId username role jar)) db
     = DashboardPage.redirect "/login"
  /\ DashboardPage at_
       (createSession now issuedNow expiryNow userId username role jar) db
     = (if at_ / 1000 <? expiryNow / 1000 + 86400
        then
          DashboardPage.DashboardClient username role
            (match Prisma.findUnique User.id userId (users db) with
             | Some {| User.position := Some (String c rest) |} =>
                 Some (String c rest)
             | _ => None
             end)
            (if (role =? "admin")%string then 1 else 2)
        else DashboardPage.redirect "/login").
Proof.
  unfold DashboardPage.DashboardPage, Session.getSession.
  split; [|split].
  - intros ->. reflexivity.
  - unfold Session.deleteSession. rewrite SessionFacts.get_delete. reflexivity.
  - unfold Session.createSession.
    rewrite SessionFacts.get_set. cbn [option_map Session.value].
    rewrite SessionFacts.decrypt_issued. unfold Auth.epoch.
    destruct (at_ / 1000 <? expiryNow / 1000 + 86400); [|reflexivity].
    cbn [Auth.session Auth.userId Auth.username Auth.role].
    f_equal.
    destruct (Prisma.findUnique User.id userId (users db))
      as [[i n pw r [[|c rest] | ] ca] | ]; reflexivity.
Qed.

End Page.

(** Alice logs in at 1.5 s; the page a minute later, and at 86401 s, the
    second at which her token expires. *)
Lemma dashboard_page_witness :
  DashboardPage.DashboardPage None Fixture.checksum 61500
    (Session.createSession None Fixture.checksum None 1500 1500 1500 2
       "alice" "staff" [])
    Fixture.db0
  = DashboardPage.DashboardClient "alice" "staff" (Some "media_buyer"%string) 2
  /\ DashboardPage.DashboardPage None Fixture.checksum 86401000
       (Session.createSession None Fixture.checksum None 1500 1500 1500 2
          "alice" "staff" [])
       Fixture.db0
     = DashboardPage.redirect "/login"
  /\ DashboardPage.DashboardPage None Fixture.checksum 61500 [] Fixture.db0
     = DashboardPage.redirect "/login".
Proof.
  destruct (dashboard_page None Fixture.checksum None 1500 1500 1500 61500 2
              "alice" "staff" [] Fixture.db0) as (Hnone & _ & Hin).
  destruct (dashboard_page None Fixture.checksum None 1500 1500 1500 86401000
              2 "alice" "staff" [] Fixture.db0) as (_ & _ & Hout).
  split; [exact Hin|]. split; [exact Hout|]. apply Hnone. reflexivity.
Defined.

End PageFacts.

(** ** Ordered query results *)

Module OrderFacts.

Lemma StronglySorted_weaken {A} (P Q : A -> A -> Prop) (l : list A) :
  (forall a b, P a b -> Q a b) -> StronglySorted P l -> StronglySorted Q l.
Proof.
  intros H Hs. induction Hs as [|a l Hs IH Hall]; constructor.
  - exact IH.
  - eapply Forall_impl; [|exact Hall]. intros b Hb. apply H. exact Hb.
Qed.

Section Rows.
Context {Row : Type}.
Variable first : Row -> Row -> bool.

(** [R a b]: the row [a] may stand before the row [b]. *)
Let R (a b : Row) : Prop := first b a = false.

Hypothesis first_asym : forall a b, first a b = true -> first b a = false.
Hypothesis R_trans : forall a b c, R a b -> R b c -> R a c.

Lemma insert_perm (r : Row) (l : list Row) :
  Permutation (OrderBy.insert first r l) (r :: l).
Proof.
  induction l as [|r' l IH]; cbn [OrderBy.insert]; [reflexivity|].
  destruct (first r' r); [|reflexivity].
  rewrite IH. apply perm_swap.
Qed.

Lemma sort_perm (l : list Row) : Permutation (OrderBy.sort first l) l.
Proof.
  unfold OrderBy.sort. induction l as [|r l IH]; cbn [fold_right]; [reflexivity|].
  rewrite insert_perm. constructor. exact IH.
Qed.

Lemma insert_sorted (r : Row) (l : list Row) :
  StronglySorted R l -> StronglySorted R (OrderBy.insert first r l).
Proof.
  induction l as [|r' l IH]; intro Hs; cbn [OrderBy.insert].
  - constructor; constructor.
  - inversion Hs as [|x xs Hs' Hall]; subst.
    destruct (first r' r) eqn:Hf.
    + constructor; [apply IH; exact Hs'|].
      apply (Permutation_Forall (Permutation_sym (insert_perm r l))).
      constructor; [|exact Hall]. apply first_asym. exact Hf.
    + constructor; [exact Hs|].
      constructor; [exact Hf|].
      eapply Forall_impl; [|exact Hall].
      intros x Hx. exact (R_trans r r' x Hf Hx).
Qed.

Lemma sort_sorted (l : list Row) : StronglySorted R (OrderBy.sort first l).
Proof.
  unfold OrderBy.sort. induction l as [|r l IH]; cbn [fold_right].
  - constructor.
  - apply insert_sorted. exact IH.
Qed.

End Rows.

(** [desc]: a permutation, largest key first. *)
Lemma desc_perm {Row} (col : Row -> Z) (l : list Row) :
  Permutation (OrderBy.desc col l) l.
Proof. apply sort_perm. Qed.

Lemma desc_sorted {Row} (col : Row -> Z) (l : list Row) :
  StronglySorted (fun a b => col b <= col a) (OrderBy.desc col l).
Proof.
  unfold OrderBy.desc.
  eapply StronglySorted_weaken;
    [|apply (sort_sorted (fun r' r => col r <? col r'))].
  - intros a b H. cbn beta in H. apply Z.ltb_ge in H. exact H.
  - intros a b H. apply Z.ltb_lt in H. apply Z.ltb_ge. lia.
  - intros a b c H1 H2. apply Z.ltb_ge in H1. apply Z.ltb_ge in H2.
    apply Z.ltb_ge. lia.
Qed.

Lemma below_asym (a b : option Z) :
  OrderBy.below a b = true -> OrderBy.below b a = false.
Proof.
  destruct a as [x | ], b as [y | ]; cbn; try discriminate; try reflexivity.
  intro H. apply Z.ltb_lt in H. apply Z.ltb_ge. lia.
Qed.

Lemma below_trans (a b c : option Z) :
  OrderBy.below a b = false -> OrderBy.below b c = false ->
  OrderBy.below a c = false.
Proof.
  destruct a as [x | ], b as [y | ], c as [z | ]; cbn;
    try discriminate; try reflexivity.
  intros H1 H2. apply Z.ltb_ge in H1. apply Z.ltb_ge in H2.
  apply Z.ltb_ge. lia.
Qed.

Lemma descNullable_perm {Row} (col : Row -> option Z) (l : list Row) :
  Permutation (OrderBy.descNullable col l) l.
Proof. apply sort_perm. Qed.

(** [descNullable]: no row stands before a row with a larger key, and NULL
    keys come last. *)
Lemma descNullable_sorted {Row} (col : Row -> option Z) (l : list Row) :
  StronglySorted (fun a b => OrderBy.below (col a) (col b) = false)
    (OrderBy.descNullable col l).
Proof.
  unfold OrderBy.descNullable.
  apply (sort_sorted (fun r' r => OrderBy.below (col r) (col r'))).
  - intros a b H. apply below_asym. exact H.
  - intros a b c H1 H2. cbn beta in *. exact (below_trans _ _ _ H1 H2).
Qed.

(** [orderBy: { col: "asc" }] of the task list. *)
Lemma insertAsc_perm {Row} (col : Row -> Z) (r : Row) (l : list Row) :
  Permutation (Prisma.insertAsc col r l) (r :: l).
Proof.
  induction l as [|r' l IH]; cbn [Prisma.insertAsc]; [reflexivity|].
  destruct (col r <=? col r'); [reflexivity|].
  rewrite IH. apply perm_swap.
Qed.

Lemma orderByAsc_perm {Row} (col : Row -> Z) (l : list Row) :
  Permutation (Prisma.orderByAsc col l) l.
Proof.
  unfold Prisma.orderByAsc. induction l as [|r l IH]; cbn [fold_right];
    [reflexivity|].
  rewrite insertAsc_perm. constructor. exact IH.
Qed.

Lemma insertAsc_sorted {Row} (col : Row -> Z) (r : Row) (l : list Row) :
  StronglySorted (fun a b => col a <= col b) l ->
  StronglySorted (fun a b => col a <= col b) (Prisma.insertAsc col r l).
Proof.
  induction l as [|r' l IH]; intro Hs; cbn [Prisma.insertAsc].
  - constructor; constructor.
  - inversion Hs as [|x xs Hs' Hall]; subst.
    destruct (Z.leb_spec (col r) (col r')) as [Hle | Hgt].
    + constructor; [exact Hs|].
      constructor; [exact Hle|].
      eapply Forall_impl; [|exact Hall]. intros x Hx. cbn beta in *. lia.
    + constructor; [apply IH; exact Hs'|].
      apply (Permutation_Forall (Permutation_sym (insertAsc_perm col r l))).
      constructor; [lia|exact Hall].
Qed.

Lemma orderByAsc_sorted {Row} (col : Row -> Z) (l : list Row) :
  StronglySorted (fun a b => col a <= col b) (Prisma.orderByAsc col l).
Proof.
  unfold Prisma.orderByAsc. induction l as [|r l IH]; cbn [fold_right].
  - constructor.
  - apply insertAsc_sorted. exact IH.
Qed.

End OrderFacts.

(** ** The report list *)

Module ReportListFacts.
Section Handlers.

Variable zone : Zone.t.
Hypothesis regular : Spec.Regular zone.
Variable newDate : string -> JsDate.Date.

Local Abbreviation GET := (ReportsList.GET zone newDate).
Local Abbreviation POST := (ReportsRoute.POST zone newDate).
Local Abbreviation DELETE := (ReportsRoute.DELETE zone newDate).
Local Abbreviation dayOf := (Spec.dayOf zone).

(** The date filter of GET selects one local day. *)
Lemma dateFilter_day (date : option string) (t : Z) :
  Js.truthy date = true -> newDate (text date) = Some t ->
  exists byDate,
    ReportsList.dateFilter zone newDate date = Some byDate
    /\ forall d, byDate d = (dayOf d =? dayOf t).
Proof.
  intros Hdate Ht. unfold ReportsList.dateFilter. rewrite Hdate.
  unfold ReportsRoute.getDateRange, JsDate.setHours. rewrite Ht.
  cbn [option_map fst snd Prisma.gte_lte ret].
  eexists; split; [reflexivity|].
  intro d. exact (DateFacts.range_is_day zone regular t d).
Qed.

Lemma dateFilter_invalid (date : option string) :
  Js.truthy date = true -> newDate (text date) = None ->
  ReportsList.dateFilter zone newDate date = None.
Proof.
  intros Hdate Ht. unfold ReportsList.dateFilter. rewrite Hdate.
  unfold ReportsRoute.getDateRange, JsDate.setHours. rewrite Ht. reflexivity.
Qed.

Lemma not_admin (s : Auth.SessionPayload) :
  Auth.role s <> "admin"%string -> (Auth.role s =? "admin")%string = false.
Proof.
  intro H. destruct (String.eqb_spec (Auth.role s) "admin");
    [contradiction|reflexivity].
Qed.

(** A session that is not an admin's is answered a list when the date
    parses. *)
Lemma GET_own_answered (s : Auth.SessionPayload) (date : option string)
  (t : Z) (db : Db) :
  Auth.role s <> "admin"%string ->
  Js.truthy date = true -> newDate (text date) = Some t ->
  exists l, GET (Some s) date db = ok (ReportsList.for_staff l) 200.
Proof.
  intros Hrole Hdate Ht. unfold ReportsList.GET, ReportsList.dateFilter.
  rewrite (not_admin s Hrole), Hdate.
  unfold ReportsRoute.getDateRange, JsDate.setHours. rewrite Ht.
  cbn [option_map fst snd Prisma.gte_lte bind ret try_read].
  eexists. reflexivity.
Qed.

(** The list of a session that is not an admin's, for one day. *)
Lemma GET_own_day (s : Auth.SessionPayload) (date : option string) (t : Z)
  (db : Db) :
  Auth.role s <> "admin"%string ->
  Js.truthy date = true -> newDate (text date) = Some t ->
  exists l,
    GET (Some s) date db = ok (ReportsList.for_staff l) 200
    /\ Permutation l (Spec.reportsOf zone (Auth.userId s) (dayOf t) db)
    /\ StronglySorted (fun a b => DailyReport.date b <= DailyReport.date a) l.
Proof.
  intros Hrole Hdate Ht. unfold ReportsList.GET. rewrite (not_admin s Hrole).
  destruct (dateFilter_day date t Hdate Ht) as (byDate & -> & Hby).
  cbn [bind ret try_read].
  eexists; split; [reflexivity|]. split.
  - rewrite OrderFacts.desc_perm. unfold Spec.reportsOf, Spec.onDay.
    rewrite (filter_ext _ (fun r => (DailyReport.userId r =? Auth.userId s)
                                    && (dayOf (DailyReport.date r) =? dayOf t)));
      [reflexivity|].
    intro r. rewrite Hby. reflexivity.
  - apply OrderFacts.desc_sorted.
Qed.

(** X5: to a session whose role is not admin, GET answers reports of the
    session's user only: all of them when there is no [date] parameter,
    those of the parameter's local day when it parses, each once and the
    latest date first; a [date] parameter that does not parse gives 500. *)
Theorem report_list_own (s : Auth.SessionPayload) (date : option string)
  (db : Db) :
  Auth.role s <> "admin"%string ->
  (Js.truthy date = false ->
   exists l,
     GET (Some s) date db = ok (ReportsList.for_staff l) 200
     /\ Permutation l
          (filter (fun r => DailyReport.userId r =? Auth.userId s) (reports db))
     /\ StronglySorted (fun a b => DailyReport.date b <= DailyReport.date a) l)
  /\ (forall t,
      Js.truthy date = true -> newDate (text date) = Some t ->
      exists l,
        GET (Some s) date db = ok (ReportsList.for_staff l) 200
        /\ Permutation l (Spec.reportsOf zone (Auth.userId s) (dayOf t) db)
        /\ StronglySorted
             (fun a b => DailyReport.date b <= DailyReport.date a) l)
  /\ (Js.truthy date = true -> newDate (text date) = None ->
      GET (Some s) date db = fail "Failed to fetch reports" 500).
Proof.
  intro Hrole. split; [|split].
  - intro Hdate. unfold ReportsList.GET, ReportsList.dateFilter.
    rewrite (not_admin s Hrole), Hdate. cbn [bind ret try_read].
    eexists; split; [reflexivity|]. split.
    + rewrite OrderFacts.desc_perm.
      rewrite (filter_ext _ (fun r => DailyReport.userId r =? Auth.userId s));
        [reflexivity|].
      intro r. apply andb_true_r.
    + apply OrderFacts.desc_sorted.
  - intros t Hdate Ht. exact (GET_own_day s date t db Hrole Hdate Ht).
  - intros Hdate Ht. unfold ReportsList.GET.
    rewrite (not_admin s Hrole), (dateFilter_invalid date Hdate Ht).
    reflexivity.
Qed.

(** X6: after a submit call that is accepted, the list of the same session
    for the same date is the one report that the submit call answered. *)
Theorem submit_then_listed (s : Auth.SessionPayload) (date : option string)
  (t now submitNow : Z) (db : Db) :
  Spec.ReportsOk zone db ->
  Auth.role s <> "admin"%string ->
  Js.truthy date = true -> newDate (text date) = Some t ->
  now <= Spec.deadline zone t ->
  Spec.tasksOf zone (Auth.userId s) (dayOf t) db <> [] ->
  exists r db',
    POST (Some s) date now submitNow db = (json (report_of r) 201, db')
    /\ GET (Some s) date db' = ok (ReportsList.for_staff [r]) 200.
Proof.
  intros Hok Hrole Hdate Ht Hnow Htasks.
  destruct (ReportFacts.POST_accepted zone regular newDate s date t now submitNow db
              Hok Hdate Ht Hnow Htasks)
    as (r & db' & Hrun & Hrow & _).
  exists r, db'. split; [exact Hrun|].
  destruct (GET_own_day s date t db' Hrole Hdate Ht) as (l & Hget & Hperm & _).
  rewrite Hrow in Hperm. apply Permutation_sym, Permutation_length_1_inv in Hperm.
  rewrite Hget, Hperm. reflexivity.
Qed.

(** X7: after a withdraw call that found the report, the list of the same
    session for the same date is empty. *)
Theorem withdraw_then_listed (s : Auth.SessionPayload) (date : option string)
  (t : Z) (db : Db) (r : DailyReport.t) :
  Spec.ReportsOk zone db ->
  Auth.role s <> "admin"%string ->
  Js.truthy date = true -> newDate (text date) = Some t ->
  Spec.reportsOf zone (Auth.userId s) (dayOf t) db = [r] ->
  GET (Some s) date db = ok (ReportsList.for_staff [r]) 200
  /\ GET (Some s) date (snd (DELETE (Some s) date db))
     = ok (ReportsList.for_staff []) 200.
Proof.
  intros Hok Hrole Hdate Ht Hrow. split.
  - destruct (GET_own_day s date t db Hrole Hdate Ht) as (l & Hget & Hperm & _).
    rewrite Hrow in Hperm. apply Permutation_sym, Permutation_length_1_inv in Hperm.
    rewrite Hget, Hperm. reflexivity.
  - destruct (ReportFacts.DELETE_present zone regular newDate s date t db r
                Hok Hdate Ht Hrow)
      as (before & after & db' & Hrun & _ & _ & _ & _ & Hgone & _).
    rewrite Hrun. cbn [snd].
    destruct (GET_own_day s date t db' Hrole Hdate Ht) as (l & Hget & Hperm & _).
    rewrite Hgone in Hperm. apply Permutation_sym, Permutation_nil in Hperm.
    rewrite Hget, Hperm. reflexivity.
Qed.

Lemma mapM_includeUser (users : list User.t) (l : list DailyReport.t)
  (l' : list (DailyReport.t * UserRef)) :
  mapM (ReportsList.includeUser users) l = Some l' ->
  map fst l' = l
  /\ Forall (fun p =>
               exists u,
                 Prisma.findUnique User.id (DailyReport.userId (fst p)) users
                 = Some u
                 /\ snd p = {| ref_id := User.id u;
                               ref_username := User.username u;
                               ref_position := User.position u |}) l'.
Proof.
  revert l'. induction l as [|r l IH]; intros l' H; cbn [mapM] in H.
  - injection H as <-. split; constructor.
  - unfold ReportsList.includeUser at 1 in H.
    destruct (Prisma.findUnique User.id (DailyReport.userId r) users)
      as [u | ] eqn:Hu; [|discriminate].
    cbn [bind ret] in H.
    destruct (mapM (ReportsList.includeUser users) l) as [rest | ];
      [|discriminate].
    cbn [bind ret] in H. injection H as <-.
    destruct (IH rest eq_refl) as [Hfst Hall]. split.
    + cbn [map fst]. rewrite Hfst. reflexivity.
    + constructor; [|exact Hall]. exists u. split; [exact Hu|reflexivity].
Qed.

(** The tasks fetched for a report are those its user has on its day. *)
Lemma withTasks_day (db : Db) (p : DailyReport.t * UserRef) :
  ReportsList.withTasks zone db p
  = Some {| ReportsList.entry_report := fst p;
            ReportsList.entry_user := snd p;
            ReportsList.entry_tasks :=
              Spec.tasksOf zone (DailyReport.userId (fst p))
                (dayOf (DailyReport.date (fst p))) db |}.
Proof.
  unfold ReportsList.withTasks, JsDate.setHours.
  cbn [option_map Prisma.gte_lte bind ret].
  unfold Spec.tasksOf, Spec.onDay.
  rewrite (filter_ext _
             (fun x => (Task.userId x =? DailyReport.userId (fst p))
                       && (dayOf (Task.date x)
                           =? dayOf (DailyReport.date (fst p)))));
    [reflexivity|].
  intro x. f_equal.
  exact (DateFacts.range_is_day zone regular (DailyReport.date (fst p))
           (Task.date x)).
Qed.

Lemma mapM_withTasks (db : Db) (l : list (DailyReport.t * UserRef)) :
  mapM (ReportsList.withTasks zone db) l
  = Some (map (fun p =>
                 {| ReportsList.entry_report := fst p;
                    ReportsList.entry_user := snd p;
                    ReportsList.entry_tasks :=
                      Spec.tasksOf zone (DailyReport.userId (fst p))
                        (dayOf (DailyReport.date (fst p))) db |}) l).
Proof.
  induction l as [|p l IH]; [reflexivity|].
  cbn [mapM map]. rewrite withTasks_day, IH. reflexivity.
Qed.

(** The admin's list, given the filter on the date. *)
Lemma GET_admin_entries (s : Auth.SessionPayload) (date : option string)
  (db : Db) (byDate : Z -> bool) (entries : list ReportsList.Entry) :
  Auth.role s = "admin"%string ->
  ReportsList.dateFilter zone newDate date = Some byDate ->
  GET (Some s) date db = ok (ReportsList.for_admin entries) 200 ->
  Permutation (map ReportsList.entry_report entries)
    (filter (fun r => byDate (DailyReport.date r)) (reports db))
  /\ StronglySorted
       (fun a b =>
          OrderBy.below (DailyReport.submittedAt a) (DailyReport.submittedAt b)
          = false)
       (map ReportsList.entry_report entries)
  /\ Forall (fun e =>
               ReportsList.entry_tasks e
               = Spec.tasksOf zone
                   (DailyReport.userId (ReportsList.entry_report e))
                   (dayOf (DailyReport.date (ReportsList.entry_report e))) db
               /\ exists u,
                    Prisma.findUnique User.id
                      (DailyReport.userId (ReportsList.entry_report e))
                      (users db) = Some u
                    /\ ReportsList.entry_user e
                       = {| ref_id := User.id u;
                            ref_username := User.username u;
                            ref_position := User.position u |}) entries.
Proof.
  intros Hrole Hfilter. unfold ReportsList.GET. rewrite Hrole, Hfilter.
  cbn [String.eqb Ascii.eqb Bool.eqb bind].
  destruct (mapM (ReportsList.includeUser (users db)) _) as [l' | ] eqn:Hinc;
    cbn [bind]; [|discriminate].
  rewrite mapM_withTasks. cbn [bind ret try_read].
  intro H. injection H as <-.
  apply mapM_includeUser in Hinc. destruct Hinc as [Hfst Hall].
  rewrite map_map. cbn [ReportsList.entry_report].
  change (map (fun x => fst x) l') with (map fst l'). rewrite Hfst.
  split; [apply OrderFacts.descNullable_perm|].
  split; [apply OrderFacts.descNullable_sorted|].
  apply Forall_map. eapply Forall_impl; [|exact Hall].
  intros p Hp. cbn [ReportsList.entry_report ReportsList.entry_tasks
                    ReportsList.entry_user].
  split; [reflexivity|exact Hp].
Qed.

(** X8: when GET answers an admin's session a list, the list holds each
    report of the store once (each report of the parameter's local day when
    there is a [date] parameter), no report stands before one submitted
    later and reports never submitted come last, and each report carries
    the selected fields of its user and exactly the tasks that this user
    has on the report's local day. *)
Theorem report_list_admin (s : Auth.SessionPayload) (date : option string)
  (db : Db) (entries : list ReportsList.Entry) :
  Auth.role s = "admin"%string ->
  GET (Some s) date db = ok (ReportsList.for_admin entries) 200 ->
  (Js.truthy date = false ->
   Permutation (map ReportsList.entry_report entries) (reports db))
  /\ (forall t,
      Js.truthy date = true -> newDate (text date) = Some t ->
      Permutation (map ReportsList.entry_report entries)
        (filter (fun r => dayOf (DailyReport.date r) =? dayOf t) (reports db)))
  /\ StronglySorted
       (fun a b =>
          OrderBy.below (DailyReport.submittedAt a) (DailyReport.submittedAt b)
          = false)
       (map ReportsList.entry_report entries)
  /\ Forall (fun e =>
               ReportsList.entry_tasks e
               = Spec.tasksOf zone
                   (DailyReport.userId (ReportsList.entry_report e))
                   (dayOf (DailyReport.date (ReportsList.entry_report e))) db
               /\ exists u,
                    Prisma.findUnique User.id
                      (DailyReport.userId (ReportsList.entry_report e))
                      (users db) = Some u
                    /\ ReportsList.entry_user e
                       = {| ref_id := User.id u;
                            ref_username := User.username u;
                            ref_position := User.position u |}) entries.
Proof.
  intros Hrole Hget.
  assert (exists byDate, ReportsList.dateFilter zone newDate date = Some byDate)
    as (byDate & Hfilter).
  { unfold ReportsList.GET in Hget. rewrite Hrole in Hget.
    cbn [String.eqb Ascii.eqb Bool.eqb] in Hget.
    destruct (ReportsList.dateFilter zone newDate date) as [f | ];
      [exists f; reflexivity|discriminate]. }
  destruct (GET_admin_entries s date db byDate entries Hrole Hfilter Hget)
    as (Hperm & Hsorted & Hall).
  split; [|split; [|split; assumption]].
  - intro Hdate. unfold ReportsList.dateFilter in Hfilter.
    rewrite Hdate in Hfilter. injection Hfilter as <-.
    rewrite Hperm. clear. induction (reports db) as [|r l IH]; [reflexivity|].
    cbn [filter]. constructor. exact IH.
  - intros t Hdate Ht.
    destruct (dateFilter_day date t Hdate Ht) as (f & Hf & Hby).
    rewrite Hf in Hfilter. injection Hfilter as <-.
    rewrite Hperm.
    rewrite (filter_ext _ (fun r => dayOf (DailyReport.date r) =? dayOf t));
      [reflexivity|].
    intro r. apply Hby.
Qed.

End Handlers.

(** Alice lists her reports of 2024-06-01 after she and Bob submitted. *)
Lemma report_list_own_witness :
  exists l,
    ReportsList.GET Fixture.zone Fixture.newDate (Some Fixture.alice)
      (Some "2024-06-01"%string) Sample.db2
    = ok (ReportsList.for_staff l) 200
    /\ Permutation l
         (Spec.reportsOf Fixture.zone (Auth.userId Fixture.alice)
            (Spec.dayOf Fixture.zone Fixture.june1) Sample.db2)
    /\ StronglySorted (fun a b => DailyReport.date b <= DailyReport.date a) l.
Proof.
  apply (proj1 (proj2 (report_list_own Fixture.zone DateFacts.Regular_zone Fixture.newDate Fixture.alice
                         (Some "2024-06-01"%string) Sample.db2
                         ltac:(vm_compute; discriminate)))
           Fixture.june1).
  - reflexivity.
  - reflexivity.
Defined.

(** Alice submits her report of 2024-06-01 and lists it. *)
Lemma submit_then_listed_witness :
  exists r db',
    ReportsRoute.POST Fixture.zone Fixture.newDate (Some Fixture.alice)
      (Some "2024-06-01"%string) (Fixture.june1 + 1000) (Fixture.june1 + 1001)
      Fixture.db0 = (json (report_of r) 201, db')
    /\ ReportsList.GET Fixture.zone Fixture.newDate (Some Fixture.alice)
         (Some "2024-06-01"%string) db'
       = ok (ReportsList.for_staff [r]) 200.
Proof.
  apply (submit_then_listed Fixture.zone DateFacts.Regular_zone Fixture.newDate Fixture.alice
           (Some "2024-06-01"%string) Fixture.june1).
  - apply ReportFacts.ReportsOk_start. reflexivity.
  - vm_compute. discriminate.
  - reflexivity.
  - reflexivity.
  - vm_compute. discriminate.
  - vm_compute. discriminate.
Defined.

(** Alice withdraws her report of 2024-06-01 and lists that day. *)
Lemma withdraw_then_listed_witness :
  ReportsList.GET Fixture.zone Fixture.newDate (Some Fixture.alice)
    (Some "2024-06-01"%string) Sample.db2
  = ok (ReportsList.for_staff [Sample.aliceReport]) 200
  /\ ReportsList.GET Fixture.zone Fixture.newDate (Some Fixture.alice)
       (Some "2024-06-01"%string)
       (snd (ReportsRoute.DELETE Fixture.zone Fixture.newDate (Some Fixture.alice)
               (Some "2024-06-01"%string) Sample.db2))
     = ok (ReportsList.for_staff []) 200.
Proof.
  apply (withdraw_then_listed Fixture.zone DateFacts.Regular_zone Fixture.newDate Fixture.alice
           (Some "2024-06-01"%string) Fixture.june1 Sample.db2
           Sample.aliceReport).
  - unfold Sample.db2, Sample.db1.
    apply (ReportFacts.POST_ReportsOk _ DateFacts.Regular_zone).
    apply (ReportFacts.POST_ReportsOk _ DateFacts.Regular_zone).
    apply ReportFacts.ReportsOk_start. reflexivity.
  - vm_compute. discriminate.
  - reflexivity.
  - reflexivity.
  - reflexivity.
Defined.

(** The admin lists all reports after Alice and Bob submitted. *)
Lemma report_list_admin_witness :
  (Js.truthy None = false ->
   Permutation (map ReportsList.entry_report Sample.entries)
     (reports Sample.db2))
  /\ (forall t,
      Js.truthy None = true -> Fixture.newDate (text None) = Some t ->
      Permutation (map ReportsList.entry_report Sample.entries)
        (filter (fun r => Spec.dayOf Fixture.zone (DailyReport.date r)
                          =? Spec.dayOf Fixture.zone t) (reports Sample.db2)))
  /\ StronglySorted
       (fun a b =>
          OrderBy.below (DailyReport.submittedAt a) (DailyReport.submittedAt b)
          = false)
       (map ReportsList.entry_report Sample.entries)
  /\ Forall (fun e =>
               ReportsList.entry_tasks e
               = Spec.tasksOf Fixture.zone
                   (DailyReport.userId (ReportsList.entry_report e))
                   (Spec.dayOf Fixture.zone
                      (DailyReport.date (ReportsList.entry_report e)))
                   Sample.db2
               /\ exists u,
                    Prisma.findUnique User.id
                      (DailyReport.userId (ReportsList.entry_report e))
                      (users Sample.db2) = Some u
                    /\ ReportsList.entry_user e
                       = {| ref_id := User.id u;
                            ref_username := User.username u;
                            ref_position := User.position u |}) Sample.entries.
Proof.
  apply (report_list_admin Fixture.zone DateFacts.Regular_zone Fixture.newDate Fixture.admin None
           Sample.db2 Sample.entries).
  - reflexivity.
  - reflexivity.
Defined.

End ReportListFacts.

(** ** What each request may write *)

Module FrameFacts.

(** Case analysis on the innermost tests of a handler body. *)
Ltac break :=
  repeat match goal with
         | |- context [match ?x with _ => _ end] =>
             lazymatch x with
             | context [match _ with _ => _ end] => fail
             | _ => destruct x
             end
         end.

Section Handlers.

Variable zone : Zone.t.
Hypothesis regular : Spec.Regular zone.
Variable newDate : string -> JsDate.Date.
Variable parseInt : string -> option Z.
Variable bcrypt_hash : string -> string.

(** The task handlers write to the task table only. *)
Lemma task_PUT_frame (session : option Auth.SessionPayload) (id : string)
  (body : M (TaskIdRoute.Field * TaskIdRoute.Field * TaskIdRoute.Field))
  (db : Db) :
  let db' := snd (TaskIdRoute.PUT parseInt session id body db) in
  reports db' = reports db /\ reportSeq db' = reportSeq db
  /\ users db' = users db.
Proof.
  unfold TaskIdRoute.PUT, try_catch, bind, ret, number, throw, Prisma.update.
  break; cbn; repeat split; reflexivity.
Qed.

Lemma task_DELETE_frame (session : option Auth.SessionPayload) (id : string)
  (db : Db) :
  let db' := snd (TaskIdRoute.DELETE parseInt session id db) in
  reports db' = reports db /\ reportSeq db' = reportSeq db
  /\ users db' = users db.
Proof.
  unfold TaskIdRoute.DELETE, try_catch, bind, ret, number, throw,
    Prisma.delete.
  break; cbn; repeat split; reflexivity.
Qed.

Lemma task_POST_frame (session : option Auth.SessionPayload)
  (date taskName plan result : option string) (now id createdNow : Z)
  (db : Db) :
  let db' := snd (TaskCreate.POST newDate session date taskName plan result
                    now id createdNow db) in
  reports db' = reports db /\ reportSeq db' = reportSeq db
  /\ users db' = users db.
Proof.
  unfold TaskCreate.POST, try_write, bind, ret.
  break; cbn; repeat split; reflexivity.
Qed.

(** The staff handlers write to the user table only. *)
Lemma staff_POST_frame (session : option Auth.SessionPayload)
  (username password position : option string) (id createdNow : Z) (db : Db) :
  let db' := snd (StaffRoute.POST bcrypt_hash session username password
                    position id createdNow db) in
  reports db' = reports db /\ reportSeq db' = reportSeq db
  /\ tasks db' = tasks db.
Proof.
  unfold StaffRoute.POST, try_write, bind, ret, StaffRoute.createUser, throw.
  break; cbn; repeat split; reflexivity.
Qed.

Lemma staff_PUT_frame (session : option Auth.SessionPayload) (id : string)
  (username password position : option string) (db : Db) :
  let db' := snd (StaffIdRoute.PUT parseInt bcrypt_hash session id username
                    password position db) in
  reports db' = reports db /\ reportSeq db' = reportSeq db
  /\ tasks db' = tasks db.
Proof.
  unfold StaffIdRoute.PUT, try_catch, bind, ret, number,
    StaffIdRoute.updateUser, Prisma.update, throw.
  break; cbn; repeat split; reflexivity.
Qed.

Lemma staff_DELETE_frame (session : option Auth.SessionPayload) (id : string)
  (db : Db) :
  let db' := snd (StaffIdRoute.DELETE parseInt session id db) in
  reports db' = reports db /\ reportSeq db' = reportSeq db
  /\ tasks db' = tasks db.
Proof.
  unfold StaffIdRoute.DELETE, try_catch, bind, ret, number, throw,
    Prisma.delete.
  break; cbn; repeat split; reflexivity.
Qed.

(** What a submit call leaves in the report table: the table as it was, the
    table with the rows of one id resubmitted, or the table with one row
    more, dated at noon of the local day of the request. *)
Lemma POST_reports (session : option Auth.SessionPayload)
  (date : option string) (now submitNow : Z) (db : Db) :
  let db' := snd (ReportsRoute.POST zone newDate session date now submitNow db) in
  tasks db' = tasks db /\ users db' = users db
  /\ (reports db' = reports db
      \/ (exists i, reports db' = Spec.resubmit_rows i submitNow (reports db))
      \/ (exists s t,
            session = Some s /\ newDate (text date) = Some t
            /\ reports db'
               = reports db
                 ++ [{| DailyReport.id := reportSeq db + 1;
                        DailyReport.date :=
                          Spec.noon zone (Spec.dayOf zone t);
                        DailyReport.userId := Auth.userId s;
                        DailyReport.submitted := true;
                        DailyReport.submittedAt := Some submitNow;
                        DailyReport.createdAt := submitNow |}])).
Proof.
  cbn zeta. destruct session as [s | ]; [|cbn; auto].
  destruct (Js.truthy date) eqn:Hdate.
  2:{ unfold ReportsRoute.POST. rewrite Hdate. cbn. auto. }
  destruct (newDate (text date)) as [t | ] eqn:Ht.
  2:{ rewrite (ReportFacts.POST_invalid_date zone newDate _ _ _ _ _ Hdate Ht).
      cbn. auto. }
  rewrite (ReportFacts.POST_run zone regular newDate _ _ _ _ _ _ Hdate Ht).
  destruct (now >? Spec.deadline zone t); [cbn; auto|].
  destruct (Prisma.count _ (tasks db) =? 0); [cbn; auto|].
  destruct (Prisma.findFirst _ (reports db)) as [e | ].
  - unfold Prisma.update.
    destruct (Prisma.findUnique DailyReport.id (DailyReport.id e) (reports db));
      cbn; [|auto].
    split; [reflexivity|]. split; [reflexivity|].
    right. left. exists (DailyReport.id e). reflexivity.
  - unfold Prisma.createReport.
    destruct (existsb _ (reports db)); cbn; [auto|].
    split; [reflexivity|]. split; [reflexivity|].
    right. right. exists s, t. repeat split; reflexivity.
Qed.

(** What a withdraw call leaves in the report table: the table as it was,
    or the table without the rows of one id. *)
Lemma DELETE_reports (session : option Auth.SessionPayload)
  (date : option string) (db : Db) :
  let db' := snd (ReportsRoute.DELETE zone newDate session date db) in
  tasks db' = tasks db /\ users db' = users db
  /\ (reports db' = reports db
      \/ exists i,
           reports db'
           = filter (fun r => negb (DailyReport.id r =? i)) (reports db)).
Proof.
  cbn zeta. destruct session as [s | ]; [|cbn; auto].
  destruct (Js.truthy date) eqn:Hdate.
  2:{ unfold ReportsRoute.DELETE. rewrite Hdate. cbn. auto. }
  destruct (newDate (text date)) as [t | ] eqn:Ht.
  2:{ rewrite (ReportFacts.DELETE_invalid_date zone newDate _ _ _ Hdate Ht).
      cbn. auto. }
  rewrite (ReportFacts.DELETE_run zone regular newDate _ _ _ _ Hdate Ht).
  destruct (Prisma.findFirst _ (reports db)) as [e | ]; [|cbn; auto].
  unfold Prisma.delete.
  destruct (Prisma.findUnique DailyReport.id (DailyReport.id e) (reports db));
    cbn; [|auto].
  split; [reflexivity|]. split; [reflexivity|].
  right. exists (DailyReport.id e). reflexivity.
Qed.

End Handlers.
End FrameFacts.

(** ** Dates as JSON text *)

Module IsoFacts.

Lemma append_assoc (a b c : string) :
  ((a ++ b) ++ c = a ++ (b ++ c))%string.
Proof.
  induction a as [|x a IH]; [reflexivity|]. cbn [append]. rewrite IH.
  reflexivity.
Qed.

Lemma digit_not_T (n : Z) : Ascii.eqb (JsIso.digit n) "T" = false.
Proof.
  unfold JsIso.digit. generalize (Z.to_nat (n mod 10)) as k. intro k.
  do 10 (destruct k as [|k]; [reflexivity|]). destruct k; reflexivity.
Qed.

Lemma beforeT_pad2 (n : Z) (rest : string) :
  JsIso.beforeT (JsIso.pad2 n ++ rest)
  = (JsIso.pad2 n ++ JsIso.beforeT rest)%string.
Proof.
  unfold JsIso.pad2. cbn [append JsIso.beforeT].
  rewrite !digit_not_T. reflexivity.
Qed.

Lemma beforeT_pad4 (n : Z) (rest : string) :
  JsIso.beforeT (JsIso.pad4 n ++ rest)
  = (JsIso.pad4 n ++ JsIso.beforeT rest)%string.
Proof.
  unfold JsIso.pad4, JsIso.pad3. cbn [append JsIso.beforeT].
  rewrite !digit_not_T. f_equal. f_equal. apply beforeT_pad2.
Qed.

Lemma beforeT_year (y : Z) (rest : string) :
  JsIso.beforeT (JsIso.year y ++ rest)
  = (JsIso.year y ++ JsIso.beforeT rest)%string.
Proof.
  unfold JsIso.year, JsIso.pad6.
  destruct ((0 <=? y) && (y <=? 9999)); [apply beforeT_pad4|].
  destruct (y <? 0); cbn [append JsIso.beforeT]; rewrite !digit_not_T;
    cbn [Ascii.eqb Bool.eqb]; do 3 f_equal; apply beforeT_pad4.
Qed.

(** The text before the "T" of an ISO timestamp is its date part. *)
Lemma beforeT_toISOString (ms : Z) :
  JsIso.beforeT (JsIso.toISOString ms) = JsIso.datePart (ms / 86400000).
Proof.
  unfold JsIso.toISOString, JsIso.datePart.
  destruct (JsIso.civil (ms / 86400000)) as [[y m] d].
  rewrite append_assoc, beforeT_year. f_equal.
  cbn [append JsIso.beforeT Ascii.eqb Bool.eqb]. f_equal.
  rewrite append_assoc, beforeT_pad2. f_equal.
  cbn [append JsIso.beforeT Ascii.eqb Bool.eqb]. f_equal.
  rewrite beforeT_pad2. cbn [JsIso.beforeT Ascii.eqb Bool.eqb].
  unfold JsIso.pad2. reflexivity.
Qed.

(** Two instants of one UTC day have one grouping key. *)
Lemma dateKey_day (a b : Z) :
  a / 86400000 = b / 86400000 ->
  DashboardClient.dateKey a = DashboardClient.dateKey b.
Proof.
  intro H. unfold DashboardClient.dateKey.
  rewrite !beforeT_toISOString, H. reflexivity.
Qed.

Lemma length_year (y : Z) :
  String.length (JsIso.year y) = 4%nat \/ String.length (JsIso.year y) = 7%nat.
Proof.
  unfold JsIso.year.
  destruct ((0 <=? y) && (y <=? 9999)); [left; reflexivity|].
  destruct (y <? 0); right; reflexivity.
Qed.

Lemma length_append (a b : string) :
  String.length (a ++ b) = (String.length a + String.length b)%nat.
Proof.
  induction a as [|c a IH]; [reflexivity|]. cbn [append String.length].
  rewrite IH. reflexivity.
Qed.

(** An ISO timestamp has 24 characters, or 27 outside the years 0-9999. *)
Lemma length_toISOString (ms : Z) :
  String.length (JsIso.toISOString ms) = 24%nat
  \/ String.length (JsIso.toISOString ms) = 27%nat.
Proof.
  unfold JsIso.toISOString, JsIso.datePart.
  destruct (JsIso.civil (ms / 86400000)) as [[y m] d].
  rewrite !length_append.
  destruct (length_year y) as [-> | ->]; [left|right]; reflexivity.
Qed.

End IsoFacts.

(** ** More on report submission *)

Module ReportMoreFacts.
Section Handlers.

Variable zone : Zone.t.
Hypothesis regular : Spec.Regular zone.
Variable newDate : string -> JsDate.Date.

Local Abbreviation POST := (ReportsRoute.POST zone newDate).
Local Abbreviation DELETE := (ReportsRoute.DELETE zone newDate).
Local Abbreviation GET := (ReportsList.GET zone newDate).
Local Abbreviation dayOf := (Spec.dayOf zone).

(** X9: the three report handlers answer 401 without a session; submit and
    withdraw answer 400 when the date is absent or empty; and a date that
    is there but does not parse gives 500 from all three, not 400.  None of
    these calls changes the store. *)
Theorem report_requests_refused (date : option string) (now submitNow : Z)
  (db : Db) :
  (POST None date now submitNow db = (Spec.Unauthorized, db)
   /\ DELETE None date db = (Spec.Unauthorized, db)
   /\ GET None date db = fail "Unauthorized" 401)
  /\ (forall s, Js.truthy date = false ->
      POST (Some s) date now submitNow db
      = (json (error "Date is required") 400, db)
      /\ DELETE (Some s) date db = (json (error "Date is required") 400, db))
  /\ (forall s, Js.truthy date = true -> newDate (text date) = None ->
      POST (Some s) date now submitNow db
      = (json (error "Failed to submit report") 500, db)
      /\ DELETE (Some s) date db
         = (json (error "Failed to delete report") 500, db)
      /\ GET (Some s) date db = fail "Failed to fetch reports" 500).
Proof.
  split; [repeat split|split].
  - intros s Hdate. unfold ReportsRoute.POST, ReportsRoute.DELETE.
    rewrite Hdate. split; reflexivity.
  - intros s Hdate Ht. split; [|split].
    + exact (ReportFacts.POST_invalid_date zone newDate s date now submitNow db
               Hdate Ht).
    + exact (ReportFacts.DELETE_invalid_date zone newDate s date db Hdate Ht).
    + unfold ReportsList.GET.
      rewrite (ReportListFacts.dateFilter_invalid zone newDate date Hdate Ht).
      destruct (Auth.role s =? "admin")%string; reflexivity.
Qed.

(** X10: the first accepted submit for a (day, user) pair files a row dated
    at noon of the local day of the request.  For a date given as a day
    (midnight UTC), the row's UTC calendar day, and with it the key under
    which the dashboard groups it, is the requested day when the server's
    zone is always 0 to 12 hours east of UTC, and the day before when it
    is always west of UTC, by less than 12 hours. *)
Theorem first_submit_dated_at_noon (s : Auth.SessionPayload)
  (date : option string) (t now submitNow : Z) (db : Db) :
  Js.truthy date = true -> newDate (text date) = Some t ->
  now <= Spec.deadline zone t ->
  Spec.tasksOf zone (Auth.userId s) (dayOf t) db <> [] ->
  Spec.reportsOf zone (Auth.userId s) (dayOf t) db = [] ->
  exists r db',
    POST (Some s) date now submitNow db = (json (report_of r) 201, db')
    /\ DailyReport.date r = Spec.noon zone (dayOf t)
    /\ dayOf (DailyReport.date r) = dayOf t
    /\ (t mod 86400000 = 0 ->
        (forall x, 0 <= Zone.offsetAt zone x <= 12 * 3600000) ->
        (forall x, 0 <= Zone.offsetOf zone x <= 12 * 3600000) ->
        DailyReport.date r / 86400000 = t / 86400000
        /\ DashboardClient.dateKey (DailyReport.date r)
           = DashboardClient.dateKey t)
    /\ (t mod 86400000 = 0 ->
        (forall x, - 12 * 3600000 < Zone.offsetAt zone x < 0) ->
        (forall x, - 12 * 3600000 < Zone.offsetOf zone x < 0) ->
        DailyReport.date r / 86400000 = t / 86400000 - 1).
Proof.
  intros Hdate Ht Hnow Htasks Hnone.
  rewrite (ReportFacts.POST_run zone regular newDate _ _ _ _ _ _ Hdate Ht).
  destruct (Z.gtb_spec now (Spec.deadline zone t)) as [Hgt | _]; [lia|].
  destruct (Prisma.count _ (tasks db) =? 0) eqn:Hcount.
  { apply ReportFacts.count_zero in Hcount. contradiction. }
  rewrite (ReportFacts.findFirst_absent zone _ _ _ Hnone).
  rewrite (ReportFacts.createReport_fresh zone regular s t submitNow db Hnone).
  cbn [bind ret try_catch].
  eexists; eexists; split; [reflexivity|].
  cbn [DailyReport.date].
  split; [reflexivity|].
  split; [exact (ReportFacts.noon_onDay zone regular t)|].
  pose proof (Z.div_mod t 86400000 ltac:(lia)) as Hdm.
  unfold Spec.noon, Spec.wall, Spec.dayOf, JsDate.UTC, JsDate.LocalTime,
    JsDate.Day, JsDate.msPerDay, JsDate.msPerHour.
  split.
  - intros Hmod Hat Hof.
    assert ((t + Zone.offsetAt zone t) / 86400000 = t / 86400000) as Hday.
    { symmetry.
      apply (Z.div_unique _ 86400000 (t / 86400000) (Zone.offsetAt zone t));
        [|lia].
      specialize (Hat t). lia. }
    rewrite Hday.
    set (noon := t / 86400000 * 86400000 + 12 * 3600000).
    assert ((noon - Zone.offsetOf zone noon) / 86400000 = t / 86400000) as Hrow.
    { symmetry.
      apply (Z.div_unique _ 86400000 (t / 86400000)
               (12 * 3600000 - Zone.offsetOf zone noon)).
      - specialize (Hof noon). lia.
      - unfold noon. lia. }
    split; [exact Hrow|]. apply IsoFacts.dateKey_day. exact Hrow.
  - intros Hmod Hat Hof.
    assert ((t + Zone.offsetAt zone t) / 86400000 = t / 86400000 - 1) as Hday.
    { symmetry.
      apply (Z.div_unique _ 86400000 (t / 86400000 - 1)
               (86400000 + Zone.offsetAt zone t)); [|lia].
      specialize (Hat t). lia. }
    rewrite Hday.
    set (noon := (t / 86400000 - 1) * 86400000 + 12 * 3600000).
    symmetry.
    apply (Z.div_unique _ 86400000 (t / 86400000 - 1)
             (12 * 3600000 - Zone.offsetOf zone noon)).
    + specialize (Hof noon). lia.
    + unfold noon. lia.
Qed.

(** X11: a report outlives its tasks.  When the pair has a report and its
    only task of the day is deleted by the owner, the report row stays in
    the table, and a new submit call for the day is refused and leaves the
    row as it was: with NoTasksToSubmit by the deadline, with
    DeadlinePassed after it. *)
Theorem report_outlives_tasks (parseInt : string -> option Z)
  (s : Auth.SessionPayload) (date : option string) (t now submitNow : Z)
  (id : string) (task : Task.t) (r : DailyReport.t) (db : Db) :
  NoDup (map Task.id (tasks db)) ->
  Js.truthy date = true -> newDate (text date) = Some t ->
  Spec.tasksOf zone (Auth.userId s) (dayOf t) db = [task] ->
  Spec.reportsOf zone (Auth.userId s) (dayOf t) db = [r] ->
  parseInt id = Some (Task.id task) -> fitsInt (Task.id task) = true ->
  let db' := snd (TaskIdRoute.DELETE parseInt (Some s) id db) in
  fst (TaskIdRoute.DELETE parseInt (Some s) id db) = json success 200
  /\ Spec.tasksOf zone (Auth.userId s) (dayOf t) db' = []
  /\ Spec.reportsOf zone (Auth.userId s) (dayOf t) db' = [r]
  /\ POST (Some s) date now submitNow db'
     = (if now >? Spec.deadline zone t
        then Spec.DeadlinePassed else Spec.NoTasksToSubmit, db').
Proof.
  intros Hnd Hdate Ht Htasks Hrow Hid Hfit db'.
  assert (In task (tasks db)
          /\ Spec.onDay zone Task.userId Task.date (Auth.userId s) (dayOf t) task
             = true) as [Hin Hon].
  { assert (In task (Spec.tasksOf zone (Auth.userId s) (dayOf t) db)) as H
      by (rewrite Htasks; left; reflexivity).
    unfold Spec.tasksOf in H. apply filter_In in H. exact H. }
  assert (Task.userId task = Auth.userId s) as Howner.
  { unfold Spec.onDay in Hon. apply andb_true_iff in Hon.
    apply Z.eqb_eq. exact (proj1 Hon). }
  assert (TaskIdRoute.DELETE parseInt (Some s) id db
          = (json success 200,
             with_tasks db
               (filter (fun x => negb (Task.id x =? Task.id task)) (tasks db))))
    as Hrun.
  { unfold TaskIdRoute.DELETE. rewrite Hid, (TaskFacts.number_Int _ Hfit).
    cbn [bind].
    rewrite (TableFacts.findUnique_row Task.id _ _ Hnd Hin).
    rewrite (TaskFacts.owner_or_admin s task (or_intror Howner)).
    unfold Prisma.delete.
    rewrite (TableFacts.findUnique_row Task.id _ _ Hnd Hin). reflexivity. }
  subst db'. rewrite Hrun. cbn [fst snd].
  assert (Spec.tasksOf zone (Auth.userId s) (dayOf t)
            (with_tasks db
               (filter (fun x => negb (Task.id x =? Task.id task)) (tasks db)))
          = []) as Hgone.
  { unfold Spec.tasksOf. cbn [with_tasks tasks].
    destruct (filter _ (filter _ (tasks db))) as [|x l] eqn:Hf; [reflexivity|].
    exfalso.
    assert (In x (filter (Spec.onDay zone Task.userId Task.date (Auth.userId s)
                            (dayOf t))
                    (filter (fun x => negb (Task.id x =? Task.id task))
                       (tasks db)))) as Hx by (rewrite Hf; left; reflexivity).
    apply filter_In in Hx. destruct Hx as [Hx Hxon].
    apply filter_In in Hx. destruct Hx as [Hx Hxid].
    assert (In x (Spec.tasksOf zone (Auth.userId s) (dayOf t) db)) as Hx'
      by (unfold Spec.tasksOf; apply filter_In; split; assumption).
    rewrite Htasks in Hx'. destruct Hx' as [<- | []].
    rewrite Z.eqb_refl in Hxid. discriminate. }
  split; [reflexivity|]. split; [exact Hgone|]. split; [exact Hrow|].
  rewrite (ReportFacts.POST_run zone regular newDate _ _ _ _ _ _ Hdate Ht).
  destruct (now >? Spec.deadline zone t); [reflexivity|].
  replace (Prisma.count _ _ =? 0) with true; [reflexivity|].
  symmetry. apply ReportFacts.count_zero. exact Hgone.
Qed.

End Handlers.

(** Alice asks with a date that is no date. *)
Lemma report_requests_refused_witness :
  ReportsRoute.POST Fixture.zone Fixture.newDate (Some Fixture.alice)
    (Some "tomorrow"%string) Fixture.june1 Fixture.june1 Fixture.db0
  = (json (error "Failed to submit report") 500, Fixture.db0)
  /\ ReportsRoute.DELETE Fixture.zone Fixture.newDate (Some Fixture.alice)
       (Some "tomorrow"%string) Fixture.db0
     = (json (error "Failed to delete report") 500, Fixture.db0)
  /\ ReportsList.GET Fixture.zone Fixture.newDate (Some Fixture.alice)
       (Some "tomorrow"%string) Fixture.db0
     = fail "Failed to fetch reports" 500.
Proof.
  apply (proj2 (proj2 (report_requests_refused Fixture.zone Fixture.newDate
                         (Some "tomorrow"%string) Fixture.june1 Fixture.june1
                         Fixture.db0))).
  - reflexivity.
  - reflexivity.
Defined.

(** Alice's first submit for 2024-06-01 on a server at UTC+7, and for
    2024-11-03 on a server in the eastern zone. *)
Lemma first_submit_dated_at_noon_witness :
  (exists r db',
     ReportsRoute.POST Fixture.zone Fixture.newDate (Some Fixture.alice)
       (Some "2024-06-01"%string) (Fixture.june1 + 1000) (Fixture.june1 + 1001)
       Fixture.db0 = (json (report_of r) 201, db')
     /\ DailyReport.date r / 86400000 = Fixture.june1 / 86400000
     /\ DashboardClient.dateKey (DailyReport.date r)
        = DashboardClient.dateKey Fixture.june1)
  /\ (exists r db',
       ReportsRoute.POST Fixture.eastern Fixture.newDate (Some Fixture.alice)
         (Some "2024-11-03"%string) 1730600000000 1730600000001
         Fixture.db_nov = (json (report_of r) 201, db')
       /\ DailyReport.date r / 86400000 = 1730592000000 / 86400000 - 1).
Proof.
  split.
  - destruct (first_submit_dated_at_noon Fixture.zone DateFacts.Regular_zone
                Fixture.newDate
                Fixture.alice (Some "2024-06-01"%string) Fixture.june1
                (Fixture.june1 + 1000) (Fixture.june1 + 1001) Fixture.db0
                eq_refl eq_refl ltac:(vm_compute; discriminate)
                ltac:(vm_compute; discriminate) eq_refl)
      as (r & db' & Hrun & _ & _ & Heast & _).
    exists r, db'. split; [exact Hrun|].
    apply Heast; [reflexivity| |];
      intro x; vm_compute; split; discriminate.
  - destruct (first_submit_dated_at_noon Fixture.eastern
                DateFacts.Regular_eastern Fixture.newDate
                Fixture.alice (Some "2024-11-03"%string) 1730592000000
                1730600000000 1730600000001 Fixture.db_nov
                eq_refl eq_refl ltac:(vm_compute; discriminate)
                ltac:(vm_compute; discriminate) eq_refl)
      as (r & db' & Hrun & _ & _ & _ & Hwest).
    exists r, db'. split; [exact Hrun|].
    apply Hwest; [reflexivity| |]; intro x.
    + destruct (DateFacts.eastern_offsetAt x) as [[_ ->] | [[_ ->] | [_ ->]]];
        lia.
    + destruct (DateFacts.eastern_offsetOf x) as [[_ ->] | [[_ ->] | [_ ->]]];
        lia.
Defined.

(** Alice deletes her only task of 2024-06-01 after submitting. *)
Lemma report_outlives_tasks_witness :
  let db' := snd (TaskIdRoute.DELETE Fixture.parseInt (Some Fixture.alice) "1"
                    Sample.db1) in
  fst (TaskIdRoute.DELETE Fixture.parseInt (Some Fixture.alice) "1" Sample.db1)
  = json success 200
  /\ Spec.tasksOf Fixture.zone (Auth.userId Fixture.alice)
       (Spec.dayOf Fixture.zone Fixture.june1) db' = []
  /\ Spec.reportsOf Fixture.zone (Auth.userId Fixture.alice)
       (Spec.dayOf Fixture.zone Fixture.june1) db' = [Sample.aliceReport]
  /\ ReportsRoute.POST Fixture.zone Fixture.newDate (Some Fixture.alice)
       (Some "2024-06-01"%string) (Fixture.june1 + 9000) (Fixture.june1 + 9001)
       db'
     = (if Fixture.june1 + 9000
           >? Spec.deadline Fixture.zone Fixture.june1
        then Spec.DeadlinePassed else Spec.NoTasksToSubmit, db').
Proof.
  apply (report_outlives_tasks Fixture.zone DateFacts.Regular_zone
           Fixture.newDate Fixture.parseInt
           Fixture.alice (Some "2024-06-01"%string) Fixture.june1
           (Fixture.june1 + 9000) (Fixture.june1 + 9001) "1"
           Fixture.writeCopy Sample.aliceReport Sample.db1).
  - vm_compute. repeat constructor; cbn; intuition discriminate.
  - reflexivity.
  - reflexivity.
  - reflexivity.
  - reflexivity.
  - reflexivity.
  - reflexivity.
Defined.

End ReportMoreFacts.

(** ** Sequences of requests *)

Module PortalFacts.
Section Handlers.

Variable zone : Zone.t.
Hypothesis regular : Spec.Regular zone.
Variable newDate : string -> JsDate.Date.
Variable parseInt : string -> option Z.
Variable bcrypt_hash : string -> string.

Local Abbreviation step := (Portal.step zone newDate parseInt bcrypt_hash).
Local Abbreviation run := (Portal.run zone newDate parseInt bcrypt_hash).

Lemma ReportsOk_same (db db' : Db) :
  reports db' = reports db /\ reportSeq db' = reportSeq db ->
  Spec.ReportsOk zone db -> Spec.ReportsOk zone db'.
Proof.
  intros [Hr Hs] [Hids Hissued Hone]. constructor.
  - rewrite Hr. exact Hids.
  - rewrite Hr, Hs. exact Hissued.
  - intros u day. unfold Spec.reportsOf. rewrite Hr. apply Hone.
Qed.

Lemma step_ReportsOk (c : Portal.Call) (db : Db) :
  Spec.ReportsOk zone db -> Spec.ReportsOk zone (step db c).
Proof.
  intro Hok.
  destruct c as [session date now submitNow | session date
                | session date taskName plan result now id createdNow
                | session id members | session id
                | session username password position id createdNow
                | session id username password position | session id];
    cbn [Portal.step].
  - apply (ReportFacts.POST_ReportsOk zone regular). exact Hok.
  - apply (ReportFacts.DELETE_ReportsOk zone regular). exact Hok.
  - apply (ReportsOk_same db); [|exact Hok].
    pose proof (FrameFacts.task_POST_frame newDate session date taskName plan
                  result now id createdNow db) as H.
    cbn zeta in H. tauto.
  - apply (ReportsOk_same db); [|exact Hok].
    pose proof (FrameFacts.task_PUT_frame parseInt session id members db) as H.
    cbn zeta in H. tauto.
  - apply (ReportsOk_same db); [|exact Hok].
    pose proof (FrameFacts.task_DELETE_frame parseInt session id db) as H.
    cbn zeta in H. tauto.
  - apply (ReportsOk_same db); [|exact Hok].
    pose proof (FrameFacts.staff_POST_frame bcrypt_hash session username
                  password position id createdNow db) as H.
    cbn zeta in H. tauto.
  - apply (ReportsOk_same db); [|exact Hok].
    pose proof (FrameFacts.staff_PUT_frame parseInt bcrypt_hash session id
                  username password position db) as H.
    cbn zeta in H. tauto.
  - apply (ReportsOk_same db); [|exact Hok].
    pose proof (FrameFacts.staff_DELETE_frame parseInt session id db) as H.
    cbn zeta in H. tauto.
Qed.

(** X12: whatever requests are served, in whatever order and with whatever
    arguments, a report table that starts in order stays in order: distinct
    ids, at most one report per (local day, user), and so no two rows with
    the same (date, userId), which is what the unique index demands. *)
Theorem requests_keep_reports_in_order (calls : list Portal.Call) (db : Db) :
  Spec.ReportsOk zone db ->
  Spec.ReportsOk zone (run calls db)
  /\ NoDup (map (fun r => (DailyReport.date r, DailyReport.userId r))
              (reports (run calls db))).
Proof.
  intro Hok.
  assert (Spec.ReportsOk zone (run calls db)) as H.
  { unfold Portal.run. revert db Hok.
    induction calls as [|c calls IH]; intros db Hok; cbn [fold_left].
    - exact Hok.
    - apply IH. apply step_ReportsOk. exact Hok. }
  split; [exact H|]. exact (ReportFacts.ReportsOk_unique_index zone _ H).
Qed.

Lemma Filed_noon (t submitNow id userId : Z) :
  Portal.Filed zone
    {| DailyReport.id := id;
       DailyReport.date := Spec.noon zone (Spec.dayOf zone t);
       DailyReport.userId := userId;
       DailyReport.submitted := true;
       DailyReport.submittedAt := Some submitNow;
       DailyReport.createdAt := submitNow |}.
Proof.
  unfold Portal.Filed. cbn [DailyReport.submitted DailyReport.submittedAt
                            DailyReport.date].
  split; [reflexivity|]. split; [discriminate|].
  rewrite (ReportFacts.noon_onDay zone regular t). reflexivity.
Qed.

Lemma step_Filed (c : Portal.Call) (db : Db) :
  Forall (Portal.Filed zone) (reports db) ->
  Forall (Portal.Filed zone) (reports (step db c)).
Proof.
  intro H.
  destruct c as [session date now submitNow | session date
                | session date taskName plan result now id createdNow
                | session id members | session id
                | session username password position id createdNow
                | session id username password position | session id];
    cbn [Portal.step].
  - destruct (FrameFacts.POST_reports zone regular newDate session date now submitNow db)
      as (_ & _ & [-> | [(i & ->) | (s & t & _ & _ & ->)]]).
    + exact H.
    + unfold Spec.resubmit_rows. apply Forall_map.
      eapply Forall_impl; [|exact H].
      intros r (Hs & Ha & Hd). destruct (DailyReport.id r =? i).
      * unfold Portal.Filed.
        cbn [ReportsRoute.resubmitted DailyReport.submitted
             DailyReport.submittedAt DailyReport.date].
        split; [reflexivity|]. split; [discriminate|exact Hd].
      * repeat split; assumption.
    + apply Forall_app. split; [exact H|].
      constructor; [apply Filed_noon|constructor].
  - destruct (FrameFacts.DELETE_reports zone regular newDate session date db)
      as (_ & _ & [-> | (i & ->)]).
    + exact H.
    + apply Forall_forall. intros r Hr. apply filter_In in Hr.
      rewrite Forall_forall in H. apply H. exact (proj1 Hr).
  - pose proof (FrameFacts.task_POST_frame newDate session date taskName plan
                  result now id createdNow db) as (-> & _). exact H.
  - pose proof (FrameFacts.task_PUT_frame parseInt session id members db)
      as (-> & _). exact H.
  - pose proof (FrameFacts.task_DELETE_frame parseInt session id db)
      as (-> & _). exact H.
  - pose proof (FrameFacts.staff_POST_frame bcrypt_hash session username
                  password position id createdNow db) as (-> & _). exact H.
  - pose proof (FrameFacts.staff_PUT_frame parseInt bcrypt_hash session id
                  username password position db) as (-> & _). exact H.
  - pose proof (FrameFacts.staff_DELETE_frame parseInt session id db)
      as (-> & _). exact H.
Qed.

(** X13: there is no draft or withdrawn state.  Starting from a table whose
    rows are submitted, stamped and dated at local noon (an empty table,
    say), every row of the table after any sequence of requests is
    submitted, has its [submittedAt] set and is dated at noon of its local
    day. *)
Theorem requests_keep_reports_filed (calls : list Portal.Call) (db : Db) :
  Forall (Portal.Filed zone) (reports db) ->
  Forall (Portal.Filed zone) (reports (run calls db)).
Proof.
  unfold Portal.run. revert db.
  induction calls as [|c calls IH]; intros db H; cbn [fold_left].
  - exact H.
  - apply IH. apply step_Filed. exact H.
Qed.

End Handlers.

(** A run of six requests on the sample store. *)
Lemma requests_keep_reports_in_order_witness :
  Spec.ReportsOk Fixture.zone
    (Portal.run Fixture.zone Fixture.newDate Fixture.parseInt Fixture.bcrypt_hash
       Sample.calls Fixture.db0)
  /\ NoDup (map (fun r => (DailyReport.date r, DailyReport.userId r))
              (reports
                 (Portal.run Fixture.zone Fixture.newDate Fixture.parseInt
                    Fixture.bcrypt_hash Sample.calls Fixture.db0))).
Proof.
  apply (requests_keep_reports_in_order Fixture.zone DateFacts.Regular_zone Fixture.newDate
           Fixture.parseInt Fixture.bcrypt_hash Sample.calls Fixture.db0).
  apply ReportFacts.ReportsOk_start. reflexivity.
Defined.

Lemma requests_keep_reports_filed_witness :
  Forall (Portal.Filed Fixture.zone)
    (reports
       (Portal.run Fixture.zone Fixture.newDate Fixture.parseInt
          Fixture.bcrypt_hash Sample.calls Fixture.db0)).
Proof.
  apply (requests_keep_reports_filed Fixture.zone DateFacts.Regular_zone Fixture.newDate
           Fixture.parseInt Fixture.bcrypt_hash Sample.calls Fixture.db0).
  constructor.
Defined.

End PortalFacts.

(** ** More on tasks *)

Module TaskMoreFacts.

Lemma findUnique_app_fresh (rows : list Task.t) (t : Task.t) :
  ~ In (Task.id t) (map Task.id rows) ->
  Prisma.findUnique Task.id (Task.id t) (rows ++ [t]) = Some t.
Proof.
  unfold Prisma.findUnique. induction rows as [|x rows IH]; intro Hfresh.
  - cbn. rewrite Z.eqb_refl. reflexivity.
  - cbn [app find]. destruct (Z.eqb_spec (Task.id x) (Task.id t)) as [Heq | _].
    + exfalso. apply Hfresh. left. exact Heq.
    + apply IH. intro H. apply Hfresh. right. exact H.
Qed.

Lemma findUnique_app_other (rows : list Task.t) (t : Task.t) (m : Z) :
  m <> Task.id t ->
  Prisma.findUnique Task.id m (rows ++ [t]) = Prisma.findUnique Task.id m rows.
Proof.
  intro Hne. unfold Prisma.findUnique. induction rows as [|x rows IH].
  - cbn. destruct (Z.eqb_spec (Task.id t) m); [lia|reflexivity].
  - cbn [app find]. destruct (Task.id x =? m); [reflexivity|exact IH].
Qed.

Lemma findUnique_removed (rows : list Task.t) (n : Z) :
  Prisma.findUnique Task.id n (filter (fun x => negb (Task.id x =? n)) rows)
  = None.
Proof.
  unfold Prisma.findUnique. induction rows as [|x rows IH]; [reflexivity|].
  cbn [filter]. destruct (Z.eqb_spec (Task.id x) n) as [Heq | Hne]; cbn [negb].
  - exact IH.
  - cbn [find]. destruct (Z.eqb_spec (Task.id x) n); [contradiction|exact IH].
Qed.

Lemma findUnique_kept (rows : list Task.t) (n m : Z) :
  m <> n ->
  Prisma.findUnique Task.id m (filter (fun x => negb (Task.id x =? n)) rows)
  = Prisma.findUnique Task.id m rows.
Proof.
  intro Hne. unfold Prisma.findUnique. induction rows as [|x rows IH];
    [reflexivity|].
  cbn [filter find]. destruct (Z.eqb_spec (Task.id x) n) as [Heq | Hxn];
    cbn [negb].
  - destruct (Z.eqb_spec (Task.id x) m); [lia|exact IH].
  - cbn [find]. destruct (Task.id x =? m); [reflexivity|exact IH].
Qed.

Lemma includeUser_refs (users : list User.t) (rows : list Task.t)
  (l : list (Task.t * UserRef)) :
  TasksRoute.includeUser users rows = Some l ->
  map fst l = rows
  /\ Forall (fun row =>
               exists u,
                 Prisma.findUnique User.id (Task.userId (fst row)) users
                 = Some u
                 /\ snd row = {| ref_id := User.id u;
                                 ref_username := User.username u;
                                 ref_position := User.position u |}) l.
Proof.
  revert l. induction rows as [|x rows IH]; intros l H;
    cbn [TasksRoute.includeUser] in H.
  - injection H as <-. split; constructor.
  - destruct (Prisma.findUnique User.id (Task.userId x) users)
      as [u | ] eqn:Hu; [|discriminate].
    cbn [bind] in H.
    destruct (TasksRoute.includeUser users rows) as [rest | ]; [|discriminate].
    cbn [bind ret] in H. injection H as <-.
    destruct (IH rest eq_refl) as [Hrows Hrefs]. split.
    + cbn [map fst]. rewrite Hrows. reflexivity.
    + constructor; [|exact Hrefs]. exists u. split; [exact Hu|reflexivity].
Qed.

Section Handlers.

Variable zone : Zone.t.
Hypothesis regular : Spec.Regular zone.
Variable newDate : string -> JsDate.Date.
Variable parseInt : string -> option Z.

Local Abbreviation create := (TaskCreate.POST newDate).
Local Abbreviation GET := (TasksRoute.GET zone newDate parseInt).
Local Abbreviation PUT := (TaskIdRoute.PUT parseInt).
Local Abbreviation DELETE := (TaskIdRoute.DELETE parseInt).
Local Abbreviation dayOf := (Spec.dayOf zone).

(** The row that POST writes. *)
Lemma create_run (s : Auth.SessionPayload)
  (date taskName plan result : option string) (now id createdNow d : Z)
  (db : Db) :
  Js.truthy taskName = true ->
  (if Js.truthy date then newDate (text date) else Some now) = Some d ->
  let task := {| Task.id := id;
                 Task.date := d;
                 Task.taskName := text taskName;
                 Task.plan := TaskCreate.orEmpty plan;
                 Task.result := TaskCreate.orEmpty result;
                 Task.userId := Auth.userId s;
                 Task.createdAt := createdNow |} in
  create (Some s) date taskName plan result now id createdNow db
  = (ok task 201, with_tasks db (tasks db ++ [task])).
Proof.
  intros Hname Hd task. unfold TaskCreate.POST. rewrite Hname. cbn [negb].
  destruct (Js.truthy date); [rewrite Hd|injection Hd as Hd; subst d];
    reflexivity.
Qed.

(** X14: task creation.  Without a session the answer is 401, without a
    task name it is 400, with a date that does not parse it is 500, and
    the store is as it was.  Otherwise, for a session whose user has a
    row, the answer is 201 with the new task:
    it belongs to the session's user whatever the body says, it is dated
    at the given date, or at the clock read when there is none, [plan] and
    [result] are text (empty when left out), and the task table is the old
    one with that row appended; when the assigned id is new the row is
    found under it and every other lookup is as before. *)
Theorem task_create (s : Auth.SessionPayload)
  (date taskName plan result : option string) (now id createdNow : Z)
  (db : Db) :
  create None date taskName plan result now id createdNow db
  = (fail "Unauthorized" 401, db)
  /\ (Js.truthy taskName = false ->
      create (Some s) date taskName plan result now id createdNow db
      = (fail "Task name is required" 400, db))
  /\ (Js.truthy taskName = true -> Js.truthy date = true ->
      newDate (text date) = None ->
      create (Some s) date taskName plan result now id createdNow db
      = (fail "Internal server error" 500, db))
  /\ (forall d,
      Prisma.findUnique User.id (Auth.userId s) (users db) <> None ->
      Js.truthy taskName = true ->
      (if Js.truthy date then newDate (text date) else Some now) = Some d ->
      exists task db',
        create (Some s) date taskName plan result now id createdNow db
        = (ok task 201, db')
        /\ Task.userId task = Auth.userId s
        /\ Task.date task = d
        /\ Task.taskName task = text taskName
        /\ Task.plan task = match plan with Some p => p | None => EmptyString end
        /\ Task.result task
           = match result with Some p => p | None => EmptyString end
        /\ Task.id task = id
        /\ tasks db' = tasks db ++ [task]
        /\ users db' = users db /\ reports db' = reports db
        /\ (~ In id (map Task.id (tasks db)) ->
            Prisma.findUnique Task.id id (tasks db') = Some task
            /\ forall m, m <> id ->
                 Prisma.findUnique Task.id m (tasks db')
                 = Prisma.findUnique Task.id m (tasks db))).
Proof.
  split; [reflexivity|]. split; [|split].
  - intro Hname. unfold TaskCreate.POST. rewrite Hname. reflexivity.
  - intros Hname Hdate Ht. unfold TaskCreate.POST.
    rewrite Hname, Hdate, Ht. reflexivity.
  - intros d _ Hname Hd.
    rewrite (create_run s date taskName plan result now id createdNow d db
               Hname Hd).
    eexists; eexists; split; [reflexivity|].
    cbn [Task.userId Task.date Task.taskName Task.plan Task.result Task.id
         with_tasks tasks users reports].
    do 3 (split; [reflexivity|]).
    split. { unfold TaskCreate.orEmpty, Js.truthy, text.
             destruct plan as [p | ]; [|reflexivity].
             destruct (String.eqb_spec p ""); [subst|]; reflexivity. }
    split. { unfold TaskCreate.orEmpty, Js.truthy, text.
             destruct result as [p | ]; [|reflexivity].
             destruct (String.eqb_spec p ""); [subst|]; reflexivity. }
    do 4 (split; [reflexivity|]).
    intro Hfresh. split.
    + match goal with
      | |- _ = Some ?t => exact (findUnique_app_fresh (tasks db) t Hfresh)
      end.
    + intros m Hm.
      match goal with
      | |- context [tasks db ++ [?t]] =>
          exact (findUnique_app_other (tasks db) t m Hm)
      end.
Qed.

(** A task that passes the [where] clause of a query is in its result. *)
Lemma findMany_holds (w : TasksRoute.WhereClause) (db : Db)
  (l : list (Task.t * UserRef)) (task : Task.t) :
  TasksRoute.findMany w db = Some l ->
  In task (tasks db) ->
  match TasksRoute.where_userId w with
  | None => True
  | Some n => n = Some (Task.userId task)
  end ->
  match TasksRoute.where_date w with
  | None => True
  | Some (gte, lt) =>
      exists a b, gte = Some a /\ lt = Some b /\ a <= Task.date task < b
  end ->
  In task (map fst l).
Proof.
  intros Hfind Hin Hu Hd. unfold TasksRoute.findMany in Hfind.
  destruct (match TasksRoute.where_userId w with
            | Some n => u <- number n ;; ret (fun i : Z => i =? u)
            | None => ret (fun _ : Z => true)
            end) as [byUser | ] eqn:HbyUser; [|discriminate].
  cbn [bind] in Hfind.
  destruct (match TasksRoute.where_date w with
            | Some (gte, lt) => Prisma.gte_lt gte lt
            | None => ret (fun _ : Z => true)
            end) as [byDate | ] eqn:HbyDate; [|discriminate].
  cbn [bind] in Hfind.
  rewrite (TaskFacts.includeUser_rows _ _ _ Hfind).
  apply (Permutation_in _ (Permutation_sym
                             (OrderFacts.orderByAsc_perm Task.createdAt _))).
  apply filter_In. split; [exact Hin|]. apply andb_true_iff. split.
  - destruct (TasksRoute.where_userId w) as [n | ].
    + subst n. unfold number in HbyUser.
      destruct (fitsInt (Task.userId task)); [|discriminate].
      cbn [bind ret] in HbyUser. injection HbyUser as <-. apply Z.eqb_refl.
    + injection HbyUser as <-. reflexivity.
  - destruct (TasksRoute.where_date w) as [[gte lt] | ].
    + destruct Hd as (a & b & -> & -> & Hab).
      cbn [Prisma.gte_lt ret] in HbyDate. injection HbyDate as <-.
      apply andb_true_iff. split; [apply Z.leb_le|apply Z.ltb_lt]; lia.
    + injection HbyDate as <-. reflexivity.
Qed.

(** X15: a task created for a date counts for that date.  After a user
    with a row creates a task with a date that parses, a submit call of
    that user for the same date made by the handler's deadline is
    accepted, and a task list for the same date that is answered to that
    user (to a session that is no admin's, or an admin's that gives no
    [userId] parameter or its own id) holds the task, in a zone where the
    same local time on the next day is a later instant. *)
Theorem created_task_counts (s : Auth.SessionPayload)
  (date taskName plan result : option string) (now id createdNow t : Z)
  (db : Db) :
  Spec.ReportsOk zone db ->
  Prisma.findUnique User.id (Auth.userId s) (users db) <> None ->
  Js.truthy taskName = true ->
  Js.truthy date = true -> newDate (text date) = Some t ->
  exists task db',
    create (Some s) date taskName plan result now id createdNow db
    = (ok task 201, db')
    /\ (forall submitAt submitNow,
        submitAt <= Spec.deadline zone t ->
        exists r db'',
          ReportsRoute.POST zone newDate (Some s) date submitAt submitNow db'
          = (json (report_of r) 201, db''))
    /\ (forall userId l,
        t < Spec.nextDay zone t ->
        Auth.role s <> "admin"%string
        \/ Js.truthy userId = false
        \/ parseInt (text userId) = Some (Auth.userId s) ->
        fst (GET (Some s) date userId db') = json (tasks_of l) 200 ->
        In task (map fst l)).
Proof.
  intros Hok _ Hname Hdate Ht.
  assert ((if Js.truthy date then newDate (text date) else Some now) = Some t)
    as Hd by (rewrite Hdate; exact Ht).
  rewrite (create_run s date taskName plan result now id createdNow t db
             Hname Hd).
  eexists; eexists; split; [reflexivity|].
  set (task := {| Task.id := id; Task.date := t;
                  Task.taskName := text taskName;
                  Task.plan := TaskCreate.orEmpty plan;
                  Task.result := TaskCreate.orEmpty result;
                  Task.userId := Auth.userId s;
                  Task.createdAt := createdNow |}).
  split.
  - intros submitAt submitNow Hwin.
    assert (Spec.ReportsOk zone (with_tasks db (tasks db ++ [task]))) as Hok'.
    { apply (PortalFacts.ReportsOk_same zone db); [split; reflexivity|exact Hok]. }
    destruct (ReportFacts.POST_accepted zone regular newDate s date t submitAt
                submitNow (with_tasks db (tasks db ++ [task])) Hok' Hdate Ht
                Hwin)
      as (r & db'' & Hrun & _).
    + unfold Spec.tasksOf. cbn [with_tasks tasks]. rewrite filter_app.
      cbn [filter]. unfold Spec.onDay at 2.
      cbn [Task.userId Task.date task]. rewrite !Z.eqb_refl. cbn [andb].
      intro H. apply app_eq_nil in H. destruct H as [_ H]. discriminate.
    + exists r, db''. exact Hrun.
  - intros userId l Hnext Hwho. unfold TasksRoute.GET. rewrite Hdate, Ht.
    match goal with
    | |- context [TasksRoute.findMany ?w ?d] =>
        destruct (TasksRoute.findMany w d) as [l' | ] eqn:Hfind
    end; cbn [bind ret try_catch fst]; [|discriminate].
    intro H. injection H as <-.
    apply (findMany_holds _ _ _ task Hfind).
    + cbn [with_tasks tasks]. apply in_or_app. right. left. reflexivity.
    + cbn [TasksRoute.where_userId Task.userId task].
      destruct (String.eqb_spec (Auth.role s) "admin") as [Hadmin | Hother].
      * destruct Hwho as [Hno | [Hno | Hown]]; [contradiction| |].
        -- rewrite Hno. cbn [andb]. rewrite Hadmin. exact I.
        -- cbn [andb]. destruct (Js.truthy userId).
           ++ f_equal. exact Hown.
           ++ rewrite Hadmin. exact I.
      * cbn [andb]. destruct (Auth.role s =? "staff")%string; [reflexivity|].
        exact I.
    + cbn [TasksRoute.where_date JsDate.nextDate option_map Task.date task].
      exists t, (Spec.nextDay zone t).
      split; [reflexivity|]. split; [reflexivity|]. lia.
Qed.

(** X16: deleting a task.  When the owner or an admin deletes an existing
    task, no task is found under the id afterwards, every other lookup is
    as before, users and reports are untouched, and a second delete or an
    update of the id is answered NotFound. *)
Theorem task_delete (s : Auth.SessionPayload) (id : string) (n : Z)
  (taskName plan result : TaskIdRoute.Field) (t : Task.t) (db : Db) :
  parseInt id = Some n -> fitsInt n = true ->
  Prisma.findUnique Task.id n (tasks db) = Some t ->
  Auth.role s = "admin"%string \/ Task.userId t = Auth.userId s ->
  exists db',
    DELETE (Some s) id db = (json success 200, db')
    /\ Prisma.findUnique Task.id n (tasks db') = None
    /\ (forall m, m <> n ->
        Prisma.findUnique Task.id m (tasks db')
        = Prisma.findUnique Task.id m (tasks db))
    /\ users db' = users db /\ reports db' = reports db
    /\ DELETE (Some s) id db' = (Spec.TaskNotFound, db')
    /\ PUT (Some s) id (Some (taskName, plan, result)) db'
       = (Spec.TaskNotFound, db').
Proof.
  intros Hid Hfit Hfind Hauth.
  exists (with_tasks db (filter (fun x => negb (Task.id x =? n)) (tasks db))).
  split.
  { unfold TaskIdRoute.DELETE. rewrite Hid, (TaskFacts.number_Int n Hfit).
    cbn [bind].
    rewrite Hfind, (TaskFacts.owner_or_admin s t Hauth).
    unfold Prisma.delete. rewrite Hfind. reflexivity. }
  cbn [with_tasks tasks users reports].
  split; [apply findUnique_removed|].
  split; [intros m Hm; apply findUnique_kept; exact Hm|].
  split; [reflexivity|]. split; [reflexivity|].
  unfold TaskIdRoute.DELETE, TaskIdRoute.PUT.
  rewrite Hid. cbn [bind]. rewrite (TaskFacts.number_Int n Hfit). cbn [bind].
  cbn [with_tasks tasks]. rewrite findUnique_removed. split; reflexivity.
Qed.

(** X17: the task list.  When GET answers a list, its tasks are the tasks
    of the store that pass the filter, each once, in the order of their
    creation, each with the selected fields of its user.  The filter on
    the user is the [userId] parameter for an admin who gives one, the
    session's user for staff, and none otherwise (an admin who gives no
    parameter, or a role that is neither admin nor staff); the filter on
    the date, when there is a [date] parameter, is from the instant it
    parses to up to, and without, the same local time on the next
    calendar day. *)
Theorem task_list (s : Auth.SessionPayload) (dateStr userId : option string)
  (who day : option Z) (db : Db) (l : list (Task.t * UserRef)) :
  (Auth.role s = "admin"%string /\ Js.truthy userId = true
   /\ parseInt (text userId) = who /\ who <> None)
  \/ (Auth.role s = "admin"%string /\ Js.truthy userId = false /\ who = None)
  \/ (Auth.role s = "staff"%string /\ who = Some (Auth.userId s))
  \/ (Auth.role s <> "admin"%string /\ Auth.role s <> "staff"%string
      /\ who = None) ->
  (Js.truthy dateStr = false /\ day = None)
  \/ (Js.truthy dateStr = true /\ newDate (text dateStr) = day /\ day <> None) ->
  fst (GET (Some s) dateStr userId db) = json (tasks_of l) 200 ->
  Permutation (map fst l)
    (filter (fun t =>
               match who with
               | Some u => Task.userId t =? u
               | None => true
               end
               && match day with
                  | Some d =>
                      (d <=? Task.date t) && (Task.date t <? Spec.nextDay zone d)
                  | None => true
                  end) (tasks db))
  /\ StronglySorted (fun a b => Task.createdAt a <= Task.createdAt b) (map fst l)
  /\ Forall (fun row =>
               exists u,
                 Prisma.findUnique User.id (Task.userId (fst row)) (users db)
                 = Some u
                 /\ snd row = {| ref_id := User.id u;
                                 ref_username := User.username u;
                                 ref_position := User.position u |}) l.
Proof.
  intros Hwho Hday. unfold TasksRoute.GET.
  assert ((if (Auth.role s =? "admin")%string && Js.truthy userId
           then Some (parseInt (text userId))
           else if (Auth.role s =? "staff")%string
                then Some (Some (Auth.userId s)) else None)
          = match who with Some u => Some (Some u) | None => None end) as ->.
  { destruct Hwho as [(Hr & Hu & Hp & Hn) | [(Hr & Hu & ->) | [(Hr & ->)
                     | (Hr1 & Hr2 & ->)]]].
    - rewrite Hr, Hu, Hp. cbn. destruct who; [reflexivity|contradiction].
    - rewrite Hr, Hu. reflexivity.
    - rewrite Hr. reflexivity.
    - destruct (String.eqb_spec (Auth.role s) "admin"); [contradiction|].
      destruct (String.eqb_spec (Auth.role s) "staff"); [contradiction|].
      reflexivity. }
  assert ((if Js.truthy dateStr
           then Some (newDate (text dateStr),
                      JsDate.nextDate zone (newDate (text dateStr)))
           else None)
          = match day with
            | Some d => Some (Some d, Some (Spec.nextDay zone d))
            | None => None
            end) as ->.
  { destruct Hday as [(Hd & ->) | (Hd & Hp & Hn)].
    - rewrite Hd. reflexivity.
    - rewrite Hd, Hp. destruct day; [reflexivity|contradiction]. }
  unfold TasksRoute.findMany.
  cbn [TasksRoute.where_userId TasksRoute.where_date].
  destruct who as [u | ], day as [d | ];
    unfold number; try destruct (fitsInt u);
    cbn [bind ret throw try_catch fst Prisma.gte_lt]; try discriminate;
    (destruct (TasksRoute.includeUser (users db) _) as [l' | ] eqn:Hinc;
     cbn [bind ret try_catch fst]; [|discriminate]);
    intro H; injection H as <-;
    destruct (includeUser_refs _ _ _ Hinc) as [Hrows Hrefs];
    rewrite Hrows;
    (split; [apply OrderFacts.orderByAsc_perm|]);
    (split; [apply OrderFacts.orderByAsc_sorted|exact Hrefs]).
Qed.

End Handlers.

(** Alice creates a task for 2024-06-02 and leaves plan and result out. *)
Lemma task_create_witness :
  exists task db',
    TaskCreate.POST Fixture.newDate (Some Fixture.alice)
      (Some "2024-06-02"%string) (Some "Plan campaign"%string) None None
      (Fixture.june1 + 500) 3 (Fixture.june1 + 500) Fixture.db0
    = (ok task 201, db')
    /\ Task.userId task = Auth.userId Fixture.alice
    /\ Task.plan task = EmptyString
    /\ Prisma.findUnique Task.id 3 (tasks db') = Some task.
Proof.
  destruct (proj2 (proj2 (proj2
              (task_create Fixture.newDate Fixture.alice
                 (Some "2024-06-02"%string) (Some "Plan campaign"%string)
                 None None (Fixture.june1 + 500) 3 (Fixture.june1 + 500)
                 Fixture.db0)))
              (Fixture.june1 + 86400000)
              ltac:(vm_compute; discriminate) eq_refl eq_refl)
    as (task & db' & Hrun & Hu & _ & _ & Hp & _ & _ & _ & _ & _ & Hfresh).
  exists task, db'. split; [exact Hrun|]. split; [exact Hu|].
  split; [exact Hp|]. apply Hfresh.
  vm_compute. intros [H | [H | []]]; discriminate.
Defined.

(** Alice creates a task for 2024-06-02, then submits that day and lists
    its tasks. *)
Lemma created_task_counts_witness :
  exists task db',
    TaskCreate.POST Fixture.newDate (Some Fixture.alice)
      (Some "2024-06-02"%string) (Some "Plan campaign"%string) None None
      (Fixture.june1 + 500) 3 (Fixture.june1 + 500) Fixture.db0
    = (ok task 201, db')
    /\ (exists r db'',
         ReportsRoute.POST Fixture.zone Fixture.newDate (Some Fixture.alice)
           (Some "2024-06-02"%string) (Fixture.june1 + 2000)
           (Fixture.june1 + 2001) db'
         = (json (report_of r) 201, db''))
    /\ (forall l,
         fst (TasksRoute.GET Fixture.zone Fixture.newDate Fixture.parseInt
                (Some Fixture.alice) (Some "2024-06-02"%string) None db')
         = json (tasks_of l) 200 ->
         In task (map fst l)).
Proof.
  destruct (created_task_counts Fixture.zone DateFacts.Regular_zone
              Fixture.newDate Fixture.parseInt
              Fixture.alice (Some "2024-06-02"%string)
              (Some "Plan campaign"%string) None None (Fixture.june1 + 500) 3
              (Fixture.june1 + 500) (Fixture.june1 + 86400000) Fixture.db0
              (ReportFacts.ReportsOk_start Fixture.zone Fixture.db0 eq_refl)
              ltac:(vm_compute; discriminate) eq_refl eq_refl eq_refl)
    as (task & db' & Hrun & Hsubmit & Hlist).
  exists task, db'. split; [exact Hrun|]. split.
  - apply Hsubmit. vm_compute. discriminate.
  - intro l. apply Hlist.
    + vm_compute. reflexivity.
    + left. vm_compute. discriminate.
Defined.

(** Alice deletes her task. *)
Lemma task_delete_witness :
  exists db',
    TaskIdRoute.DELETE Fixture.parseInt (Some Fixture.alice) "1" Fixture.db0
    = (json success 200, db')
    /\ Prisma.findUnique Task.id 1 (tasks db') = None
    /\ (forall m, m <> 1 ->
        Prisma.findUnique Task.id m (tasks db')
        = Prisma.findUnique Task.id m (tasks Fixture.db0))
    /\ users db' = users Fixture.db0 /\ reports db' = reports Fixture.db0
    /\ TaskIdRoute.DELETE Fixture.parseInt (Some Fixture.alice) "1" db'
       = (Spec.TaskNotFound, db')
    /\ TaskIdRoute.PUT Fixture.parseInt (Some Fixture.alice) "1"
         (Some (TaskIdRoute.undefined, TaskIdRoute.undefined,
                TaskIdRoute.str "done"))
         db'
       = (Spec.TaskNotFound, db').
Proof.
  apply (task_delete Fixture.parseInt Fixture.alice "1" 1
           TaskIdRoute.undefined TaskIdRoute.undefined (TaskIdRoute.str "done")
           Fixture.writeCopy Fixture.db0).
  - reflexivity.
  - reflexivity.
  - reflexivity.
  - right. reflexivity.
Defined.

(** The admin lists Bob's tasks of 2024-06-01 on a server at UTC+7, and
    the tasks of 2024-11-03 on a server in the eastern zone, where that
    day has 25 hours. *)
Lemma task_list_witness :
  (let l := [(Fixture.buyMedia,
              {| ref_id := 3; ref_username := "bob";
                 ref_position := Some "graphic_design"%string |})] in
   Permutation (map fst l)
     (filter (fun t => (Task.userId t =? 3)
                       && ((Fixture.june1 <=? Task.date t)
                           && (Task.date t
                               <? Spec.nextDay Fixture.zone Fixture.june1)))
        (tasks Fixture.db0))
   /\ StronglySorted (fun a b => Task.createdAt a <= Task.createdAt b)
        (map fst l)
   /\ Forall (fun row =>
                exists u,
                  Prisma.findUnique User.id (Task.userId (fst row))
                    (users Fixture.db0) = Some u
                  /\ snd row = {| ref_id := User.id u;
                                  ref_username := User.username u;
                                  ref_position := User.position u |}) l)
  /\ Spec.nextDay Fixture.eastern 1730592000000 = 1730592000000 + 25 * 3600000
  /\ (let l := [(Fixture.planCampaign,
                 {| ref_id := 2; ref_username := "alice";
                    ref_position := Some "media_buyer"%string |})] in
      Permutation (map fst l)
        (filter (fun t => true
                          && ((1730592000000 <=? Task.date t)
                              && (Task.date t
                                  <? Spec.nextDay Fixture.eastern
                                       1730592000000)))
           (tasks Fixture.db_nov))).
Proof.
  split; [|split].
  - intro l.
    apply (task_list Fixture.zone Fixture.newDate Fixture.parseInt
             Fixture.admin
             (Some "2024-06-01"%string) (Some "3"%string) (Some 3)
             (Some Fixture.june1) Fixture.db0 l).
    + left. repeat split; try reflexivity. discriminate.
    + right. repeat split; try reflexivity. discriminate.
    + reflexivity.
  - reflexivity.
  - intro l.
    apply (task_list Fixture.eastern Fixture.newDate Fixture.parseInt
             Fixture.admin
             (Some "2024-11-03"%string) None None
             (Some 1730592000000) Fixture.db_nov l).
    + right. left. repeat split; reflexivity.
    + right. repeat split; try reflexivity. discriminate.
    + reflexivity.
Defined.

End TaskMoreFacts.

(** ** More on staff accounts *)

Module StaffMoreFacts.

Lemma find_none_existsb {A} (P : A -> bool) (l : list A) :
  find P l = None -> existsb P l = false.
Proof.
  induction l as [|x l IH]; [reflexivity|]. cbn [find existsb].
  destruct (P x); [discriminate|exact IH].
Qed.

Lemma find_absent {A} (P : A -> bool) (l : list A) :
  (forall x, In x l -> P x = false) -> find P l = None.
Proof.
  induction l as [|x l IH]; intro H; [reflexivity|]. cbn [find].
  rewrite (H x (or_introl eq_refl)). apply IH.
  intros y Hy. apply H. right. exact Hy.
Qed.

Lemma NoDup_map_filter {A B} (f : A -> B) (P : A -> bool) (l : list A) :
  NoDup (map f l) -> NoDup (map f (filter P l)).
Proof.
  induction l as [|x l IH]; intro H; [constructor|].
  cbn [map] in H. inversion H as [|y ys Hnotin Hnd]; subst.
  cbn [filter]. destruct (P x); [|exact (IH Hnd)].
  cbn [map]. constructor; [|exact (IH Hnd)].
  intro Hin. apply Hnotin. apply in_map_iff in Hin.
  destruct Hin as (z & Hz & Hin). apply filter_In in Hin.
  rewrite <- Hz. apply in_map. exact (proj1 Hin).
Qed.

(** An update by id, when ids are distinct, rewrites one row. *)
Lemma map_untouched (n : Z) (f : User.t -> User.t) (rows : list User.t) :
  ~ In n (map User.id rows) ->
  map (fun u => if User.id u =? n then f u else u) rows = rows.
Proof.
  induction rows as [|x rows IH]; intro H; [reflexivity|].
  cbn [map]. destruct (Z.eqb_spec (User.id x) n) as [Heq | _].
  - exfalso. apply H. left. exact Heq.
  - rewrite IH; [reflexivity|]. intro Hin. apply H. right. exact Hin.
Qed.

Lemma renamed_names_distinct (n : Z) (username : string)
  (password : option string) (position : string) (rows : list User.t) :
  NoDup (map User.id rows) -> NoDup (map User.username rows) ->
  (forall x, In x rows -> User.username x = username -> User.id x = n) ->
  NoDup (map User.username
           (map (fun u => if User.id u =? n
                          then StaffSpec.renamed username password position u
                          else u) rows)).
Proof.
  induction rows as [|x rows IH]; intros Hids Hnames Hown; [constructor|].
  cbn [map] in Hids, Hnames |- *.
  inversion Hids as [|i ids' Hi Hids']; subst.
  inversion Hnames as [|m ms Hm Hnames']; subst.
  assert (forall y, In y rows -> User.username y = username -> User.id y = n)
    as Hown' by (intros y Hy; apply Hown; right; exact Hy).
  destruct (Z.eqb_spec (User.id x) n) as [Heq | Hne].
  - subst n. rewrite (map_untouched _ _ rows Hi).
    cbn [StaffSpec.renamed User.username]. constructor; [|exact Hnames'].
    intro Hin. apply in_map_iff in Hin. destruct Hin as (y & Hy & Hin).
    apply Hi. rewrite <- (Hown' y Hin Hy). apply in_map. exact Hin.
  - constructor; [|exact (IH Hids' Hnames' Hown')].
    intro Hin. apply in_map_iff in Hin. destruct Hin as (y' & Hy' & Hin).
    apply in_map_iff in Hin. destruct Hin as (y & Hy & Hin). subst y'.
    destruct (User.id y =? n).
    + cbn [StaffSpec.renamed User.username] in Hy'.
      apply Hne. apply Hown; [left; reflexivity|]. symmetry. exact Hy'.
    + apply Hm. rewrite <- Hy'. apply in_map. exact Hin.
Qed.

(** An update of a staff row does not show among the other accounts. *)
Lemma others_renamed (n : Z) (f : User.t -> User.t) (rows : list User.t) :
  (forall x, User.role (f x) = User.role x) ->
  (forall x, In x rows -> User.id x = n -> User.role x = "staff"%string) ->
  StaffSpec.others (map (fun u => if User.id u =? n then f u else u) rows)
  = StaffSpec.others rows.
Proof.
  intros Hrole Hstaff. unfold StaffSpec.others.
  induction rows as [|x rows IH]; [reflexivity|].
  cbn [map filter].
  rewrite IH by (intros y Hy; apply Hstaff; right; exact Hy).
  destruct (Z.eqb_spec (User.id x) n) as [Heq | _]; [|reflexivity].
  rewrite Hrole, (Hstaff x (or_introl eq_refl) Heq). reflexivity.
Qed.

Lemma others_removed (n : Z) (rows : list User.t) :
  (forall x, In x rows -> User.id x = n -> User.role x = "staff"%string) ->
  StaffSpec.others (filter (fun u => negb (User.id u =? n)) rows)
  = StaffSpec.others rows.
Proof.
  intros Hstaff. unfold StaffSpec.others.
  induction rows as [|x rows IH]; [reflexivity|].
  cbn [filter].
  specialize (IH (fun y Hy => Hstaff y (or_intror Hy))).
  destruct (Z.eqb_spec (User.id x) n) as [Heq | _]; cbn [negb filter].
  - rewrite (Hstaff x (or_introl eq_refl) Heq). exact IH.
  - rewrite IH. reflexivity.
Qed.

(** With distinct ids, the rows of an id are the row that a lookup finds. *)
Lemma rows_of_id (rows : list User.t) (n : Z) (u : User.t) :
  NoDup (map User.id rows) ->
  Prisma.findUnique User.id n rows = Some u ->
  forall x, In x rows -> User.id x = n -> x = u.
Proof.
  intros Hnd Hfind x Hin Hx.
  rewrite <- Hx in Hfind.
  rewrite (TableFacts.findUnique_row User.id rows x Hnd Hin) in Hfind.
  congruence.
Qed.

Section Handlers.

Variable parseInt : string -> option Z.
Variable bcrypt_hash : string -> string.

Local Abbreviation GET := StaffRoute.GET.
Local Abbreviation POST := (StaffRoute.POST bcrypt_hash).
Local Abbreviation PUT := (StaffIdRoute.PUT parseInt bcrypt_hash).
Local Abbreviation DELETE := (StaffIdRoute.DELETE parseInt).

(** X18: without a session, or with a session whose role is not admin, the
    four staff handlers answer 401 and leave the store as it was, whatever
    the rest of the request. *)
Theorem staff_requires_admin (session : option Auth.SessionPayload)
  (id : string) (username password position : option string)
  (newId createdNow : Z) (db : Db) :
  session = None
  \/ (exists s, session = Some s /\ Auth.role s <> "admin"%string) ->
  GET session db = fail "Unauthorized" 401
  /\ POST session username password position newId createdNow db
     = (fail "Unauthorized" 401, db)
  /\ PUT session id username password position db = (Spec.Unauthorized, db)
  /\ DELETE session id db = (Spec.Unauthorized, db).
Proof.
  intro H.
  assert (StaffIdRoute.notAdmin session = true) as Hna.
  { destruct H as [-> | (s & -> & Hrole)]; [reflexivity|].
    unfold StaffIdRoute.notAdmin.
    destruct (String.eqb_spec (Auth.role s) "admin"); [contradiction|reflexivity]. }
  unfold StaffRoute.GET, StaffRoute.POST, StaffIdRoute.PUT, StaffIdRoute.DELETE.
  rewrite Hna. repeat split; reflexivity.
Qed.

(** The row that POST writes. *)
Lemma staff_POST_run (s : Auth.SessionPayload)
  (username password position : option string) (id createdNow : Z) (db : Db) :
  Auth.role s = "admin"%string ->
  Js.truthy username = true -> Js.truthy password = true ->
  Js.truthy position = true ->
  (forall u, In u (users db) -> User.username u <> text username) ->
  let newStaff := {| User.id := id;
                     User.username := text username;
                     User.password := bcrypt_hash (text password);
                     User.role := "staff";
                     User.position := Some (text position);
                     User.createdAt := createdNow |} in
  POST (Some s) username password position id createdNow db
  = (ok (StaffRoute.view newStaff) 201, with_users db (users db ++ [newStaff])).
Proof.
  intros Hadmin Hu Hp Hpos Hfree newStaff. unfold StaffRoute.POST.
  rewrite (StaffFacts.notAdmin_admin s Hadmin), Hu, Hp, Hpos. cbn [negb orb].
  assert (find (fun u => (User.username u =? text username)%string) (users db)
          = None) as Hnone.
  { apply find_absent. intros u Hin.
    destruct (String.eqb_spec (User.username u) (text username));
      [|reflexivity].
    exfalso. exact (Hfree u Hin e). }
  unfold Prisma.findFirst. rewrite Hnone.
  unfold StaffRoute.createUser. cbn [User.username].
  rewrite (find_none_existsb _ _ Hnone). reflexivity.
Qed.

(** X19: creating a staff user, by an admin.  A request without username,
    password or position is answered 400; a username that a user already
    has is answered 400 and no row is created.  Otherwise the answer is
    201: the new row has the role staff, holds the hash of the password
    and the given position; the rows that were there are as before, and
    the staff list afterwards is the list before followed by the new
    account. *)
Theorem staff_create (s : Auth.SessionPayload)
  (username password position : option string) (id createdNow : Z) (db : Db) :
  Auth.role s = "admin"%string ->
  (Js.truthy username && Js.truthy password && Js.truthy position = false ->
   POST (Some s) username password position id createdNow db
   = (fail "Username, password, and position are required" 400, db))
  /\ (forall u,
      Js.truthy username && Js.truthy password && Js.truthy position = true ->
      In u (users db) -> User.username u = text username ->
      POST (Some s) username password position id createdNow db
      = (fail "Username already exists" 400, db))
  /\ (Js.truthy username && Js.truthy password && Js.truthy position = true ->
      (forall u, In u (users db) -> User.username u <> text username) ->
      exists newStaff db',
        POST (Some s) username password position id createdNow db
        = (ok (StaffRoute.view newStaff) 201, db')
        /\ newStaff = {| User.id := id;
                         User.username := text username;
                         User.password := bcrypt_hash (text password);
                         User.role := "staff";
                         User.position := Some (text position);
                         User.createdAt := createdNow |}
        /\ users db' = users db ++ [newStaff]
        /\ tasks db' = tasks db /\ reports db' = reports db
        /\ forall staffList,
             GET (Some s) db = ok staffList 200 ->
             GET (Some s) db' = ok (staffList ++ [StaffRoute.view newStaff]) 200).
Proof.
  intro Hadmin. split; [|split].
  - intro H. unfold StaffRoute.POST.
    rewrite (StaffFacts.notAdmin_admin s Hadmin).
    destruct (Js.truthy username), (Js.truthy password), (Js.truthy position);
      try discriminate; reflexivity.
  - intros u H Hin Hname. unfold StaffRoute.POST.
    rewrite (StaffFacts.notAdmin_admin s Hadmin).
    apply andb_true_iff in H. destruct H as [H Hpos].
    apply andb_true_iff in H. destruct H as [Hu Hp].
    rewrite Hu, Hp, Hpos. cbn [negb orb]. unfold Prisma.findFirst.
    destruct (find _ (users db)) as [x | ] eqn:Hfind; [reflexivity|].
    exfalso. apply (find_none _ _ Hfind u) in Hin.
    rewrite Hname, String.eqb_refl in Hin. discriminate.
  - intros H Hfree.
    apply andb_true_iff in H. destruct H as [H Hpos].
    apply andb_true_iff in H. destruct H as [Hu Hp].
    rewrite (staff_POST_run s username password position id createdNow db Hadmin
               Hu Hp Hpos Hfree).
    eexists; eexists; split; [reflexivity|]. split; [reflexivity|].
    cbn [with_users users tasks reports].
    do 3 (split; [reflexivity|]).
    intros staffList. unfold StaffRoute.GET.
    rewrite (StaffFacts.notAdmin_admin s Hadmin).
    cbn [ret try_read with_users users].
    intro Hl. injection Hl as <-.
    rewrite filter_app, map_app. reflexivity.
Qed.


(** What an update call leaves in the user table: the table as it was, or
    the table with the row of a staff user renamed to a username that no
    other user has. *)
Lemma PUT_users (session : option Auth.SessionPayload) (id : string)
  (username password position : option string) (db : Db) :
  let db' := snd (PUT session id username password position db) in
  users db' = users db
  \/ exists n u pw,
       parseInt id = Some n
       /\ Prisma.findUnique User.id n (users db) = Some u
       /\ User.role u = "staff"%string
       /\ (forall x, In x (users db) -> User.username x = text username ->
           User.id x = n)
       /\ users db'
          = map (fun x => if User.id x =? n
                          then StaffSpec.renamed (text username) pw
                                 (text position) x
                          else x) (users db).
Proof.
  cbn zeta. unfold StaffIdRoute.PUT.
  destruct (StaffIdRoute.notAdmin session); [left; reflexivity|].
  destruct (negb (Js.truthy username) || negb (Js.truthy position));
    [left; reflexivity|].
  destruct (parseInt id) as [n | ]; unfold number; [|left; reflexivity].
  destruct (fitsInt n); cbn [bind ret throw]; [|left; reflexivity].
  destruct (Prisma.findUnique User.id n (users db)) as [u | ] eqn:Hfind;
    [|left; reflexivity].
  cbn [StaffIdRoute.notStaff].
  destruct (String.eqb_spec (User.role u) "staff") as [Hrole | _];
    cbn [negb]; [|left; reflexivity].
  destruct (Prisma.findFirst _ (users db)) as [x | ] eqn:Htaken;
    [left; reflexivity|].
  unfold Prisma.findFirst in Htaken.
  unfold StaffIdRoute.updateUser. rewrite (find_none_existsb _ _ Htaken).
  unfold Prisma.update. rewrite Hfind. cbn [bind ret try_catch snd with_users users].
  right. exists n, u. eexists. split; [reflexivity|].
  split; [exact Hfind|]. split; [exact Hrole|]. split; [|reflexivity].
  intros x Hin Hname. apply (find_none _ _ Htaken x) in Hin.
  rewrite Hname, String.eqb_refl in Hin. cbn [andb] in Hin.
  destruct (Z.eqb_spec (User.id x) n); [assumption|discriminate].
Qed.

Lemma DELETE_users (session : option Auth.SessionPayload) (id : string)
  (db : Db) :
  let db' := snd (DELETE session id db) in
  users db' = users db
  \/ exists n u,
       parseInt id = Some n
       /\ Prisma.findUnique User.id n (users db) = Some u
       /\ User.role u = "staff"%string
       /\ users db' = filter (fun x => negb (User.id x =? n)) (users db).
Proof.
  cbn zeta. unfold StaffIdRoute.DELETE.
  destruct (StaffIdRoute.notAdmin session); [left; reflexivity|].
  destruct (parseInt id) as [n | ]; unfold number; [|left; reflexivity].
  destruct (fitsInt n); cbn [bind ret throw]; [|left; reflexivity].
  destruct (Prisma.findUnique User.id n (users db)) as [u | ] eqn:Hfind;
    [|left; reflexivity].
  cbn [StaffIdRoute.notStaff].
  destruct (String.eqb_spec (User.role u) "staff") as [Hrole | _];
    cbn [negb]; [|left; reflexivity].
  unfold Prisma.delete. rewrite Hfind. cbn [bind ret try_catch snd with_users users].
  right. exists n, u. split; [reflexivity|]. split; [exact Hfind|].
  split; [exact Hrole|reflexivity].
Qed.

Lemma POST_users (session : option Auth.SessionPayload)
  (username password position : option string) (id createdNow : Z) (db : Db) :
  let db' := snd (POST session username password position id createdNow db) in
  users db' = users db
  \/ exists newStaff,
       User.id newStaff = id
       /\ User.role newStaff = "staff"%string
       /\ (forall x, In x (users db) ->
           User.username x <> User.username newStaff)
       /\ users db' = users db ++ [newStaff].
Proof.
  cbn zeta. unfold StaffRoute.POST.
  destruct (StaffIdRoute.notAdmin session); [left; reflexivity|].
  destruct (negb (Js.truthy username) || negb (Js.truthy password)
            || negb (Js.truthy position)); [left; reflexivity|].
  destruct (Prisma.findFirst _ (users db)) as [x | ] eqn:Htaken;
    [left; reflexivity|].
  unfold Prisma.findFirst in Htaken. unfold StaffRoute.createUser.
  cbn [User.username]. rewrite (find_none_existsb _ _ Htaken).
  cbn [bind ret try_write snd with_users users].
  right.
  exists {| User.id := id;
            User.username := text username;
            User.password := bcrypt_hash (text password);
            User.role := "staff";
            User.position := Some (text position);
            User.createdAt := createdNow |}.
  split; [reflexivity|]. split; [reflexivity|]. split; [|reflexivity].
  intros x Hin Hname. apply (find_none _ _ Htaken x) in Hin.
  cbn [User.username] in Hname. rewrite Hname, String.eqb_refl in Hin.
  discriminate.
Qed.

(** X20: the staff handlers keep the user table in order.  From a table
    with distinct ids and distinct usernames, a create call (given that the
    assigned id is new), an update call and a delete call, with any
    session and any arguments, leave a table with distinct ids and
    distinct usernames. *)
Theorem staff_keeps_users_in_order (session : option Auth.SessionPayload)
  (id : string) (username password position : option string)
  (newId createdNow : Z) (db : Db) :
  StaffSpec.UsersOk (users db) ->
  (~ In newId (map User.id (users db)) ->
   StaffSpec.UsersOk
     (users (snd (POST session username password position newId createdNow
                    db))))
  /\ StaffSpec.UsersOk
       (users (snd (PUT session id username password position db)))
  /\ StaffSpec.UsersOk (users (snd (DELETE session id db))).
Proof.
  intros [Hids Hnames]. split; [|split].
  - intro Hfresh.
    destruct (POST_users session username password position newId createdNow db)
      as [-> | (newStaff & Hid & _ & Hfree & ->)]; [constructor; assumption|].
    constructor; rewrite map_app; cbn [map].
    + apply NoDup_app; [exact Hids| |].
      * constructor; [intros []|constructor].
      * intros i Hi [<- | []]. rewrite Hid in Hi. exact (Hfresh Hi).
    + apply NoDup_app; [exact Hnames| |].
      * constructor; [intros []|constructor].
      * intros m Hm [<- | []]. apply in_map_iff in Hm.
        destruct Hm as (x & Hx & Hin). exact (Hfree x Hin Hx).
  - destruct (PUT_users session id username password position db)
      as [-> | (n & u & pw & _ & _ & _ & Hown & ->)]; [constructor; assumption|].
    constructor.
    + rewrite map_map.
      rewrite (map_ext _ User.id); [exact Hids|].
      intro x. destruct (User.id x =? n); reflexivity.
    + apply renamed_names_distinct; assumption.
  - destruct (DELETE_users session id db)
      as [-> | (n & u & _ & _ & _ & ->)]; [constructor; assumption|].
    constructor; apply NoDup_map_filter; assumption.
Qed.

(** X21: updating a staff user.  When an admin updates an existing staff
    user with a username that no other user has (the user's own username
    will do) and a position, the answer is the updated account: the new
    username and position, the same id and creation time, still the role
    staff; the password is the hash of the supplied one, and the old one
    when none is supplied; the row is stored under its id and every other
    user is as before. *)
Theorem staff_update (s : Auth.SessionPayload) (id : string) (n : Z)
  (username password position : option string) (u : User.t) (db : Db) :
  Auth.role s = "admin"%string ->
  parseInt id = Some n -> fitsInt n = true ->
  Prisma.findUnique User.id n (users db) = Some u ->
  User.role u = "staff"%string ->
  Js.truthy username = true -> Js.truthy position = true ->
  (forall x, In x (users db) -> User.username x = text username ->
   User.id x = n) ->
  exists u' db',
    PUT (Some s) id username password position db
    = (json (staff_of (StaffRoute.view u')) 200, db')
    /\ User.username u' = text username
    /\ User.position u' = Some (text position)
    /\ User.password u'
       = (if Js.truthy password then bcrypt_hash (text password)
          else User.password u)
    /\ User.role u' = "staff"%string
    /\ User.id u' = User.id u /\ User.createdAt u' = User.createdAt u
    /\ Prisma.findUnique User.id n (users db') = Some u'
    /\ (forall m, m <> n ->
        Prisma.findUnique User.id m (users db')
        = Prisma.findUnique User.id m (users db))
    /\ tasks db' = tasks db /\ reports db' = reports db.
Proof.
  intros Hadmin Hid Hfit Hfind Hrole Hu Hpos Hown.
  set (pw := if Js.truthy password then Some (bcrypt_hash (text password))
             else None).
  assert (PUT (Some s) id username password position db
          = (json (staff_of (StaffRoute.view
                               (StaffSpec.renamed (text username) pw
                                  (text position) u))) 200,
             with_users db
               (map (fun x => if User.id x =? n
                              then StaffSpec.renamed (text username) pw
                                     (text position) x
                              else x) (users db)))) as Hrun.
  { unfold StaffIdRoute.PUT.
    rewrite (StaffFacts.notAdmin_admin s Hadmin), Hu, Hpos, Hid.
    cbn [negb orb]. rewrite (TaskFacts.number_Int n Hfit). cbn [bind].
    rewrite Hfind.
    cbn [StaffIdRoute.notStaff]. rewrite Hrole.
    cbn [String.eqb Ascii.eqb Bool.eqb negb].
    assert (find (fun x => (User.username x =? text username)%string
                           && negb (User.id x =? n)) (users db) = None)
      as Htaken.
    { apply find_absent. intros x Hin.
      destruct (String.eqb_spec (User.username x) (text username)) as [He | _];
        [|reflexivity].
      rewrite (Hown x Hin He), Z.eqb_refl. reflexivity. }
    unfold Prisma.findFirst. rewrite Htaken.
    unfold StaffIdRoute.updateUser. rewrite (find_none_existsb _ _ Htaken).
    unfold Prisma.update. rewrite Hfind. reflexivity. }
  rewrite Hrun. eexists; eexists; split; [reflexivity|].
  cbn [StaffSpec.renamed User.username User.position User.password User.role
       User.id User.createdAt with_users users tasks reports].
  do 2 (split; [reflexivity|]).
  split; [subst pw; destruct (Js.truthy password); reflexivity|].
  split; [exact Hrole|]. do 2 (split; [reflexivity|]).
  split.
  { apply (TableFacts.findUnique_update_same User.id n
             (StaffSpec.renamed (text username) pw (text position))
             (users db) u); [reflexivity|exact Hfind]. }
  split; [|split; reflexivity].
  intros m Hm.
  apply (TableFacts.findUnique_update_other User.id n m
           (StaffSpec.renamed (text username) pw (text position)));
    [reflexivity|exact Hm].
Qed.

(** X22: the staff handlers never touch an account that is not staff.  With
    distinct ids, the accounts whose role is not staff (the admin accounts)
    are the same rows, in the same order, after any create, update or
    delete call of the staff handlers, whatever the session and the
    arguments. *)
Theorem staff_handlers_spare_others (session : option Auth.SessionPayload)
  (id : string) (username password position : option string)
  (newId createdNow : Z) (db : Db) :
  NoDup (map User.id (users db)) ->
  StaffSpec.others
    (users (snd (POST session username password position newId createdNow db)))
  = StaffSpec.others (users db)
  /\ StaffSpec.others
       (users (snd (PUT session id username password position db)))
     = StaffSpec.others (users db)
  /\ StaffSpec.others (users (snd (DELETE session id db)))
     = StaffSpec.others (users db).
Proof.
  intro Hids. split; [|split].
  - destruct (POST_users session username password position newId createdNow db)
      as [-> | (newStaff & _ & Hrole & _ & ->)]; [reflexivity|].
    unfold StaffSpec.others. rewrite filter_app. cbn [filter].
    rewrite Hrole. cbn [String.eqb Ascii.eqb Bool.eqb negb].
    apply app_nil_r.
  - destruct (PUT_users session id username password position db)
      as [-> | (n & u & pw & _ & Hfind & Hrole & _ & ->)]; [reflexivity|].
    apply others_renamed; [reflexivity|].
    intros x Hin Hx. rewrite (rows_of_id _ _ _ Hids Hfind x Hin Hx).
    exact Hrole.
  - destruct (DELETE_users session id db)
      as [-> | (n & u & _ & Hfind & Hrole & ->)]; [reflexivity|].
    apply others_removed.
    intros x Hin Hx. rewrite (rows_of_id _ _ _ Hids Hfind x Hin Hx).
    exact Hrole.
Qed.

End Handlers.

Lemma sample_users_in_order : StaffSpec.UsersOk (users Fixture.db0).
Proof.
  constructor; vm_compute; repeat constructor; cbn; intuition discriminate.
Qed.

(** Alice, staff, calls the staff handlers. *)
Lemma staff_requires_admin_witness :
  StaffRoute.GET (Some Fixture.alice) Fixture.db0 = fail "Unauthorized" 401
  /\ StaffRoute.POST Fixture.bcrypt_hash (Some Fixture.alice)
       (Some "carol"%string) (Some "pw"%string) (Some "media_buyer"%string)
       4 Fixture.june1 Fixture.db0
     = (fail "Unauthorized" 401, Fixture.db0)
  /\ StaffIdRoute.PUT Fixture.parseInt Fixture.bcrypt_hash (Some Fixture.alice)
       "3" (Some "carol"%string) (Some "pw"%string)
       (Some "media_buyer"%string) Fixture.db0
     = (Spec.Unauthorized, Fixture.db0)
  /\ StaffIdRoute.DELETE Fixture.parseInt (Some Fixture.alice) "3" Fixture.db0
     = (Spec.Unauthorized, Fixture.db0).
Proof.
  apply (staff_requires_admin Fixture.parseInt Fixture.bcrypt_hash
           (Some Fixture.alice)).
  right. exists Fixture.alice. split; [reflexivity|]. vm_compute. discriminate.
Defined.

(** The admin creates Carol, and tries to create a second Alice. *)
Lemma staff_create_witness :
  (exists newStaff db',
     StaffRoute.POST Fixture.bcrypt_hash (Some Fixture.admin)
       (Some "carol"%string) (Some "pw"%string) (Some "media_buyer"%string)
       4 Fixture.june1 Fixture.db0
     = (ok (StaffRoute.view newStaff) 201, db')
     /\ User.role newStaff = "staff"%string
     /\ users db' = users Fixture.db0 ++ [newStaff])
  /\ StaffRoute.POST Fixture.bcrypt_hash (Some Fixture.admin)
       (Some "alice"%string) (Some "pw"%string) (Some "media_buyer"%string)
       4 Fixture.june1 Fixture.db0
     = (fail "Username already exists" 400, Fixture.db0).
Proof.
  split.
  - destruct (proj2 (proj2
                (staff_create Fixture.bcrypt_hash Fixture.admin
                   (Some "carol"%string) (Some "pw"%string)
                   (Some "media_buyer"%string) 4 Fixture.june1 Fixture.db0
                   eq_refl)) eq_refl)
      as (newStaff & db' & Hrun & Hnew & Husers & _).
    + vm_compute. intros u [<- | [<- | [<- | []]]]; discriminate.
    + exists newStaff, db'. split; [exact Hrun|].
      split; [rewrite Hnew; reflexivity|exact Husers].
  - apply (proj1 (proj2
             (staff_create Fixture.bcrypt_hash Fixture.admin
                (Some "alice"%string) (Some "pw"%string)
                (Some "media_buyer"%string) 4 Fixture.june1 Fixture.db0
                eq_refl))
             (Fixture.user 2 "alice" "staff" (Some "media_buyer"%string))).
    + reflexivity.
    + right. left. reflexivity.
    + reflexivity.
Defined.

(** The admin creates Carol, renames Bob to Carol, deletes Bob. *)
Lemma staff_keeps_users_in_order_witness :
  StaffSpec.UsersOk
    (users (snd (StaffRoute.POST Fixture.bcrypt_hash (Some Fixture.admin)
                   (Some "carol"%string) (Some "pw"%string)
                   (Some "media_buyer"%string) 4 Fixture.june1 Fixture.db0)))
  /\ StaffSpec.UsersOk
       (users (snd (StaffIdRoute.PUT Fixture.parseInt Fixture.bcrypt_hash
                      (Some Fixture.admin) "3" (Some "carol"%string)
                      (Some "pw"%string) (Some "media_buyer"%string)
                      Fixture.db0)))
  /\ StaffSpec.UsersOk
       (users (snd (StaffIdRoute.DELETE Fixture.parseInt (Some Fixture.admin)
                      "3" Fixture.db0))).
Proof.
  destruct (staff_keeps_users_in_order Fixture.parseInt Fixture.bcrypt_hash
              (Some Fixture.admin) "3" (Some "carol"%string)
              (Some "pw"%string) (Some "media_buyer"%string) 4 Fixture.june1
              Fixture.db0 sample_users_in_order)
    as (Hpost & Hput & Hdelete).
  split; [|split; assumption].
  apply Hpost. vm_compute. intros [H | [H | [H | []]]]; discriminate.
Defined.

(** The admin renames Alice and gives her a new position, no password. *)
Lemma staff_update_witness :
  exists u' db',
    StaffIdRoute.PUT Fixture.parseInt Fixture.bcrypt_hash (Some Fixture.admin)
      "2" (Some "alice2"%string) None (Some "project_manager"%string)
      Fixture.db0
    = (json (staff_of (StaffRoute.view u')) 200, db')
    /\ User.username u' = "alice2"%string
    /\ User.password u' = Fixture.bcrypt_hash "alice"
    /\ User.role u' = "staff"%string
    /\ Prisma.findUnique User.id 2 (users db') = Some u'.
Proof.
  destruct (staff_update Fixture.parseInt Fixture.bcrypt_hash Fixture.admin
              "2" 2 (Some "alice2"%string) None
              (Some "project_manager"%string)
              (Fixture.user 2 "alice" "staff" (Some "media_buyer"%string))
              Fixture.db0 eq_refl eq_refl eq_refl eq_refl eq_refl eq_refl
              eq_refl)
    as (u' & db' & Hrun & Hname & _ & Hpw & Hrole & _ & _ & Hfind & _).
  - vm_compute. intros x [<- | [<- | [<- | []]]]; discriminate.
  - exists u', db'. repeat split; assumption.
Defined.

(** The admin account of the sample store, whatever the admin asks for. *)
Lemma staff_handlers_spare_others_witness :
  StaffSpec.others
    (users (snd (StaffRoute.POST Fixture.bcrypt_hash (Some Fixture.admin)
                   (Some "carol"%string) (Some "pw"%string)
                   (Some "media_buyer"%string) 4 Fixture.june1 Fixture.db0)))
  = StaffSpec.others (users Fixture.db0)
  /\ StaffSpec.others
       (users (snd (StaffIdRoute.PUT Fixture.parseInt Fixture.bcrypt_hash
                      (Some Fixture.admin) "1" (Some "root"%string)
                      (Some "pw"%string) (Some "media_buyer"%string)
                      Fixture.db0)))
     = StaffSpec.others (users Fixture.db0)
  /\ StaffSpec.others
       (users (snd (StaffIdRoute.DELETE Fixture.parseInt (Some Fixture.admin)
                      "1" Fixture.db0)))
     = StaffSpec.others (users Fixture.db0).
Proof.
  apply (staff_handlers_spare_others Fixture.parseInt Fixture.bcrypt_hash
           (Some Fixture.admin) "1" (Some "root"%string) (Some "pw"%string)
           (Some "media_buyer"%string) 4 Fixture.june1 Fixture.db0).
  exact (StaffSpec.ids_distinct _ sample_users_in_order).
Defined.

End StaffMoreFacts.

(** ** The seed script *)

Module SeedFacts.

Lemma upsert_ensure (name : string) (create : User.t) (rows : list User.t) :
  User.username create = name ->
  exists u,
    Seed.upsert name create rows = Some (u, SeedSpec.ensure name create rows).
Proof.
  intro Hname. unfold Seed.upsert, SeedSpec.ensure, Prisma.findFirst.
  destruct (find _ rows) as [x | ] eqn:Hfind.
  - exists x. apply find_some in Hfind. destruct Hfind as [Hin Hx].
    replace (existsb _ rows) with true; [reflexivity|].
    symmetry. apply existsb_exists. exists x. split; assumption.
  - exists create. unfold StaffRoute.createUser. rewrite Hname.
    rewrite (StaffMoreFacts.find_none_existsb _ _ Hfind). reflexivity.
Qed.

Lemma has_name (name : string) (rows : list User.t) :
  existsb (fun u => (User.username u =? name)%string) rows = true
  <-> In name (map User.username rows).
Proof.
  rewrite existsb_exists, in_map_iff. split; intros (x & H1 & H2).
  - exists x. split; [|exact H1]. apply String.eqb_eq. exact H2.
  - exists x. split; [exact H2|]. apply String.eqb_eq. exact H1.
Qed.

Lemma ensure_has (name : string) (create : User.t) (rows : list User.t) :
  User.username create = name ->
  In name (map User.username (SeedSpec.ensure name create rows)).
Proof.
  intro Hname. unfold SeedSpec.ensure.
  destruct (existsb _ rows) eqn:H.
  - apply has_name. exact H.
  - rewrite map_app. apply in_or_app. right. left. exact Hname.
Qed.

Lemma ensure_present (name : string) (create : User.t) (rows : list User.t) :
  In name (map User.username rows) -> SeedSpec.ensure name create rows = rows.
Proof.
  intro H. unfold SeedSpec.ensure. apply has_name in H. rewrite H. reflexivity.
Qed.

Lemma ensure_keeps (name other : string) (create : User.t)
  (rows : list User.t) :
  In other (map User.username rows) ->
  In other (map User.username (SeedSpec.ensure name create rows)).
Proof.
  intro H. unfold SeedSpec.ensure. destruct (existsb _ rows); [exact H|].
  rewrite map_app. apply in_or_app. left. exact H.
Qed.

Lemma ensure_extends (name : string) (create : User.t) (rows : list User.t) :
  User.username create = name ->
  exists added,
    SeedSpec.ensure name create rows = rows ++ added
    /\ Forall (fun u => u = create /\ ~ In name (map User.username rows)) added.
Proof.
  intro Hname. unfold SeedSpec.ensure. destruct (existsb _ rows) eqn:H.
  - exists []. split; [symmetry; apply app_nil_r|constructor].
  - exists [create]. split; [reflexivity|].
    constructor; [|constructor]. split; [reflexivity|].
    intro Hin. apply has_name in Hin. congruence.
Qed.

Lemma ensure_names_distinct (name : string) (create : User.t)
  (rows : list User.t) :
  User.username create = name ->
  NoDup (map User.username rows) ->
  NoDup (map User.username (SeedSpec.ensure name create rows)).
Proof.
  intros Hname Hnd. unfold SeedSpec.ensure. destruct (existsb _ rows) eqn:H;
    [exact Hnd|].
  rewrite map_app. cbn [map]. apply NoDup_app; [exact Hnd| |].
  - constructor; [intros []|constructor].
  - intros m Hm [<- | []]. rewrite Hname in Hm. apply has_name in Hm. congruence.
Qed.

Section Script.

Variable bcrypt_hash : string -> string.

(** The table after the script, in closed form. *)
Lemma main_ensure (a1 a2 a3 a4 : Seed.Assigned) (rows : list User.t) :
  Seed.main bcrypt_hash a1 a2 a3 a4 rows
  = Some
      (SeedSpec.ensure "mike_gd"
         (Seed.account bcrypt_hash a4 "mike_gd" "gd123" "staff"
            (Some "graphic_design"%string))
         (SeedSpec.ensure "sarah_mb"
            (Seed.account bcrypt_hash a3 "sarah_mb" "mb123" "staff"
               (Some "media_buyer"%string))
            (SeedSpec.ensure "john_pm"
               (Seed.account bcrypt_hash a2 "john_pm" "pm123" "staff"
                  (Some "project_manager"%string))
               (SeedSpec.ensure "admin"
                  (Seed.account bcrypt_hash a1 "admin" "admin123" "admin" None)
                  rows)))).
Proof.
  unfold Seed.main.
  destruct (upsert_ensure "admin"
              (Seed.account bcrypt_hash a1 "admin" "admin123" "admin" None)
              rows eq_refl) as (u1 & ->).
  cbn [bind].
  destruct (upsert_ensure "john_pm"
              (Seed.account bcrypt_hash a2 "john_pm" "pm123" "staff"
                 (Some "project_manager"%string))
              (SeedSpec.ensure "admin"
                 (Seed.account bcrypt_hash a1 "admin" "admin123" "admin" None)
                 rows) eq_refl) as (u2 & ->).
  cbn [bind].
  match goal with
  | |- context [Seed.upsert "sarah_mb" ?c ?r] =>
      destruct (upsert_ensure "sarah_mb" c r eq_refl) as (u3 & ->)
  end.
  cbn [bind].
  match goal with
  | |- context [Seed.upsert "mike_gd" ?c ?r] =>
      destruct (upsert_ensure "mike_gd" c r eq_refl) as (u4 & ->)
  end.
  reflexivity.
Qed.

End Script.

(** X23: the seed script.  It never fails on a query; it leaves every row
    of the user table where it was and appends an account only for those of
    its four usernames that no user has, so an existing account of such a
    name keeps its password and its role; afterwards each of the four
    usernames has an account, distinct usernames stay distinct, and running
    the script again, with whatever hashes and keys, changes nothing. *)
Theorem seed_is_idempotent (hash hash' : string -> string)
  (a1 a2 a3 a4 b1 b2 b3 b4 : Seed.Assigned) (rows : list User.t) :
  exists rows' added,
    Seed.main hash a1 a2 a3 a4 rows = Some rows'
    /\ rows' = rows ++ added
    /\ Forall (fun u => In (User.username u) SeedSpec.names
                        /\ ~ In (User.username u) (map User.username rows))
         added
    /\ (forall name, In name SeedSpec.names ->
        In name (map User.username rows'))
    /\ (NoDup (map User.username rows) -> NoDup (map User.username rows'))
    /\ Seed.main hash' b1 b2 b3 b4 rows' = Some rows'.
Proof.
  rewrite main_ensure.
  set (c1 := Seed.account hash a1 "admin" "admin123" "admin" None).
  set (c2 := Seed.account hash a2 "john_pm" "pm123" "staff"
               (Some "project_manager"%string)).
  set (c3 := Seed.account hash a3 "sarah_mb" "mb123" "staff"
               (Some "media_buyer"%string)).
  set (c4 := Seed.account hash a4 "mike_gd" "gd123" "staff"
               (Some "graphic_design"%string)).
  set (r1 := SeedSpec.ensure "admin" c1 rows).
  set (r2 := SeedSpec.ensure "john_pm" c2 r1).
  set (r3 := SeedSpec.ensure "sarah_mb" c3 r2).
  set (r4 := SeedSpec.ensure "mike_gd" c4 r3).
  destruct (ensure_extends "admin" c1 rows eq_refl) as (d1 & H1 & F1).
  destruct (ensure_extends "john_pm" c2 r1 eq_refl) as (d2 & H2 & F2).
  destruct (ensure_extends "sarah_mb" c3 r2 eq_refl) as (d3 & H3 & F3).
  destruct (ensure_extends "mike_gd" c4 r3 eq_refl) as (d4 & H4 & F4).
  fold r1 in H1. fold r2 in H2. fold r3 in H3. fold r4 in H4.
  assert (forall other, In other (map User.username rows) ->
                        In other (map User.username r1)) as K1
    by (intros; apply ensure_keeps; assumption).
  assert (forall other, In other (map User.username r1) ->
                        In other (map User.username r2)) as K2
    by (intros; apply ensure_keeps; assumption).
  assert (forall other, In other (map User.username r2) ->
                        In other (map User.username r3)) as K3
    by (intros; apply ensure_keeps; assumption).
  assert (forall other, In other (map User.username r3) ->
                        In other (map User.username r4)) as K4
    by (intros; apply ensure_keeps; assumption).
  assert (In "admin"%string (map User.username r1)) as P1
    by (apply ensure_has; reflexivity).
  assert (In "john_pm"%string (map User.username r2)) as P2
    by (apply ensure_has; reflexivity).
  assert (In "sarah_mb"%string (map User.username r3)) as P3
    by (apply ensure_has; reflexivity).
  assert (In "mike_gd"%string (map User.username r4)) as P4
    by (apply ensure_has; reflexivity).
  exists r4, (d1 ++ d2 ++ d3 ++ d4). split; [reflexivity|]. split.
  { rewrite H4, H3, H2, H1. rewrite <- !app_assoc. reflexivity. }
  split.
  { repeat (apply Forall_app; split).
    - eapply Forall_impl; [|exact F1]. intros u [-> Hu].
      split; [left; reflexivity|exact Hu].
    - eapply Forall_impl; [|exact F2]. intros u [-> Hu].
      split; [right; left; reflexivity|]. intro Hin. apply Hu, K1. exact Hin.
    - eapply Forall_impl; [|exact F3]. intros u [-> Hu].
      split; [right; right; left; reflexivity|].
      intro Hin. apply Hu, K2, K1. exact Hin.
    - eapply Forall_impl; [|exact F4]. intros u [-> Hu].
      split; [right; right; right; left; reflexivity|].
      intro Hin. apply Hu, K3, K2, K1. exact Hin. }
  split.
  { intros name [<- | [<- | [<- | [<- | []]]]].
    - apply K4, K3, K2. exact P1.
    - apply K4, K3. exact P2.
    - apply K4. exact P3.
    - exact P4. }
  split.
  { intro Hnd. apply ensure_names_distinct; [reflexivity|].
    apply ensure_names_distinct; [reflexivity|].
    apply ensure_names_distinct; [reflexivity|].
    apply ensure_names_distinct; [reflexivity|exact Hnd]. }
  rewrite main_ensure.
  rewrite (ensure_present "admin" _ r4) by (apply K4, K3, K2; exact P1).
  rewrite (ensure_present "john_pm" _ r4) by (apply K4, K3; exact P2).
  rewrite (ensure_present "sarah_mb" _ r4) by (apply K4; exact P3).
  rewrite (ensure_present "mike_gd" _ r4) by exact P4.
  reflexivity.
Qed.

(** The script on an empty table, and on a table where admin exists. *)
Lemma seed_is_idempotent_witness :
  exists rows' added,
    Seed.main Fixture.bcrypt_hash
      {| Seed.key := 1; Seed.stamp := 10 |} {| Seed.key := 2; Seed.stamp := 20 |}
      {| Seed.key := 3; Seed.stamp := 30 |} {| Seed.key := 4; Seed.stamp := 40 |}
      (users Fixture.db0) = Some rows'
    /\ rows' = users Fixture.db0 ++ added
    /\ Forall (fun u => In (User.username u) SeedSpec.names
                        /\ ~ In (User.username u)
                               (map User.username (users Fixture.db0)))
         added
    /\ (forall name, In name SeedSpec.names ->
        In name (map User.username rows'))
    /\ (NoDup (map User.username (users Fixture.db0)) ->
        NoDup (map User.username rows'))
    /\ Seed.main Fixture.bcrypt_hash
         {| Seed.key := 5; Seed.stamp := 50 |} {| Seed.key := 6; Seed.stamp := 60 |}
         {| Seed.key := 7; Seed.stamp := 70 |} {| Seed.key := 8; Seed.stamp := 80 |}
         rows' = Some rows'.
Proof.
  exact (seed_is_idempotent Fixture.bcrypt_hash Fixture.bcrypt_hash
           {| Seed.key := 1; Seed.stamp := 10 |} {| Seed.key := 2; Seed.stamp := 20 |}
           {| Seed.key := 3; Seed.stamp := 30 |} {| Seed.key := 4; Seed.stamp := 40 |}
           {| Seed.key := 5; Seed.stamp := 50 |} {| Seed.key := 6; Seed.stamp := 60 |}
           {| Seed.key := 7; Seed.stamp := 70 |} {| Seed.key := 8; Seed.stamp := 80 |}
           (users Fixture.db0)).
Defined.

End SeedFacts.

(** ** The dashboard page against the handlers *)

Module ClientFacts.

Lemma length_datePart (days : Z) :
  String.length (JsIso.datePart days) = 10%nat
  \/ String.length (JsIso.datePart days) = 13%nat.
Proof.
  unfold JsIso.datePart. destruct (JsIso.civil days) as [[y m] d].
  rewrite IsoFacts.length_append.
  destruct (IsoFacts.length_year y) as [-> | ->]; [left | right]; reflexivity.
Qed.

(** The date the page starts with is shorter than a timestamp. *)
Lemma length_today (now : Z) : (String.length (TaskTable.today now) < 24)%nat.
Proof.
  unfold TaskTable.today. rewrite IsoFacts.beforeT_toISOString.
  destruct (length_datePart (now / 86400000)) as [-> | ->]; lia.
Qed.

Lemma eqb_length (a b : string) :
  String.length a <> String.length b -> (a =? b)%string = false.
Proof.
  intro H. apply String.eqb_neq. intros ->. apply H. reflexivity.
Qed.

(** No report of an answer carries a date equal to a text shorter than a
    timestamp. *)
Lemma no_report_matches (selectedDate : string) (rows : list DailyReport.t) :
  (String.length selectedDate < 24)%nat ->
  existsb
    (fun r => (TaskTable.date r =? selectedDate)%string && TaskTable.submitted r)
    (map TaskTable.fromJson rows) = false.
Proof.
  intro Hlen. induction rows as [|r rows IH]; [reflexivity|].
  cbn [map existsb]. rewrite IH, Bool.orb_false_r.
  apply Bool.andb_false_iff. left. apply eqb_length.
  unfold TaskTable.fromJson. cbn [TaskTable.date].
  destruct (IsoFacts.length_toISOString (DailyReport.date r)) as [-> | ->]; lia.
Qed.

Lemma check_2xx (selectedDate : string) (listing : ReportsList.Listing)
  (status : Z) :
  (String.length selectedDate < 24)%nat ->
  200 <= status <= 299 ->
  TaskTable.checkReportStatus selectedDate (ok listing status) = Some false.
Proof.
  intros Hlen Hst. unfold TaskTable.checkReportStatus.
  replace ((200 <=? status) && (status <=? 299)) with true
    by (symmetry; apply Bool.andb_true_iff; split; apply Z.leb_le; lia).
  f_equal. destruct listing as [entries | rows]; cbn [TaskTable.reportsOf].
  - rewrite <- (map_map ReportsList.entry_report TaskTable.fromJson).
    apply no_report_matches. exact Hlen.
  - apply no_report_matches. exact Hlen.
Qed.

Lemma check_never_true (selectedDate : string)
  (response : Reply ReportsList.Listing) :
  (String.length selectedDate < 24)%nat ->
  TaskTable.checkReportStatus selectedDate response <> Some true.
Proof.
  intro Hlen. destruct response as [msg st | listing st]; [discriminate|].
  destruct (Z.le_gt_cases 200 st) as [H1 | H1];
    [destruct (Z.le_gt_cases st 299) as [H2 | H2]|].
  - rewrite check_2xx by (try assumption; lia). discriminate.
  - unfold TaskTable.checkReportStatus.
    replace (st <=? 299) with false by (symmetry; apply Z.leb_gt; lia).
    rewrite Bool.andb_false_r. discriminate.
  - unfold TaskTable.checkReportStatus.
    replace (200 <=? st) with false by (symmetry; apply Z.leb_gt; lia).
    discriminate.
Qed.

Section Page.

Variable zone : Zone.t.
Hypothesis regular : Spec.Regular zone.
Variable newDate : string -> JsDate.Date.

Local Abbreviation POST := (ReportsRoute.POST zone newDate).
Local Abbreviation GET := (ReportsList.GET zone newDate).
Local Abbreviation isDeadlinePassed := (TaskTable.isDeadlinePassed zone newDate).

(** X24: where the browser and the server are in the same time zone, the
    page's [isDeadlinePassed] says of a date and an instant exactly what the
    submit handler decides at that instant: it is true just when the date
    parses and the instant is after the last millisecond of the local day
    that follows the day of the date, and just when the handler answers
    DeadlinePassed, whoever submits and whatever the store holds. *)
Theorem page_deadline_is_handler_deadline (s : Auth.SessionPayload)
  (selectedDate : string) (now submitNow : Z) (db : Db) :
  selectedDate <> EmptyString ->
  (isDeadlinePassed selectedDate now = true
   <-> exists t, newDate selectedDate = Some t
                 /\ now > Spec.deadline zone t)
  /\ (isDeadlinePassed selectedDate now = true
      <-> fst (POST (Some s) (Some selectedDate) now submitNow db)
          = Spec.DeadlinePassed).
Proof.
  intro Hne.
  assert (Js.truthy (Some selectedDate) = true) as Hdate.
  { cbn [Js.truthy]. apply Bool.negb_true_iff, String.eqb_neq. exact Hne. }
  change (isDeadlinePassed selectedDate now)
    with (JsDate.gt (Some now) (ReportsRoute.deadlineOf zone newDate selectedDate)).
  destruct (newDate selectedDate) as [t | ] eqn:Ht.
  - rewrite (ReportFacts.deadlineOf_deadline zone regular newDate _ _ Ht).
    rewrite (ReportFacts.POST_run zone regular newDate s (Some selectedDate) t now
               submitNow db Hdate Ht).
    cbn [JsDate.gt].
    destruct (Z.gtb_spec now (Spec.deadline zone t)) as [Hgt | Hle].
    + split; split; intros _; try reflexivity.
      exists t. split; [reflexivity|lia].
    + split; split; try discriminate.
      * intros (t' & Heq & Hnow). injection Heq as <-. lia.
      * destruct (Prisma.count _ (tasks db) =? 0); [discriminate|].
        destruct (Prisma.findFirst _ (reports db)) as [e | ].
        -- destruct (Prisma.update _ _ _ _) as [[r rows] | ]; discriminate.
        -- destruct (Prisma.createReport _ _ _ _ _ _) as [[r db'] | ];
             discriminate.
  - rewrite (ReportFacts.POST_invalid_date zone newDate s (Some selectedDate) now
               submitNow db Hdate Ht).
    unfold ReportsRoute.deadlineOf, JsDate.setHours. rewrite Ht.
    cbn [option_map JsDate.getHours JsDate.setHours1 JsDate.gt].
    split; split; try discriminate.
    intros (t' & Heq & _). discriminate.
Qed.

(** X25: [checkReportStatus] compares the date of each report of the
    answer, a timestamp of 24 or 27 characters, with the selected date.
    With the date the page starts with, or any date of 10 characters, it
    never sets the submitted state to true, whatever the answer; for a
    staff session and a date that parses the list arrives with status 200
    and the state is set to false, whatever reports the store holds. *)
Theorem page_report_status (selectedDate : string) (now : Z) :
  selectedDate = TaskTable.today now \/ String.length selectedDate = 10%nat ->
  (forall response,
     TaskTable.checkReportStatus selectedDate response <> Some true)
  /\ (forall s t db,
        Auth.role s <> "admin"%string ->
        newDate selectedDate = Some t ->
        TaskTable.checkReportStatus selectedDate
          (GET (Some s) (Some selectedDate) db) = Some false).
Proof.
  intro Hsel.
  assert ((String.length selectedDate < 24)%nat) as Hlen.
  { destruct Hsel as [-> | ->]; [apply length_today | lia]. }
  split.
  - intro response. apply check_never_true. exact Hlen.
  - intros s t db Hrole Ht.
    assert (Js.truthy (Some selectedDate) = true) as Hdate.
    { cbn [Js.truthy]. apply Bool.negb_true_iff, String.eqb_neq.
      intros ->. revert Hsel. clear. intros [H | H]; [|discriminate].
      pose proof (length_datePart (now / 86400000)) as Hl.
      unfold TaskTable.today in H. rewrite IsoFacts.beforeT_toISOString in H.
      rewrite <- H in Hl. cbn in Hl. lia. }
    destruct (ReportListFacts.GET_own_answered zone newDate s
                (Some selectedDate) t db Hrole Hdate Ht) as (l & ->).
    apply check_2xx; [exact Hlen | lia].
Qed.

End Page.

Lemma page_deadline_is_handler_deadline_witness :
  (TaskTable.isDeadlinePassed Fixture.zone Fixture.newDate "2024-06-01"
     (Fixture.june1 + 3 * 86400000) = true
   <-> exists t, Fixture.newDate "2024-06-01" = Some t
                 /\ Fixture.june1 + 3 * 86400000
                    > Spec.deadline Fixture.zone t)
  /\ (TaskTable.isDeadlinePassed Fixture.zone Fixture.newDate "2024-06-01"
        (Fixture.june1 + 3 * 86400000) = true
      <-> fst (ReportsRoute.POST Fixture.zone Fixture.newDate (Some Fixture.alice)
                 (Some "2024-06-01"%string) (Fixture.june1 + 3 * 86400000)
                 (Fixture.june1 + 3 * 86400000) Fixture.db0)
          = Spec.DeadlinePassed).
Proof.
  apply (page_deadline_is_handler_deadline Fixture.zone DateFacts.Regular_zone Fixture.newDate
           Fixture.alice "2024-06-01" (Fixture.june1 + 3 * 86400000)
           (Fixture.june1 + 3 * 86400000) Fixture.db0).
  discriminate.
Defined.

Lemma page_report_status_witness :
  (forall response,
     TaskTable.checkReportStatus "2024-06-01" response <> Some true)
  /\ (forall s t db,
        Auth.role s <> "admin"%string ->
        Fixture.newDate "2024-06-01" = Some t ->
        TaskTable.checkReportStatus "2024-06-01"
          (ReportsList.GET Fixture.zone Fixture.newDate (Some s)
             (Some "2024-06-01"%string) db) = Some false).
Proof.
  apply (page_report_status Fixture.zone Fixture.newDate "2024-06-01"
           Fixture.june1).
  left. vm_compute. reflexivity.
Defined.

End ClientFacts.
